(** * Index arithmetic of the Google Docs / Sheets editing tools

    A shallow embedding of the coordinate translation, structural
    resolution and request building code of
    [src/googleSheetsApiHelpers.ts] and [src/tools/docs/editTableCell.ts],
    together with the properties the specification states about them.

    Conventions of the embedding.
    - A JavaScript string is a [string]; one character stands for one
      UTF-16 code unit, so the texts covered are those whose code units
      are below 256.  The upper case of such a text can hold code units
      from 256 on, so [toUpperCaseUnits] gives it as a list of code
      units.
    - A JavaScript number that holds an index, an offset or a count is
      the [Z] it is equal to: the numbers covered are the doubles that
      are integers (no fraction, no NaN, no infinity).  Sums,
      differences, products and quotients are rounded as the source
      rounds them ([JsNumber.add], [sub], [mul], [floorDiv]); up to
      2^53 in magnitude they are exact.  The offsets the table-cell
      editor adds are those of a document and are added exactly.  A
      colour component, the quotient of an integer by 255, is a [Q].
    - [undefined] and [null] are [None].
    - A function that throws returns [inl] of what it throws. *)

From Stdlib Require Import ZArith QArith String Ascii DecimalString DecimalPos List Bool Lia.
From Equations Require Import Equations.
Import ListNotations.

Local Open Scope string_scope.
Local Open Scope list_scope.
Local Open Scope Z_scope.

(** ** JavaScript strings *)

Module JsString.

(** [s.charCodeAt(i)] of the character [c] at position [i]. *)
Definition charCode (c : ascii) : Z := Z.of_N (N_of_ascii c).

(** [String.fromCharCode(n)], for a code unit below 256. *)
Definition fromCharCode (n : Z) : ascii := ascii_of_N (Z.to_N n).

Definition isDigit (c : ascii) : bool :=
  (48 <=? charCode c) && (charCode c <=? 57).

Definition isUpper (c : ascii) : bool :=
  (65 <=? charCode c) && (charCode c <=? 90).

Definition isLower (c : ascii) : bool :=
  (97 <=? charCode c) && (charCode c <=? 122).

(** The class [[A-Z]] under the flag [i]: without the flag [u] no
    character outside ASCII is folded onto an ASCII letter. *)
Definition isLetter (c : ascii) : bool := isUpper c || isLower c.

(** The upper case of an ASCII character and of an ASCII text (code
    units below 128), where upper-casing maps [a-z] to [A-Z] and
    changes nothing else.  The properties use it for texts of letters;
    the functions below upper-case with [toUpperCaseUnits]. *)
Definition toUpperChar (c : ascii) : ascii :=
  if isLower c then fromCharCode (charCode c - 32) else c.

Fixpoint toUpperCase (s : string) : string :=
  match s with
  | EmptyString => EmptyString
  | String c rest => String (toUpperChar c) (toUpperCase rest)
  end.

(** The code units of [String.fromCharCode(n).toUpperCase()] for a
    code unit [n] below 256, after the Unicode case mappings: [a-z]
    and the letters 224 to 254 but the division sign 247 move down by
    32, the micro sign 181 becomes 924, the sharp s 223 becomes SS,
    the y with diaeresis 255 becomes 376, and every other code unit
    stays. *)
Definition upperUnits (c : ascii) : list Z :=
  let n := charCode c in
  if isLower c then [n - 32]
  else if n =? 181 then [924]
  else if n =? 223 then [83; 83]
  else if (224 <=? n) && (n <=? 254) && negb (n =? 247) then [n - 32]
  else if n =? 255 then [376]
  else [n].

(** The code units of a text: [s.charCodeAt(i)] is the element [i]. *)
Fixpoint codeUnits (s : string) : list Z :=
  match s with
  | EmptyString => []
  | String c rest => charCode c :: codeUnits rest
  end.

(** The code units of [s.toUpperCase()]: [upper.charCodeAt(i)] is the
    element [i], [upper.length] the length. *)
Fixpoint toUpperCaseUnits (s : string) : list Z :=
  match s with
  | EmptyString => []
  | String c rest => upperUnits c ++ toUpperCaseUnits rest
  end.

(** [s.length] *)
Definition length (s : string) : Z := Z.of_nat (String.length s).

(** [s.includes(c)] for a one-character needle. *)
Fixpoint includesChar (c : ascii) (s : string) : bool :=
  match s with
  | EmptyString => false
  | String d rest => Ascii.eqb d c || includesChar c rest
  end.

(** A string is truthy when it is not empty. *)
Definition truthy (s : string) : bool :=
  match s with EmptyString => false | String _ _ => true end.

Fixpoint forallb (p : ascii -> bool) (s : string) : bool :=
  match s with
  | EmptyString => true
  | String c rest => p c && forallb p rest
  end.

(** The longest prefix of [s] whose characters satisfy [p], and the
    rest of [s]: what a greedy [[class]*] consumes. *)
Fixpoint span (p : ascii -> bool) (s : string) : string * string :=
  match s with
  | EmptyString => (EmptyString, EmptyString)
  | String c rest =>
      if p c then let (a, b) := span p rest in (String c a, b)
      else (EmptyString, s)
  end.

End JsString.

(** ** JavaScript numbers *)

Module JsNumber.
Import JsString.

(** The integer nearest to the quotient [n / d], the even one of the
    two when they are equally near ([0 <= n], [0 < d]). *)
Definition nearestEven (n d : Z) : Z :=
  let q := n / d in
  let r := n mod d in
  if 2 * r <? d then q
  else if d <? 2 * r then q + 1
  else if Z.even q then q else q + 1.

(** The double nearest to the integer [z], ties to even: [z] itself up
    to 2^53 in magnitude, and above it the nearest multiple of the
    spacing [2^e] of the doubles around [z], which have 53 significant
    bits.  (Finite doubles: from 2^1024 on the source has Infinity,
    which is not a number of this embedding.) *)
Definition double (z : Z) : Z :=
  if Z.abs z <=? 2 ^ 53 then z
  else
    let e := Z.log2 (Z.abs z) - 52 in
    Z.sgn z * (nearestEven (Z.abs z) (2 ^ e) * 2 ^ e).

(** [a + b], [a - b] and [a * b] on doubles that are integers. *)
Definition add (a b : Z) : Z := double (a + b).
Definition sub (a b : Z) : Z := double (a - b).
Definition mul (a b : Z) : Z := double (a * b).

(** [Math.floor(a / b)] for [0 <= a] and [0 < b < 2^53]: the quotient
    is rounded to a double, with 53 significant bits, before the
    floor is taken.  Below the divisor the quotient is below 1 and so
    is its double. *)
Definition floorDiv (a b : Z) : Z :=
  if a <? b then 0
  else
    let e := Z.log2 (a / b) - 52 in
    if 0 <=? e then nearestEven a (b * 2 ^ e) * 2 ^ e
    else nearestEven (a * 2 ^ (- e)) b / 2 ^ (- e).

(** The white space and line terminators [parseInt] skips, among the
    code units below 256: TAB, LF, VT, FF, CR, SP and NBSP. *)
Definition isWhiteSpace (c : ascii) : bool :=
  let n := charCode c in
  ((9 <=? n) && (n <=? 13)) || (n =? 32) || (n =? 160).

Fixpoint trimStart (s : string) : string :=
  match s with
  | EmptyString => EmptyString
  | String c rest => if isWhiteSpace c then trimStart rest else s
  end.

(** The value of a digit in a radix up to 36. *)
Definition digitValue (c : ascii) : option Z :=
  if isDigit c then Some (charCode c - 48)
  else if isLower c then Some (charCode c - 87)
  else if isUpper c then Some (charCode c - 55)
  else None.

Definition isRadixDigit (radix : Z) (c : ascii) : bool :=
  match digitValue c with
  | Some v => v <? radix
  | None => false
  end.

Fixpoint digitsValue (radix : Z) (digits : string) (acc : Z) : Z :=
  match digits with
  | EmptyString => acc
  | String c rest =>
      digitsValue radix rest
        (acc * radix + match digitValue c with Some v => v | None => 0 end)
  end.

(** [parseInt(s, radix)] for an explicit radix between 2 and 36, after
    ECMAScript: skip leading white space, read a sign, with radix 16
    skip a prefix 0x or 0X, then read the longest run of digits of the
    radix and ignore what follows it; the number is the double nearest
    to the integer the digits spell.  [None] is NaN. *)
Definition parseInt (s : string) (radix : Z) : option Z :=
  let s := trimStart s in
  let '(sign, s) :=
    match s with
    | String "-" rest => (-1, rest)
    | String "+" rest => (1, rest)
    | _ => (1, s)
    end in
  let s :=
    if radix =? 16 then
      match s with
      | String "0" (String "x" rest) => rest
      | String "0" (String "X" rest) => rest
      | _ => s
      end
    else s in
  let (digits, _) := span (isRadixDigit radix) s in
  if truthy digits then Some (double (sign * digitsValue radix digits 0))
  else None.

(** ToInt32, the operand conversion of the bitwise operators. *)
Definition toInt32 (x : Z) : Z := (x + 2 ^ 31) mod 2 ^ 32 - 2 ^ 31.

(** [a >> b] *)
Definition sar (a b : Z) : Z := Z.shiftr (toInt32 a) (b mod 32).

(** [a & b] *)
Definition band (a b : Z) : Z := Z.land (toInt32 a) (toInt32 b).

(** The decimal digits of an integer. *)
Definition decimal (n : Z) : string :=
  DecimalString.NilZero.string_of_int (Z.to_int n).

Definition digitCount (x : Z) : Z := Z.of_nat (String.length (decimal x)).

(** The decimal of [k] significant digits whose double is [x], if
    there is one: the multiple of [10^(digits of x - k)] just below
    [x] or the one just above, the nearer to [x] if both are, the one
    with the even last digit if they are equally near. *)
Definition withDigits (x : Z) (k : Z) : option Z :=
  let p := 10 ^ Z.max 0 (digitCount x - k) in
  let lo := x / p * p in
  let hi := lo + p in
  match double lo =? x, double hi =? x with
  | true, true =>
      if x - lo <? hi - x then Some lo
      else if hi - x <? x - lo then Some hi
      else if Z.even (lo / p) then Some lo else Some hi
  | true, false => Some lo
  | false, true => Some hi
  | false, false => None
  end.

(** The decimal of fewest significant digits whose double is [x],
    trying the numbers of digits [ks] in turn. *)
Fixpoint shortest (x : Z) (ks : list Z) : Z :=
  match ks with
  | [] => x
  | k :: rest =>
      match withDigits x k with
      | Some c => c
      | None => shortest x rest
      end
  end.

Fixpoint dropZeros (n : nat) (c : Z) : Z :=
  match n with
  | O => c
  | S n => if c mod 10 =? 0 then dropZeros n (c / 10) else c
  end.

(** The exponential notation of [c]: its significant digits, a point
    after the first, and the exponent. *)
Definition exponential (c : Z) : string :=
  let n := digitCount c in
  let s := decimal (dropZeros (Z.to_nat n) c) in
  match s with
  | String d EmptyString => String d ("e+" ++ decimal (n - 1))
  | String d rest => String d ("." ++ rest ++ "e+" ++ decimal (n - 1))
  | EmptyString => EmptyString
  end.

(** The text of a number, as a template literal prints it
    (Number::toString): the fewest significant digits that read back
    as the number, in decimal below 10^21 and in exponential notation
    from there on.  Up to 2^53 these are the decimal digits of the
    number. *)
Definition toStringPos (x : Z) : string :=
  if x <=? 2 ^ 53 then decimal x
  else
    let c := shortest x [1; 2; 3; 4; 5; 6; 7; 8; 9; 10; 11; 12; 13; 14; 15; 16; 17] in
    if c <? 10 ^ 21 then decimal c else exponential c.

Definition toString (n : Z) : string :=
  if n <? 0 then String "-" (toStringPos (- n)) else toStringPos n.

End JsNumber.

(** ** Coordinate translator: column letters *)

(** The loop of [colLettersToIndex] (lines 339-341):
    [index = index * 26 + (upper.charCodeAt(i) - 64)] for each [i],
    over the code units of [upper]. *)
Fixpoint colLettersToIndex_loop (upper : list Z) (index : Z) : Z :=
  match upper with
  | [] => index
  | code :: rest =>
      colLettersToIndex_loop rest
        (JsNumber.add (JsNumber.mul index 26) (JsNumber.sub code 64))
  end.

(** [colLettersToIndex] (lines 336-343).  The source has no failure
    path: every string yields a number. *)
Definition colLettersToIndex (col : string) : Z :=
  let upper := JsString.toUpperCaseUnits col in
  JsNumber.sub (colLettersToIndex_loop upper 0) 1.

(** [colLetterToIndex], the copy local to [batchFormat] (lines 910-917). *)
Definition colLetterToIndex (col : string) : Z :=
  let col := JsString.toUpperCaseUnits col in
  JsNumber.sub (colLettersToIndex_loop col 0) 1.

(** The [while (colNum > 0)] loop of [rowColToA1] (lines 44-48):
    [colNum -= 1], then the letter of [colNum % 26] (the remainder of
    a double is exact) goes before [colStr], then
    [colNum = Math.floor(colNum / 26)].  The loop ends because the
    rounded quotient stays below [colNum]: a double and a quotient
    are at most doubled by their rounding. *)
Equations? rowColToA1_loop (colNum : Z) (colStr : string) : string
  by wf (Z.to_nat colNum) lt :=
  rowColToA1_loop colNum colStr with Z_lt_dec 0 colNum => {
    | left _ :=
        rowColToA1_loop
          (JsNumber.floorDiv (JsNumber.sub colNum 1) 26)
          (String
             (JsString.fromCharCode (65 + Z.rem (JsNumber.sub colNum 1) 26))
             colStr);
    | right _ := colStr }.
Proof.
  assert (Hlower : forall n d, 0 < d -> n / d <= JsNumber.nearestEven n d).
  { intros n d Hd. unfold JsNumber.nearestEven.
    destruct (2 * (n mod d) <? d); [lia|].
    destruct (d <? 2 * (n mod d)); [lia|].
    destruct (Z.even (n / d)); lia. }
  assert (Hupper : forall n d,
             0 < d -> 2 * d * JsNumber.nearestEven n d <= 2 * n + d).
  { intros n d Hd. unfold JsNumber.nearestEven.
    pose proof (Z.div_mod n d ltac:(lia)) as Hn.
    pose proof (Z.mod_pos_bound n d Hd) as Hr.
    destruct (Z.ltb_spec (2 * (n mod d)) d); [nia|].
    destruct (Z.ltb_spec d (2 * (n mod d))); [nia|].
    destruct (Z.even (n / d)); nia. }
  assert (Hdouble : 0 <= JsNumber.sub colNum 1 <= 2 * (colNum - 1)).
  { unfold JsNumber.sub, JsNumber.double. set (x := colNum - 1).
    destruct (Z.leb_spec (Z.abs x) (2 ^ 53)) as [|Hbig]; [lia|].
    assert (Hpos : 2 ^ 53 < x) by lia.
    rewrite Z.abs_eq, Z.sgn_pos by lia.
    set (e := Z.log2 x - 52).
    assert (Hlog : 53 <= Z.log2 x) by (apply Z.log2_le_pow2; lia).
    destruct (Z.log2_spec x ltac:(lia)) as [Hlo _].
    assert (Hpow : 0 < 2 ^ e) by (apply Z.pow_pos_nonneg; unfold e; lia).
    assert (Hle : 2 ^ e <= x).
    { apply Z.le_trans with (2 ^ Z.log2 x); [|exact Hlo].
      apply Z.pow_le_mono_r; unfold e; lia. }
    pose proof (Hlower x (2 ^ e) Hpow) as H1.
    pose proof (Hupper x (2 ^ e) Hpow) as H2.
    assert (0 <= x / 2 ^ e) by (apply Z.div_pos; lia).
    nia. }
  set (a := JsNumber.sub colNum 1) in *.
  assert (Hquotient : 0 <= JsNumber.floorDiv a 26 /\
                      JsNumber.floorDiv a 26 * 26 <= 2 * a).
  { unfold JsNumber.floorDiv.
    destruct (Z.ltb_spec a 26) as [|Hab]; [lia|].
    set (q := a / 26).
    assert (Hq : 1 <= q) by (unfold q; apply Z.div_le_lower_bound; lia).
    pose proof (Z.mul_div_le a 26 ltac:(lia)) as Hqa. fold q in Hqa.
    destruct (Z.log2_spec q ltac:(lia)) as [Hlo _].
    pose proof (Z.log2_nonneg q) as Hk.
    set (e := Z.log2 q - 52).
    destruct (Z.leb_spec 0 e) as [He|He].
    - assert (Hpow : 0 < 2 ^ e) by (apply Z.pow_pos_nonneg; lia).
      assert (Hle : 2 ^ e <= q).
      { apply Z.le_trans with (2 ^ Z.log2 q); [|exact Hlo].
        apply Z.pow_le_mono_r; unfold e; lia. }
      assert (Hd : 0 < 26 * 2 ^ e) by lia.
      pose proof (Hlower a (26 * 2 ^ e) Hd) as H1.
      pose proof (Hupper a (26 * 2 ^ e) Hd) as H2.
      assert (0 <= a / (26 * 2 ^ e)) by (apply Z.div_pos; lia).
      split; nia.
    - set (P := 2 ^ (- e)).
      assert (HP : 1 <= P).
      { unfold P. apply Z.lt_pred_le. apply Z.pow_pos_nonneg; lia. }
      pose proof (Hlower (a * P) 26 ltac:(lia)) as H1.
      pose proof (Hupper (a * P) 26 ltac:(lia)) as H2.
      assert (0 <= a * P / 26) by (apply Z.div_pos; nia).
      set (m := JsNumber.nearestEven (a * P) 26) in *.
      pose proof (Z.mul_div_le m P ltac:(lia)) as Hm.
      assert (0 <= m / P) by (apply Z.div_pos; lia).
      split; [lia|].
      assert (m / P * 26 * P <= 2 * a * P) by nia.
      nia. }
  lia.
Qed.

(** The column letters [rowColToA1] computes for the zero-based column
    [col] (lines 42-48): the specification's [indexToColumnLetters]. *)
Definition indexToColumnLetters (col : Z) : string :=
  rowColToA1_loop (JsNumber.add col 1) EmptyString.

(** ** Errors

    Every failure of the helpers is a [UserError] built from a message
    template; a constructor stands for a template and carries what the
    template interpolates. *)
Inductive UserError : Type :=
  (** Row and column indices must be non-negative. *)
  | NegativeRowCol (row col : Z)
  (** Sheet ... not found in spreadsheet. *)
  | SheetNotFound (sheetName : string)
  (** Spreadsheet has no sheets. *)
  | SpreadsheetHasNoSheets
  (** Invalid range format: ... Expected A1:B2, 1:1 (whole row), or A:A
      (whole column). *)
  | InvalidRangeFormat (a1Range : string)
  (** Invalid A1 range: ... *)
  | InvalidA1Range (a1 : string)
  (** Spreadsheet not found (ID: ...). Check the ID. *)
  | SpreadsheetNotFound (spreadsheetId : string)
  (** Permission denied for spreadsheet (ID: ...). *)
  | PermissionDenied (spreadsheetId : string)
  (** Failed to <action>: <message of the caught error>. *)
  | Failed (action : string) (message : string).

(** The error classes of the specification (section 7). *)
Inductive ErrorKind : Type :=
  InvalidFormat | NotFound | EmptyDocument | Forbidden | Other.

Definition errorKind (e : UserError) : ErrorKind :=
  match e with
  | NegativeRowCol _ _ => InvalidFormat
  | SheetNotFound _ => NotFound
  | SpreadsheetHasNoSheets => EmptyDocument
  | InvalidRangeFormat _ => InvalidFormat
  | InvalidA1Range _ => InvalidFormat
  | SpreadsheetNotFound _ => NotFound
  | PermissionDenied _ => Forbidden
  | Failed _ _ => Other
  end.

(** [rowColToA1] (lines 35-51). *)
Definition rowColToA1 (row col : Z) : UserError + string :=
  if (row <? 0) || (col <? 0) then inl (NegativeRowCol row col)
  else
    let colStr := rowColToA1_loop (JsNumber.add col 1) EmptyString in
    inr (colStr ++ JsNumber.toString (JsNumber.add row 1))%string.

(** [normalizeRange] (lines 57-70). *)
Definition normalizeRange (range : string) (sheetName : option string) : string :=
  if JsString.includesChar "!" range then range
  else
    match sheetName with
    | Some name =>
        if JsString.truthy name then (name ++ "!" ++ range)%string
        else ("Sheet1!" ++ range)%string
    | None => ("Sheet1!" ++ range)%string
    end.

(** ** Coordinate translator: range addresses *)

Module Regex.
Import JsString.

(** [[class]+] at the start of [s]: the run it captures and what is
    left.  The classes below are pairwise disjoint and each run is
    followed by a character outside its class or by the end, so the
    greedy run is the only one a match can use. *)
Definition plus (p : ascii -> bool) (s : string) : option (string * string) :=
  let (run, rest) := span p s in
  if truthy run then Some (run, rest) else None.

(** [/^(\d+)(?::(\d+))?$/]: group 1 and group 2. *)
Definition rowOnly (s : string) : option (string * option string) :=
  match plus isDigit s with
  | Some (g1, EmptyString) => Some (g1, None)
  | Some (g1, String ":" rest) =>
      match plus isDigit rest with
      | Some (g2, EmptyString) => Some (g1, Some g2)
      | _ => None
      end
  | _ => None
  end.

(** [/^([A-Z]+)(?::([A-Z]+))?$/i]: group 1 and group 2. *)
Definition colOnly (s : string) : option (string * option string) :=
  match plus isLetter s with
  | Some (g1, EmptyString) => Some (g1, None)
  | Some (g1, String ":" rest) =>
      match plus isLetter rest with
      | Some (g2, EmptyString) => Some (g1, Some g2)
      | _ => None
      end
  | _ => None
  end.

(** [/^([A-Z]+)(\d+)(?::([A-Z]+)(\d+))?$/i]: groups 1 to 4. *)
Definition standard (s : string)
  : option (string * string * option string * option string) :=
  match plus isLetter s with
  | Some (g1, rest) =>
      match plus isDigit rest with
      | Some (g2, EmptyString) => Some (g1, g2, None, None)
      | Some (g2, String ":" rest) =>
          match plus isLetter rest with
          | Some (g3, rest) =>
              match plus isDigit rest with
              | Some (g4, EmptyString) => Some (g1, g2, Some g3, Some g4)
              | _ => None
              end
          | None => None
          end
      | _ => None
      end
  | None => None
  end.

(** [/\d/.test(s)] *)
Fixpoint hasDigit (s : string) : bool :=
  match s with
  | EmptyString => false
  | String c rest => isDigit c || hasDigit rest
  end.

End Regex.

(** [g ? a : b] on a capture group: an unmatched group is [undefined], a
    matched one is truthy when it is not empty. *)
Definition ifGroup {A : Type} (g : option string) (a : string -> A) (b : A) : A :=
  match g with
  | Some text => if JsString.truthy text then a text else b
  | None => b
  end.

(** [parseInt(text, 10)] of a capture group [(\d+)].  On a run of
    digits [parseInt] never yields NaN (lemma [parseInt_digits] below);
    the default stands for no value the parsers can reach. *)
Definition parseRow (text : string) : Z :=
  match JsNumber.parseInt text 10 with
  | Some n => n
  | None => 0
  end.

(** [sheets_v4.Schema$GridRange]: a field left out of the object literal
    is [None]. *)
Record GridRange : Type := mkGridRange {
  gridSheetId : Z;
  startRowIndex : option Z;
  endRowIndex : option Z;
  startColumnIndex : option Z;
  endColumnIndex : option Z
}.

(** [parseA1ToGridRange] (lines 355-402). *)
Definition parseA1ToGridRange (a1Range : string) (sheetId : Z)
  : UserError + GridRange :=
  let standardPattern :=
    match Regex.standard a1Range with
    | None => inl (InvalidRangeFormat a1Range)
    | Some (g1, g2, g3, g4) =>
        let startCol := colLettersToIndex g1 in
        let startRow := JsNumber.sub (parseRow g2) 1 in
        let endCol :=
          ifGroup g3 (fun g => JsNumber.add (colLettersToIndex g) 1)
            (JsNumber.add startCol 1) in
        let endRow := ifGroup g4 parseRow (JsNumber.add startRow 1) in
        inr (mkGridRange sheetId (Some startRow) (Some endRow)
               (Some startCol) (Some endCol))
    end in
  match Regex.rowOnly a1Range with
  | Some (g1, g2) =>
      let startRow := JsNumber.sub (parseRow g1) 1 in
      let endRow := ifGroup g2 parseRow (JsNumber.add startRow 1) in
      inr (mkGridRange sheetId (Some startRow) (Some endRow) None None)
  | None =>
      match Regex.colOnly a1Range with
      | Some (g1, g2) =>
          if negb (Regex.hasDigit a1Range) then
            let startCol := colLettersToIndex g1 in
            let endCol :=
              ifGroup g2 (fun g => JsNumber.add (colLettersToIndex g) 1)
                (JsNumber.add startCol 1) in
            inr (mkGridRange sheetId None None (Some startCol) (Some endCol))
          else standardPattern
      | None => standardPattern
      end
  end.

(** What [parseA1Range], local to [batchFormat], returns (lines 919-927):
    zero-based bounds, both inclusive. *)
Record A1Bounds : Type := mkA1Bounds {
  startRow : Z; endRow : Z; startCol : Z; endCol : Z
}.

Definition parseA1Range (a1 : string) : UserError + A1Bounds :=
  match Regex.standard a1 with
  | None => inl (InvalidA1Range a1)
  | Some (g1, g2, g3, g4) =>
      let startCol := colLetterToIndex g1 in
      let startRow := JsNumber.sub (parseRow g2) 1 in
      let endCol := ifGroup g3 colLetterToIndex startCol in
      let endRow := ifGroup g4 (fun g => JsNumber.sub (parseRow g) 1) startRow in
      inr (mkA1Bounds startRow endRow startCol endCol)
  end.

(** The grid range [batchFormat] builds from these bounds, for a cell
    format (lines 990-996) and for a merge (lines 1061-1067). *)
Definition boundsToGridRange (sheetId : Z) (b : A1Bounds) : GridRange :=
  mkGridRange sheetId
    (Some (startRow b)) (Some (JsNumber.add (endRow b) 1))
    (Some (startCol b)) (Some (JsNumber.add (endCol b) 1)).

(** [parseRange] (lines 292-304): [parts = range.split('!')], the sheet
    name is [parts[0]] without a leading and a trailing single quote, the
    cell part is [parts[1]]. *)
Module Split.
(** The text before the first [sep], and the text after it if there
    is one. *)
Fixpoint cut (sep : ascii) (s : string) : string * option string :=
  match s with
  | EmptyString => (EmptyString, None)
  | String c rest =>
      if Ascii.eqb c sep then (EmptyString, Some rest)
      else let (a, b) := cut sep rest in (String c a, b)
  end.

(** [s.replace(/^'|'$/g, '')] *)
Definition stripLeading (q : ascii) (s : string) : string :=
  match s with
  | String c rest => if Ascii.eqb c q then rest else s
  | EmptyString => s
  end.

Fixpoint stripTrailing (q : ascii) (s : string) : string :=
  match s with
  | EmptyString => EmptyString
  | String c EmptyString => if Ascii.eqb c q then EmptyString else s
  | String c rest => String c (stripTrailing q rest)
  end.

Definition stripQuotes (s : string) : string :=
  stripTrailing "'" (stripLeading "'" s).
End Split.

Definition parseRange (range : string) : option string * string :=
  if JsString.includesChar "!" range then
    let (part0, after) := Split.cut "!" range in
    let part1 :=
      match after with
      | Some rest => fst (Split.cut "!" rest)
      | None => EmptyString
      end in
    (Some (Split.stripQuotes part0), part1)
  else (None, range).

(** ** Colour codec *)

(** [{ red: number; green: number; blue: number }] *)
Module Rgb.
Record t : Type := mk { red : Q; green : Q; blue : Q }.
End Rgb.

(** [hexToRgb] (lines 1255-1271). *)
Definition hexToRgb (hex : string) : option Rgb.t :=
  if negb (JsString.truthy hex) then None
  else
    let hexClean :=
      match hex with
      | String "#" rest => rest
      | _ => hex
      end in
    let hexClean :=
      match hexClean with
      | String c0 (String c1 (String c2 EmptyString)) =>
          String c0 (String c0 (String c1 (String c1
            (String c2 (String c2 EmptyString)))))
      | _ => hexClean
      end in
    if negb (JsString.length hexClean =? 6) then None
    else
      match JsNumber.parseInt hexClean 16 with
      | None => None
      | Some bigint =>
          Some (Rgb.mk
                  (inject_Z (JsNumber.band (JsNumber.sar bigint 16) 255) / 255)%Q
                  (inject_Z (JsNumber.band (JsNumber.sar bigint 8) 255) / 255)%Q
                  (inject_Z (JsNumber.band bigint 255) / 255)%Q)
      end.

(** ** The Sheets API: payloads and requests *)

Inductive HorizontalAlignment : Type := LEFT | CENTER | RIGHT.
Inductive VerticalAlignment : Type := TOP | MIDDLE | BOTTOM.
Inductive WrapStrategy : Type := OVERFLOW_CELL | CLIP | WRAP.
Inductive Dimension : Type := ROWS | COLUMNS.

(** The objects of [sheets_v4] the helpers build.  A property that an
    object literal or an assignment never set is [None]. *)
Module Schema.

Record Color : Type := mkColor {
  red : option Q; green : option Q; blue : option Q; alpha : option Q
}.

Record TextFormat : Type := mkTextFormat {
  foregroundColor : option Color;
  fontSize : option Q;
  bold : option bool;
  italic : option bool;
  fontFamily : option string
}.

Record NumberFormat : Type := mkNumberFormat {
  type : string; pattern : string
}.

Record CellFormat : Type := mkCellFormat {
  backgroundColor : option Color;
  textFormat : option TextFormat;
  horizontalAlignment : option HorizontalAlignment;
  verticalAlignment : option VerticalAlignment;
  numberFormat : option NumberFormat;
  wrapStrategy : option WrapStrategy
}.

Record GridProperties : Type := mkGridProperties {
  frozenRowCount : option Z;
  frozenColumnCount : option Z
}.

Record DimensionRange : Type := mkDimensionRange {
  sheetId : Z; dimension : Dimension; startIndex : Z; endIndex : Z
}.

Record DimensionProperties : Type := mkDimensionProperties {
  pixelSize : option Q; hiddenByUser : option bool
}.

(** [sheets_v4.Schema$Request], the variants the helpers emit. *)
Inductive Request : Type :=
  | repeatCell (range : GridRange) (userEnteredFormat : CellFormat)
      (fields : string)
  | updateSheetProperties (sheetId : Z) (gridProperties : GridProperties)
      (fields : string)
  | deleteConditionalFormatRule (sheetId : Z) (index : Z)
  | updateDimensionProperties (range : DimensionRange)
      (properties : DimensionProperties) (fields : string)
  | mergeCells (range : GridRange) (mergeType : string).

(** The empty object [{}]. *)
Definition emptyTextFormat : TextFormat :=
  mkTextFormat None None None None None.
Definition emptyCellFormat : CellFormat :=
  mkCellFormat None None None None None None.
Definition emptyGridProperties : GridProperties :=
  mkGridProperties None None.

(** Assignments [object.property = value]. *)
Definition setForegroundColor (c : Color) (t : TextFormat) : TextFormat :=
  mkTextFormat (Some c) (fontSize t) (bold t) (italic t) (fontFamily t).
Definition setFontSize (v : Q) (t : TextFormat) : TextFormat :=
  mkTextFormat (foregroundColor t) (Some v) (bold t) (italic t) (fontFamily t).
Definition setBold (v : bool) (t : TextFormat) : TextFormat :=
  mkTextFormat (foregroundColor t) (fontSize t) (Some v) (italic t) (fontFamily t).
Definition setItalic (v : bool) (t : TextFormat) : TextFormat :=
  mkTextFormat (foregroundColor t) (fontSize t) (bold t) (Some v) (fontFamily t).
Definition setFontFamily (v : string) (t : TextFormat) : TextFormat :=
  mkTextFormat (foregroundColor t) (fontSize t) (bold t) (italic t) (Some v).

Definition setBackgroundColor (c : Color) (f : CellFormat) : CellFormat :=
  mkCellFormat (Some c) (textFormat f) (horizontalAlignment f)
    (verticalAlignment f) (numberFormat f) (wrapStrategy f).
Definition setTextFormat (t : TextFormat) (f : CellFormat) : CellFormat :=
  mkCellFormat (backgroundColor f) (Some t) (horizontalAlignment f)
    (verticalAlignment f) (numberFormat f) (wrapStrategy f).
Definition setHorizontalAlignment (a : HorizontalAlignment) (f : CellFormat)
  : CellFormat :=
  mkCellFormat (backgroundColor f) (textFormat f) (Some a)
    (verticalAlignment f) (numberFormat f) (wrapStrategy f).
Definition setVerticalAlignment (a : VerticalAlignment) (f : CellFormat)
  : CellFormat :=
  mkCellFormat (backgroundColor f) (textFormat f) (horizontalAlignment f)
    (Some a) (numberFormat f) (wrapStrategy f).
Definition setNumberFormat (n : NumberFormat) (f : CellFormat) : CellFormat :=
  mkCellFormat (backgroundColor f) (textFormat f) (horizontalAlignment f)
    (verticalAlignment f) (Some n) (wrapStrategy f).
Definition setWrapStrategy (w : WrapStrategy) (f : CellFormat) : CellFormat :=
  mkCellFormat (backgroundColor f) (textFormat f) (horizontalAlignment f)
    (verticalAlignment f) (numberFormat f) (Some w).

Definition setFrozenRowCount (n : Z) (g : GridProperties) : GridProperties :=
  mkGridProperties (Some n) (frozenColumnCount g).
Definition setFrozenColumnCount (n : Z) (g : GridProperties) : GridProperties :=
  mkGridProperties (frozenRowCount g) (Some n).

(** [{ red, green, blue, alpha: 1 }] and [{ ...rgb, alpha: 1 }] *)
Definition opaque (c : Rgb.t) : Color :=
  mkColor (Some (Rgb.red c)) (Some (Rgb.green c)) (Some (Rgb.blue c))
    (Some 1%Q).

End Schema.

(** ** The remote spreadsheet service *)

(** What [response.data] of [spreadsheets.get] holds, as far as the
    helpers read it.  [Rule] is [Schema$ConditionalFormatRule], whose
    content they never inspect. *)
Module Data.

Record SheetProperties : Type := mkSheetProperties {
  sheetId : option Z;
  title : option string
}.

Record Sheet (Rule : Type) : Type := mkSheet {
  properties : option SheetProperties;
  conditionalFormats : option (list Rule)
}.
Arguments mkSheet {Rule}.
Arguments properties {Rule}.
Arguments conditionalFormats {Rule}.

Record Spreadsheet (Rule : Type) : Type := mkSpreadsheet {
  sheets : option (list (Sheet Rule))
}.
Arguments mkSpreadsheet {Rule}.
Arguments sheets {Rule}.

(** [sheet.properties?.sheetId] and [sheet.properties?.title] *)
Definition sheetIdOf {Rule} (s : Sheet Rule) : option Z :=
  match properties s with Some p => sheetId p | None => None end.
Definition titleOf {Rule} (s : Sheet Rule) : option string :=
  match properties s with Some p => title p | None => None end.

End Data.

(** The error a rejected API call throws: [error.code], [error.message]. *)
Record ApiError : Type := mkApiError {
  code : option Z;
  message : option string
}.

(** The calls a helper places on the client, in the order it places them. *)
Inductive Call : Type :=
  | SpreadsheetsGet (spreadsheetId : string) (fields : option string)
  | SpreadsheetsBatchUpdate (spreadsheetId : string)
      (requests : list Schema.Request).


(** The service behind the client [sheets]: its state, what a read
    answers in a state, and what a batch update answers and leaves. *)
Class SheetsClient : Type := {
  RemoteState : Type;
  Rule : Type;
  ResponseData : Type;
  answerGet : RemoteState -> string -> ApiError + Data.Spreadsheet Rule;
  answerBatchUpdate :
    RemoteState -> string -> list Schema.Request ->
    RemoteState * (ApiError + ResponseData)
}.

(** What the helpers that update return: [response.data], or the
    literal [{ spreadsheetId }] when they had nothing to send. *)
Inductive BatchUpdateResult (Response : Type) : Type :=
  | FromRemote (data : Response)
  | OnlySpreadsheetId (spreadsheetId : string).
Arguments FromRemote {Response}.
Arguments OnlySpreadsheetId {Response}.

(** What a [try] block of a helper can throw. *)
Inductive Thrown : Type :=
  | ThrownUser (e : UserError)
  | ThrownApi (e : ApiError).

Section Effects.
Context {client : SheetsClient}.

Record World : Type := mkWorld {
  remote : RemoteState;
  calls : list Call
}.

(** A computation that places calls and either throws an [E] or
    returns an [A]. *)
Definition M (E A : Type) : Type := World -> World * (E + A).

Definition ret {E A} (a : A) : M E A := fun w => (w, inr a).

Definition throw {E A} (e : E) : M E A := fun w => (w, inl e).

Definition bind {E A B} (m : M E A) (k : A -> M E B) : M E B :=
  fun w =>
    match m w with
    | (w', inr a) => k a w'
    | (w', inl e) => (w', inl e)
    end.

(** [try { m } catch (error) { throw handler(error) }].  With a
    constructor of [Thrown] as handler it places a call inside a [try]
    block, whose body can throw errors of both kinds. *)
Definition tryCatch {E E' A} (m : M E A) (handler : E -> E') : M E' A :=
  fun w =>
    match m w with
    | (w', inr a) => (w', inr a)
    | (w', inl e) => (w', inl (handler e))
    end.

(** A pure step that may throw. *)
Definition lift {E A} (r : E + A) : M E A := fun w => (w, r).

(** The world after one read: the call is recorded, the remote state
    is as it was. *)
Definition afterGet (spreadsheetId : string) (fields : option string)
    (w : World) : World :=
  mkWorld (remote w) (calls w ++ [SpreadsheetsGet spreadsheetId fields]).

Definition spreadsheets_get (spreadsheetId : string) (fields : option string)
  : M ApiError (Data.Spreadsheet Rule) :=
  fun w =>
    (mkWorld (remote w) (calls w ++ [SpreadsheetsGet spreadsheetId fields]),
     answerGet (remote w) spreadsheetId).

Definition spreadsheets_batchUpdate (spreadsheetId : string)
    (requests : list Schema.Request) : M ApiError ResponseData :=
  fun w =>
    let (remote', answer) := answerBatchUpdate (remote w) spreadsheetId requests in
    (mkWorld remote' (calls w ++ [SpreadsheetsBatchUpdate spreadsheetId requests]),
     answer).

End Effects.

Declare Scope effect_scope.
Delimit Scope effect_scope with effect.
Notation "x <- m ;; k" := (bind m (fun x => k))
  (at level 61, m at next level, right associativity) : effect_scope.
Notation "' p <- m ;; k" := (bind m (fun x => let 'p := x in k))
  (at level 61, p pattern, m at next level, right associativity) : effect_scope.

(** [error.message || 'Unknown error'] *)
Definition messageOr (m : option string) : string :=
  match m with
  | Some text => if JsString.truthy text then text else "Unknown error"
  | None => "Unknown error"
  end.

(** The [catch] blocks.  A [UserError] has no [code]. *)
Definition onApiError (action spreadsheetId : string) (e : ApiError) : UserError :=
  match code e with
  | Some 404 => SpreadsheetNotFound spreadsheetId
  | Some 403 => PermissionDenied spreadsheetId
  | _ => Failed action (messageOr (message e))
  end.

(** A [catch] block with the line
    [if (error instanceof UserError) throw error;]. *)
Definition onThrown (action spreadsheetId : string) (e : Thrown) : UserError :=
  match e with
  | ThrownUser u => u
  | ThrownApi a => onApiError action spreadsheetId a
  end.

(** ** Structural resolver and request builders of the Sheets helpers *)

(** The [format] argument of [formatCells] (lines 412-422). *)
Module FormatCells.
Record TextFormat : Type := mkTextFormat {
  foregroundColor : option Rgb.t;
  fontSize : option Q;
  bold : option bool;
  italic : option bool
}.
Record Format : Type := mkFormat {
  backgroundColor : option Rgb.t;
  textFormat : option TextFormat;
  horizontalAlignment : option HorizontalAlignment;
  verticalAlignment : option VerticalAlignment
}.
End FormatCells.

(** The [operations] argument of [batchFormat] (lines 880-899). *)
Module BatchFormat.
Record CellFormat : Type := mkCellFormat {
  range : string;
  fontSize : option Q;
  bold : option bool;
  italic : option bool;
  fontFamily : option string;
  fontColor : option string;
  backgroundColor : option string;
  horizontalAlignment : option HorizontalAlignment;
  verticalAlignment : option VerticalAlignment;
  numberFormat : option string;
  wrapStrategy : option WrapStrategy
}.
Record ColumnWidth : Type := mkColumnWidth { column : string; width : Q }.
Record RowHeight : Type := mkRowHeight { row : Z; height : Q }.
Record HideColumns : Type := mkHideColumns {
  startColumn : string; endColumn : string
}.
Record Operations : Type := mkOperations {
  cellFormats : option (list CellFormat);
  columnWidths : option (list ColumnWidth);
  rowHeights : option (list RowHeight);
  hideColumns : option HideColumns;
  merges : option (list string);
  freezeRows : option Z;
  freezeColumns : option Z
}.
End BatchFormat.

(** [if (text)] on an optional string: defined and not empty. *)
Definition truthyText (text : option string) : option string :=
  match text with
  | Some t => if JsString.truthy t then Some t else None
  | None => None
  end.

(** The field mask [formatCells] sends, whatever the format holds
    (line 484). *)
Definition formatCellsFields : string :=
  "userEnteredFormat(backgroundColor,textFormat,horizontalAlignment,verticalAlignment)".

(** The payload [formatCells] builds from its [format] (lines 433-471). *)
Definition formatCellsPayload (format : FormatCells.Format) : Schema.CellFormat :=
  let userEnteredFormat := Schema.emptyCellFormat in
  let userEnteredFormat :=
    match FormatCells.backgroundColor format with
    | Some c => Schema.setBackgroundColor (Schema.opaque c) userEnteredFormat
    | None => userEnteredFormat
    end in
  let userEnteredFormat :=
    match FormatCells.textFormat format with
    | Some tf =>
        let textFormat := Schema.emptyTextFormat in
        let textFormat :=
          match FormatCells.foregroundColor tf with
          | Some c => Schema.setForegroundColor (Schema.opaque c) textFormat
          | None => textFormat
          end in
        let textFormat :=
          match FormatCells.fontSize tf with
          | Some v => Schema.setFontSize v textFormat
          | None => textFormat
          end in
        let textFormat :=
          match FormatCells.bold tf with
          | Some v => Schema.setBold v textFormat
          | None => textFormat
          end in
        let textFormat :=
          match FormatCells.italic tf with
          | Some v => Schema.setItalic v textFormat
          | None => textFormat
          end in
        Schema.setTextFormat textFormat userEnteredFormat
    | None => userEnteredFormat
    end in
  let userEnteredFormat :=
    match FormatCells.horizontalAlignment format with
    | Some a => Schema.setHorizontalAlignment a userEnteredFormat
    | None => userEnteredFormat
    end in
  match FormatCells.verticalAlignment format with
  | Some a => Schema.setVerticalAlignment a userEnteredFormat
  | None => userEnteredFormat
  end.

(** The grid properties and the field parts [freezeRowsAndColumns]
    builds together (lines 519-529); [batchFormat] repeats the code for
    its freeze operation (lines 1075-1084). *)
Definition freezeProperties (frozenRows frozenColumns : option Z)
  : Schema.GridProperties * list string :=
  let gridProperties := Schema.emptyGridProperties in
  let fieldParts : list string := [] in
  let '(gridProperties, fieldParts) :=
    match frozenRows with
    | Some n =>
        (Schema.setFrozenRowCount n gridProperties,
         fieldParts ++ ["gridProperties.frozenRowCount"])
    | None => (gridProperties, fieldParts)
    end in
  match frozenColumns with
  | Some n =>
      (Schema.setFrozenColumnCount n gridProperties,
       fieldParts ++ ["gridProperties.frozenColumnCount"])
  | None => (gridProperties, fieldParts)
  end.

(** [fieldParts.join(',')] *)
Definition join (parts : list string) : string := String.concat "," parts.

(** The text format [batchFormat] builds for one cell format, whether
    it set any of its attributes, and the field list after it
    (lines 947-974). *)
Definition textFormatPayload (fmt : BatchFormat.CellFormat) (fields : list string)
  : Schema.TextFormat * bool * list string :=
  let textFormat := Schema.emptyTextFormat in
  let hasTextFormat := false in
  let '(textFormat, hasTextFormat, fields) :=
    match truthyText (BatchFormat.fontColor fmt) with
    | Some text =>
        match hexToRgb text with
        | Some fc =>
            (Schema.setForegroundColor (Schema.opaque fc) textFormat, true,
             fields ++ ["userEnteredFormat.textFormat.foregroundColor"])
        | None => (textFormat, hasTextFormat, fields)
        end
    | None => (textFormat, hasTextFormat, fields)
    end in
  let '(textFormat, hasTextFormat, fields) :=
    match BatchFormat.fontSize fmt with
    | Some v =>
        (Schema.setFontSize v textFormat, true,
         fields ++ ["userEnteredFormat.textFormat.fontSize"])
    | None => (textFormat, hasTextFormat, fields)
    end in
  let '(textFormat, hasTextFormat, fields) :=
    match BatchFormat.bold fmt with
    | Some v =>
        (Schema.setBold v textFormat, true,
         fields ++ ["userEnteredFormat.textFormat.bold"])
    | None => (textFormat, hasTextFormat, fields)
    end in
  let '(textFormat, hasTextFormat, fields) :=
    match BatchFormat.italic fmt with
    | Some v =>
        (Schema.setItalic v textFormat, true,
         fields ++ ["userEnteredFormat.textFormat.italic"])
    | None => (textFormat, hasTextFormat, fields)
    end in
  match truthyText (BatchFormat.fontFamily fmt) with
  | Some v =>
      (Schema.setFontFamily v textFormat, true,
       fields ++ ["userEnteredFormat.textFormat.fontFamily"])
  | None => (textFormat, hasTextFormat, fields)
  end.

(** The payload and the field list [batchFormat] builds together for
    one cell format (lines 936-985). *)
Definition cellFormatPayload (fmt : BatchFormat.CellFormat)
  : Schema.CellFormat * list string :=
  let userEnteredFormat := Schema.emptyCellFormat in
  let fields : list string := [] in
  let '(userEnteredFormat, fields) :=
    match truthyText (BatchFormat.backgroundColor fmt) with
    | Some text =>
        match hexToRgb text with
        | Some bg =>
            (Schema.setBackgroundColor (Schema.opaque bg) userEnteredFormat,
             fields ++ ["userEnteredFormat.backgroundColor"])
        | None => (userEnteredFormat, fields)
        end
    | None => (userEnteredFormat, fields)
    end in
  let '(textFormat, hasTextFormat, fields) := textFormatPayload fmt fields in
  let userEnteredFormat :=
    if hasTextFormat then Schema.setTextFormat textFormat userEnteredFormat
    else userEnteredFormat in
  let '(userEnteredFormat, fields) :=
    match BatchFormat.horizontalAlignment fmt with
    | Some a =>
        (Schema.setHorizontalAlignment a userEnteredFormat,
         fields ++ ["userEnteredFormat.horizontalAlignment"])
    | None => (userEnteredFormat, fields)
    end in
  let '(userEnteredFormat, fields) :=
    match BatchFormat.verticalAlignment fmt with
    | Some a =>
        (Schema.setVerticalAlignment a userEnteredFormat,
         fields ++ ["userEnteredFormat.verticalAlignment"])
    | None => (userEnteredFormat, fields)
    end in
  let '(userEnteredFormat, fields) :=
    match truthyText (BatchFormat.numberFormat fmt) with
    | Some p =>
        (Schema.setNumberFormat (Schema.mkNumberFormat "NUMBER" p) userEnteredFormat,
         fields ++ ["userEnteredFormat.numberFormat"])
    | None => (userEnteredFormat, fields)
    end in
  match BatchFormat.wrapStrategy fmt with
  | Some w =>
      (Schema.setWrapStrategy w userEnteredFormat,
       fields ++ ["userEnteredFormat.wrapStrategy"])
  | None => (userEnteredFormat, fields)
  end.

(** The body of the loop over [operations.cellFormats] (lines 934-1001):
    the requests after one more cell format. *)
Definition pushCellFormat (sheetId : Z) (requests : list Schema.Request)
    (fmt : BatchFormat.CellFormat) : UserError + list Schema.Request :=
  match parseA1Range (BatchFormat.range fmt) with
  | inl e => inl e
  | inr bounds =>
      let (userEnteredFormat, fields) := cellFormatPayload fmt in
      if (0 <? Z.of_nat (List.length fields)) then
        inr (requests ++
             [Schema.repeatCell (boundsToGridRange sheetId bounds)
                userEnteredFormat (join fields)])
      else inr requests
  end.

(** [for (const x of xs) { body }] where the body may throw. *)
Fixpoint forOf {S X : Type} (body : S -> X -> UserError + S) (xs : list X) (s : S)
  : UserError + S :=
  match xs with
  | [] => inr s
  | x :: rest =>
      match body s x with
      | inl e => inl e
      | inr s' => forOf body rest s'
      end
  end.

(** [if (xs) { for (const x of xs) { body } }] *)
Definition forOfOptional {S X : Type} (body : S -> X -> UserError + S)
    (xs : option (list X)) (s : S) : UserError + S :=
  match xs with
  | Some l => forOf body l s
  | None => inr s
  end.

(** The requests of [batchFormat] (lines 929-1092), in the order the
    function pushes them. *)
Definition batchFormatRequests (sheetId : Z) (operations : BatchFormat.Operations)
  : UserError + list Schema.Request :=
  let requests : list Schema.Request := [] in
  match forOfOptional (pushCellFormat sheetId)
          (BatchFormat.cellFormats operations) requests with
  | inl e => inl e
  | inr requests =>
  let requests :=
    match BatchFormat.columnWidths operations with
    | Some cws =>
        fold_left
          (fun requests cw =>
             let colIndex := colLetterToIndex (BatchFormat.column cw) in
             requests ++
             [Schema.updateDimensionProperties
                (Schema.mkDimensionRange sheetId COLUMNS colIndex
                   (JsNumber.add colIndex 1))
                (Schema.mkDimensionProperties (Some (BatchFormat.width cw)) None)
                "pixelSize"])
          cws requests
    | None => requests
    end in
  let requests :=
    match BatchFormat.rowHeights operations with
    | Some rhs =>
        fold_left
          (fun requests rh =>
             requests ++
             [Schema.updateDimensionProperties
                (Schema.mkDimensionRange sheetId ROWS
                   (JsNumber.sub (BatchFormat.row rh) 1) (BatchFormat.row rh))
                (Schema.mkDimensionProperties (Some (BatchFormat.height rh)) None)
                "pixelSize"])
          rhs requests
    | None => requests
    end in
  let requests :=
    match BatchFormat.hideColumns operations with
    | Some hc =>
        let startCol := colLetterToIndex (BatchFormat.startColumn hc) in
        let endCol := colLetterToIndex (BatchFormat.endColumn hc) in
        requests ++
        [Schema.updateDimensionProperties
           (Schema.mkDimensionRange sheetId COLUMNS startCol
              (JsNumber.add endCol 1))
           (Schema.mkDimensionProperties None (Some true))
           "hiddenByUser"]
    | None => requests
    end in
  match forOfOptional
          (fun requests mergeRange =>
             match parseA1Range mergeRange with
             | inl e => inl e
             | inr bounds =>
                 inr (requests ++
                      [Schema.mergeCells (boundsToGridRange sheetId bounds)
                         "MERGE_ALL"])
             end)
          (BatchFormat.merges operations) requests with
  | inl e => inl e
  | inr requests =>
  match BatchFormat.freezeRows operations, BatchFormat.freezeColumns operations with
  | None, None => inr requests
  | freezeRows, freezeColumns =>
      let (gridProperties, fields) := freezeProperties freezeRows freezeColumns in
      inr (requests ++
           [Schema.updateSheetProperties sheetId gridProperties (join fields)])
  end
  end
  end.

(** The field mask [getConditionalFormatRules] reads with (line 759). *)
Definition rulesFields : string :=
  "sheets(properties(sheetId,title),conditionalFormats)".

(** An entry of what [getConditionalFormatRules] returns. *)
Module SheetRules.
Record t (Rule : Type) : Type := mk {
  sheetId : Z;
  sheetName : string;
  rules : list Rule
}.
Arguments mk {Rule}.
Arguments sheetId {Rule}.
Arguments sheetName {Rule}.
Arguments rules {Rule}.
End SheetRules.

Section SheetsHelpers.
Context {client : SheetsClient}.
Local Open Scope effect_scope.

(** [getSpreadsheetMetadata] (lines 198-221). *)
Definition getSpreadsheetMetadata (spreadsheetId : string)
  : M UserError (Data.Spreadsheet Rule) :=
  tryCatch (spreadsheets_get spreadsheetId None)
    (onApiError "get spreadsheet metadata" spreadsheetId).

(** [metadata.sheets?.find((s) => s.properties?.title === sheetName)] *)
Definition findByTitle (metadata : Data.Spreadsheet Rule) (sheetName : string)
  : option (Data.Sheet Rule) :=
  match Data.sheets metadata with
  | Some sheets =>
      find (fun s =>
              match Data.titleOf s with
              | Some t => String.eqb t sheetName
              | None => false
              end) sheets
  | None => None
  end.

(** [resolveSheetId] once the metadata has arrived (lines 317-329). *)
Definition selectSheetId (metadata : Data.Spreadsheet Rule)
    (sheetName : option string) : UserError + Z :=
  match truthyText sheetName with
  | Some sheetName =>
      match findByTitle metadata sheetName with
      | Some sheet =>
          match Data.sheetIdOf sheet with
          | Some sheetId => inr sheetId
          | None => inl (SheetNotFound sheetName)
          end
      | None => inl (SheetNotFound sheetName)
      end
  | None =>
      let firstSheet :=
        match Data.sheets metadata with
        | Some sheets => nth_error sheets 0
        | None => None
        end in
      match firstSheet with
      | Some sheet =>
          match Data.sheetIdOf sheet with
          | Some sheetId => inr sheetId
          | None => inl SpreadsheetHasNoSheets
          end
      | None => inl SpreadsheetHasNoSheets
      end
  end.

(** [resolveSheetId] (lines 310-330). *)
Definition resolveSheetId (spreadsheetId : string) (sheetName : option string)
  : M UserError Z :=
  metadata <- getSpreadsheetMetadata spreadsheetId ;;
  lift (selectSheetId metadata sheetName).

(** [formatCells] (lines 408-504). *)
Definition formatCells (spreadsheetId range : string)
    (format : FormatCells.Format) : M UserError ResponseData :=
  tryCatch
    (let (sheetName, a1Range) := parseRange range in
     sheetId <- tryCatch (resolveSheetId spreadsheetId sheetName) ThrownUser ;;
     gridRange <- lift (match parseA1ToGridRange a1Range sheetId with
                        | inl e => inl (ThrownUser e)
                        | inr g => inr g
                        end) ;;
     let userEnteredFormat := formatCellsPayload format in
     tryCatch
       (spreadsheets_batchUpdate spreadsheetId
          [Schema.repeatCell gridRange userEnteredFormat formatCellsFields])
       ThrownApi)
    (onThrown "format cells" spreadsheetId).

(** [freezeRowsAndColumns] (lines 509-562). *)
Definition freezeRowsAndColumns (spreadsheetId : string)
    (sheetName : option string) (frozenRows frozenColumns : option Z)
  : M UserError ResponseData :=
  tryCatch
    (sheetId <- tryCatch (resolveSheetId spreadsheetId sheetName) ThrownUser ;;
     let (gridProperties, fieldParts) :=
       freezeProperties frozenRows frozenColumns in
     tryCatch
       (spreadsheets_batchUpdate spreadsheetId
          [Schema.updateSheetProperties sheetId gridProperties
             (join fieldParts)])
       ThrownApi)
    (onThrown "freeze rows/columns" spreadsheetId).

(** The loop of [getConditionalFormatRules] (lines 763-778). *)
Fixpoint collectRules (sheets : list (Data.Sheet Rule)) (sheetId : option Z)
    (results : list (SheetRules.t Rule)) : list (SheetRules.t Rule) :=
  match sheets with
  | [] => results
  | sheet :: rest =>
      let currentSheetId := Data.sheetIdOf sheet in
      let sheetName :=
        match truthyText (Data.titleOf sheet) with
        | Some t => t
        | None => "Unknown"
        end in
      let skip :=
        match sheetId with
        | Some wanted =>
            match currentSheetId with
            | Some current => negb (current =? wanted)
            | None => true
            end
        | None => false
        end in
      if skip then collectRules rest sheetId results
      else
        match currentSheetId with
        | Some current =>
            collectRules rest sheetId
              (results ++
               [SheetRules.mk current sheetName
                  (match Data.conditionalFormats sheet with
                   | Some rs => rs
                   | None => []
                   end)])
        | None => collectRules rest sheetId results
        end
  end.

(** [getConditionalFormatRules] (lines 750-791). *)
Definition getConditionalFormatRules (spreadsheetId : string)
    (sheetId : option Z) : M UserError (list (SheetRules.t Rule)) :=
  tryCatch
    (data <- spreadsheets_get spreadsheetId (Some rulesFields) ;;
     let sheets :=
       match Data.sheets data with Some l => l | None => [] end in
     ret (collectRules sheets sheetId []))
    (onApiError "get conditional format rules" spreadsheetId).

(** The loop of [clearConditionalFormatRules] (lines 844-851):
    [for (let i = length - 1; i >= 0; i--)], with [count = i + 1] the
    number of indices still to visit. *)
Fixpoint pushDeletes (sheetId : Z) (count : nat)
    (requests : list Schema.Request) : list Schema.Request :=
  match count with
  | O => requests
  | S i =>
      pushDeletes sheetId i
        (requests ++ [Schema.deleteConditionalFormatRule sheetId (Z.of_nat i)])
  end.

(** [clearConditionalFormatRules] (lines 832-871). *)
Definition clearConditionalFormatRules (spreadsheetId : string) (sheetId : Z)
  : M UserError (BatchUpdateResult ResponseData) :=
  tryCatch
    (existingRules <-
       tryCatch (getConditionalFormatRules spreadsheetId (Some sheetId))
         ThrownUser ;;
     let sheetRules :=
       find (fun s => SheetRules.sheetId s =? sheetId) existingRules in
     match sheetRules with
     | None => ret (OnlySpreadsheetId spreadsheetId)
     | Some sheetRules =>
         if Z.of_nat (List.length (SheetRules.rules sheetRules)) =? 0 then
           ret (OnlySpreadsheetId spreadsheetId)
         else
           let requests :=
             pushDeletes sheetId (List.length (SheetRules.rules sheetRules)) [] in
           data <- tryCatch (spreadsheets_batchUpdate spreadsheetId requests)
                     ThrownApi ;;
           ret (FromRemote data)
     end)
    (onThrown "clear conditional format rules" spreadsheetId).

(** [batchFormat] (lines 876-1110). *)
Definition batchFormat (spreadsheetId sheetName : string)
    (operations : BatchFormat.Operations)
  : M UserError (BatchUpdateResult ResponseData) :=
  tryCatch
    (metadata <- tryCatch (getSpreadsheetMetadata spreadsheetId) ThrownUser ;;
     match findByTitle metadata sheetName with
     | None => throw (ThrownUser (SheetNotFound sheetName))
     | Some sheet =>
         match Data.sheetIdOf sheet with
         | None => throw (ThrownUser (SheetNotFound sheetName))
         | Some sheetId =>
             requests <- lift (match batchFormatRequests sheetId operations with
                               | inl e => inl (ThrownUser e)
                               | inr r => inr r
                               end) ;;
             if Z.of_nat (List.length requests) =? 0 then
               ret (OnlySpreadsheetId spreadsheetId)
             else
               data <- tryCatch
                         (spreadsheets_batchUpdate spreadsheetId requests)
                         ThrownApi ;;
               ret (FromRemote data)
         end
     end)
    (onThrown "batch format" spreadsheetId).

End SheetsHelpers.

(** ** Docs: the request builder of [editTableCell] *)

Module Docs.

(** What [getTableCellRange] resolves: the content span of the cell. *)
Record CellRange : Type := mkCellRange {
  startIndex : Z;
  endIndex : Z
}.

(** The two style helpers of [googleDocsApiHelpers.ts] that the editor
    calls.  Their file is not among the sources read here, so they are
    parameters: each takes a start offset, an end offset, the style
    arguments and the tab, and answers [null] or a result whose
    [request], an update-style request for that span, the editor
    pushes. *)
Class StyleHelpers : Type := {
  TextStyleArgs : Type;
  ParagraphStyleArgs : Type;
  TextStyleRequest : Type;
  ParagraphStyleRequest : Type;
  buildUpdateTextStyleRequest :
    Z -> Z -> TextStyleArgs -> option string -> option TextStyleRequest;
  buildUpdateParagraphStyleRequest :
    Z -> Z -> ParagraphStyleArgs -> option string ->
    option ParagraphStyleRequest
}.

Section Editor.
Context {helpers : StyleHelpers}.

(** [docs_v1.Schema$Request], the variants the editor pushes. *)
Inductive Request : Type :=
  | deleteContentRange (startIndex endIndex : Z)
  | insertText (index : Z) (text : string)
  | updateTextStyle (request : TextStyleRequest)
  | updateParagraphStyle (request : ParagraphStyleRequest).

(** The arguments of the tool that the builder reads. *)
Record Args : Type := mkArgs {
  textContent : option string;
  textStyle : option TextStyleArgs;
  paragraphStyle : option ParagraphStyleArgs;
  tabId : option string
}.

(** The variables of lines 57-59. *)
Record Builder : Type := mkBuilder {
  requests : list Request;
  newTextStart : Z;
  newTextEnd : Z
}.

Definition push (r : Request) (b : Builder) : Builder :=
  mkBuilder (requests b ++ [r]) (newTextStart b) (newTextEnd b).

Definition setNewTextEnd (e : Z) (b : Builder) : Builder :=
  mkBuilder (requests b) (newTextStart b) e.

(** Lines 61-83: the text content. *)
Definition applyTextContent (cellRange : CellRange) (args : Args)
    (b : Builder) : Builder :=
  match textContent args with
  | Some text =>
      let b :=
        if endIndex cellRange >? startIndex cellRange then
          push (deleteContentRange (startIndex cellRange) (endIndex cellRange)) b
        else b in
      let b :=
        if JsString.length text >? 0 then
          push (insertText (startIndex cellRange) text) b
        else b in
      setNewTextEnd (startIndex cellRange + JsString.length text) b
  | None => setNewTextEnd (endIndex cellRange) b
  end.

(** Lines 85-95: the character style. *)
Definition applyTextStyle (args : Args) (b : Builder) : Builder :=
  match textStyle args with
  | Some style =>
      if newTextEnd b >? newTextStart b then
        match buildUpdateTextStyleRequest (newTextStart b) (newTextEnd b)
                style (tabId args) with
        | Some request => push (updateTextStyle request) b
        | None => b
        end
      else b
  | None => b
  end.

(** Lines 97-108: the paragraph style. *)
Definition applyParagraphStyle (cellRange : CellRange) (args : Args)
    (b : Builder) : Builder :=
  match paragraphStyle args with
  | Some style =>
      if newTextEnd b >=? newTextStart b then
        let paraEnd :=
          match textContent args with
          | Some _ => newTextEnd b + 1
          | None => endIndex cellRange + 1
          end in
        match buildUpdateParagraphStyleRequest (newTextStart b) paraEnd
                style (tabId args) with
        | Some request => push (updateParagraphStyle request) b
        | None => b
        end
      else b
  | None => b
  end.

(** Lines 57-108 of [execute]: the builder after the three steps. *)
Definition buildRequests (cellRange : CellRange) (args : Args) : Builder :=
  let b := mkBuilder [] (startIndex cellRange) (startIndex cellRange) in
  let b := applyTextContent cellRange args b in
  let b := applyTextStyle args b in
  applyParagraphStyle cellRange args b.

(** Lines 110-114: [None] is the answer that no change was
    specified, [Some requests] the batch handed to the submitter. *)
Definition submission (cellRange : CellRange) (args : Args)
  : option (list Request) :=
  let requests := requests (buildRequests cellRange args) in
  if Z.of_nat (List.length requests) =? 0 then None else Some requests.

(** What each of the three steps pushes. *)
Definition textContentRequests (cellRange : CellRange) (args : Args)
  : list Request :=
  match textContent args with
  | Some text =>
      (if endIndex cellRange >? startIndex cellRange
       then [deleteContentRange (startIndex cellRange) (endIndex cellRange)]
       else []) ++
      (if JsString.length text >? 0
       then [insertText (startIndex cellRange) text]
       else [])
  | None => []
  end.

Definition textStyleRequests (args : Args) (b : Builder) : list Request :=
  match textStyle args with
  | Some style =>
      if newTextEnd b >? newTextStart b then
        match buildUpdateTextStyleRequest (newTextStart b) (newTextEnd b)
                style (tabId args) with
        | Some request => [updateTextStyle request]
        | None => []
        end
      else []
  | None => []
  end.

Definition paragraphStyleRequests (cellRange : CellRange) (args : Args)
    (b : Builder) : list Request :=
  match paragraphStyle args with
  | Some style =>
      if newTextEnd b >=? newTextStart b then
        match buildUpdateParagraphStyleRequest (newTextStart b)
                (match textContent args with
                 | Some _ => newTextEnd b + 1
                 | None => endIndex cellRange + 1
                 end) style (tabId args) with
        | Some request => [updateParagraphStyle request]
        | None => []
        end
      else []
  | None => []
  end.

(** The kinds of request, to count what was emitted. *)
Definition isDelete (r : Request) : bool :=
  match r with deleteContentRange _ _ => true | _ => false end.
Definition isInsert (r : Request) : bool :=
  match r with insertText _ _ => true | _ => false end.
Definition isTextStyle (r : Request) : bool :=
  match r with updateTextStyle _ => true | _ => false end.
Definition isParagraphStyle (r : Request) : bool :=
  match r with updateParagraphStyle _ => true | _ => false end.

End Editor.

(** Helpers to run the editor with: each answers the span it was asked
    to style, and no request for an empty list of style attributes. *)
Definition spanHelpers : StyleHelpers := {|
  TextStyleArgs := list string;
  ParagraphStyleArgs := list string;
  TextStyleRequest := Z * Z;
  ParagraphStyleRequest := Z * Z;
  buildUpdateTextStyleRequest := fun startIndex endIndex style _ =>
    match style with [] => None | _ => Some (startIndex, endIndex) end;
  buildUpdateParagraphStyleRequest := fun startIndex endIndex style _ =>
    match style with [] => None | _ => Some (startIndex, endIndex) end
|}.

End Docs.

(** ** Predicates the properties are stated with *)

(** A valid column-letter text: what [[A-Z]+] under the flag [i]
    matches in full. *)
Definition isColumnLetters (text : string) : bool :=
  JsString.truthy text && JsString.forallb JsString.isLetter text.

(** The number a text of upper-case letters spells in the notation of
    the column letters, the bijective base 26 (A is 1, Z is 26, AA is
    27), continuing from [index]; the column number of a text of
    letters, whatever their case; and the row number a text of digits
    spells. *)
Fixpoint lettersValue (upper : string) (index : Z) : Z :=
  match upper with
  | EmptyString => index
  | String c rest =>
      lettersValue rest (index * 26 + (JsString.charCode c - 64))
  end.

Definition columnNumber (letters : string) : Z :=
  lettersValue (JsString.toUpperCase letters) 0.

Definition rowNumber (digits : string) : Z :=
  JsNumber.digitsValue 10 digits 0.

(** What a capture group [(class+)] holds: a non-empty run of the class. *)
Definition captured (p : ascii -> bool) (g : string) : Prop :=
  JsString.forallb p g = true /\ JsString.truthy g = true.

Definition capturedOpt (p : ascii -> bool) (g : option string) : Prop :=
  match g with Some text => captured p text | None => True end.

(** The text two groups and the colon between them stand for. *)
Definition joined (g1 : string) (g2 : option string) : string :=
  match g2 with
  | Some text => (g1 ++ String ":" text)%string
  | None => g1
  end.

(** The rest of a rectangle address after its first corner. *)
Definition secondCorner (second : option (string * string)) : string :=
  match second with
  | Some (c2, r2) => String ":" (c2 ++ r2)
  | None => EmptyString
  end.

(** A character a range address may hold: a letter, a digit or the
    colon. *)
Definition isAddressChar (c : ascii) : bool :=
  JsString.isLetter c || JsString.isDigit c || Ascii.eqb c ":".

(** Both bounds of an axis are present, or both are absent. *)
Definition paired (lo hi : option Z) : bool :=
  match lo, hi with
  | Some _, Some _ => true
  | None, None => true
  | _, _ => false
  end.

(** The invariant of the data model on one axis: the end bound, when
    present, is not below the start bound. *)
Definition axisOrdered (lo hi : option Z) : Prop :=
  match lo, hi with
  | Some a, Some b => a <= b
  | None, None => True
  | _, _ => False
  end.

Definition gridRangeOrdered (g : GridRange) : Prop :=
  axisOrdered (startRowIndex g) (endRowIndex g) /\
  axisOrdered (startColumnIndex g) (endColumnIndex g).

(** The sheets of a spreadsheet, [metadata.sheets || []]. *)
Definition sheetsOf {Rule : Type} (metadata : Data.Spreadsheet Rule)
  : list (Data.Sheet Rule) :=
  match Data.sheets metadata with Some l => l | None => [] end.

(** A service to run the helpers against: its state is the spreadsheet
    it holds, a read answers it, and a batch update is accepted and
    answered with the number of its requests. *)
Definition memoryClient : SheetsClient := {|
  RemoteState := Data.Spreadsheet unit;
  Rule := unit;
  ResponseData := nat;
  answerGet := fun state _ => inr state;
  answerBatchUpdate := fun state _ requests => (state, inr (List.length requests))
|}.

(** A spreadsheet with the sheets Sheet1 (id 0, no rule) and Data (id 7,
    three rules). *)
Definition twoSheets : Data.Spreadsheet unit :=
  Data.mkSpreadsheet
    (Some [Data.mkSheet (Some (Data.mkSheetProperties (Some 0) (Some "Sheet1"))) None;
           Data.mkSheet (Some (Data.mkSheetProperties (Some 7) (Some "Data")))
             (Some [tt; tt; tt])]).

(** The sheet carries the identifier [sheetId]. *)
Definition hasSheetId {Rule : Type} (sheetId : Z) (sheet : Data.Sheet Rule) : bool :=
  match Data.sheetIdOf sheet with
  | Some current => current =? sheetId
  | None => false
  end.

(** The conditional-format rules of a sheet, [sheet.conditionalFormats || []]. *)
Definition rulesOf {Rule : Type} (sheet : Data.Sheet Rule) : list Rule :=
  match Data.conditionalFormats sheet with Some rs => rs | None => [] end.

(** The delete-by-index requests for the indices [n-1], [n-2], ..., [0],
    in that order. *)
Definition descendingDeletes (sheetId : Z) (n : nat) : list Schema.Request :=
  map (fun i => Schema.deleteConditionalFormatRule sheetId (Z.of_nat i))
    (rev (seq 0 n)).

(** The attributes the field mask of [formatCells] names, under
    [userEnteredFormat]. *)
Definition formatCellsMask : list string :=
  ["backgroundColor"; "textFormat"; "horizontalAlignment"; "verticalAlignment"].

(** [present name o]: the path [name] when the property [o] is populated. *)
Definition present {A : Type} (name : string) (o : option A) : list string :=
  match o with Some _ => [name] | None => [] end.

(** The attributes of a cell format that are populated, among those
    [formatCells] can set. *)
Definition populatedAttributes (f : Schema.CellFormat) : list string :=
  present "backgroundColor" (Schema.backgroundColor f) ++
  present "textFormat" (Schema.textFormat f) ++
  present "horizontalAlignment" (Schema.horizontalAlignment f) ++
  present "verticalAlignment" (Schema.verticalAlignment f).

(** The paths of the populated attributes of a text format. *)
Definition populatedTextPaths (t : Schema.TextFormat) : list string :=
  present "userEnteredFormat.textFormat.foregroundColor"
    (Schema.foregroundColor t) ++
  present "userEnteredFormat.textFormat.fontSize" (Schema.fontSize t) ++
  present "userEnteredFormat.textFormat.bold" (Schema.bold t) ++
  present "userEnteredFormat.textFormat.italic" (Schema.italic t) ++
  present "userEnteredFormat.textFormat.fontFamily" (Schema.fontFamily t).

(** The paths of the populated attributes of a cell format, the text
    format counted attribute by attribute, as [batchFormat] masks them. *)
Definition populatedPaths (f : Schema.CellFormat) : list string :=
  present "userEnteredFormat.backgroundColor" (Schema.backgroundColor f) ++
  match Schema.textFormat f with
  | Some t => populatedTextPaths t
  | None => []
  end ++
  present "userEnteredFormat.horizontalAlignment" (Schema.horizontalAlignment f) ++
  present "userEnteredFormat.verticalAlignment" (Schema.verticalAlignment f) ++
  present "userEnteredFormat.numberFormat" (Schema.numberFormat f) ++
  present "userEnteredFormat.wrapStrategy" (Schema.wrapStrategy f).

(** The paths of the populated grid properties. *)
Definition populatedGridPaths (g : Schema.GridProperties) : list string :=
  present "gridProperties.frozenRowCount" (Schema.frozenRowCount g) ++
  present "gridProperties.frozenColumnCount" (Schema.frozenColumnCount g).

(** A format that asks for bold text and nothing else. *)
Definition boldOnly : FormatCells.Format :=
  FormatCells.mkFormat None
    (Some (FormatCells.mkTextFormat None None (Some true) None)) None None.

(** ** Further helpers and tools *)

(** The patterns of [a1ToRowCol] and of the tool [addConditionalFormatRule]. *)
Module Pattern.

(** [/^([A-Z]+)(\d+)$/i]: group 1 and group 2. *)
Definition cell (s : string) : option (string * string) :=
  match Regex.plus JsString.isLetter s with
  | Some (g1, rest) =>
      match Regex.plus JsString.isDigit rest with
      | Some (g2, EmptyString) => Some (g1, g2)
      | _ => None
      end
  | None => None
  end.

(** [/^([A-Z]+)(\d+):([A-Z]+)(\d+)$/i]: groups 1 to 4. *)
Definition corners (s : string) : option (string * string * string * string) :=
  match Regex.plus JsString.isLetter s with
  | Some (g1, rest) =>
      match Regex.plus JsString.isDigit rest with
      | Some (g2, String ":" rest) =>
          match Regex.plus JsString.isLetter rest with
          | Some (g3, rest) =>
              match Regex.plus JsString.isDigit rest with
              | Some (g4, EmptyString) => Some (g1, g2, g3, g4)
              | _ => None
              end
          | None => None
          end
      | _ => None
      end
  | None => None
  end.

End Pattern.

(** [{ row: number; col: number }] *)
Module RowCol.
Record t : Type := mk { row : Z; col : Z }.
End RowCol.

(** [a1ToRowCol] (lines 13-29).  [None] stands for the [UserError] it
    throws on a text the pattern does not match (Invalid A1 notation).
    Its loop over the column letters (lines 22-25) is the loop of
    [colLettersToIndex]. *)
Definition a1ToRowCol (a1 : string) : option RowCol.t :=
  match Pattern.cell a1 with
  | None => None
  | Some (g1, g2) =>
      let colStr := JsString.toUpperCaseUnits g1 in
      let row := JsNumber.sub (parseRow g2) 1 in
      let col := colLettersToIndex_loop colStr 0 in
      let col := JsNumber.sub col 1 in
      Some (RowCol.mk row col)
  end.

(** The value [parseInt] gives a hexadecimal digit, 0 for any other
    character. *)
Definition hexValue (c : ascii) : Z :=
  match JsNumber.digitValue c with Some v => v | None => 0 end.

(** The byte two hexadecimal digits spell. *)
Definition hexByte (hi lo : ascii) : Z := 16 * hexValue hi + hexValue lo.

(** *** What [batchFormat] builds, operation by operation *)

(** A range [parseA1Range] turns away. *)
Definition invalidRange (a1 : string) : bool :=
  match Regex.standard a1 with Some _ => false | None => true end.

(** The ranges [batchFormat] parses, in the order it parses them: those
    of the cell formats, then those of the merges. *)
Definition batchRanges (operations : BatchFormat.Operations) : list string :=
  map BatchFormat.range
    (match BatchFormat.cellFormats operations with Some l => l | None => [] end) ++
  match BatchFormat.merges operations with Some l => l | None => [] end.

(** The request of one cell format: none when no attribute is set. *)
Definition cellFormatRequest (sheetId : Z) (fmt : BatchFormat.CellFormat)
  : list Schema.Request :=
  match parseA1Range (BatchFormat.range fmt) with
  | inr bounds =>
      if 0 <? Z.of_nat (List.length (snd (cellFormatPayload fmt))) then
        [Schema.repeatCell (boundsToGridRange sheetId bounds)
           (fst (cellFormatPayload fmt)) (join (snd (cellFormatPayload fmt)))]
      else []
  | inl _ => []
  end.

Definition columnWidthRequest (sheetId : Z) (cw : BatchFormat.ColumnWidth)
  : Schema.Request :=
  Schema.updateDimensionProperties
    (Schema.mkDimensionRange sheetId COLUMNS
       (colLetterToIndex (BatchFormat.column cw))
       (JsNumber.add (colLetterToIndex (BatchFormat.column cw)) 1))
    (Schema.mkDimensionProperties (Some (BatchFormat.width cw)) None)
    "pixelSize".

Definition rowHeightRequest (sheetId : Z) (rh : BatchFormat.RowHeight)
  : Schema.Request :=
  Schema.updateDimensionProperties
    (Schema.mkDimensionRange sheetId ROWS
       (JsNumber.sub (BatchFormat.row rh) 1) (BatchFormat.row rh))
    (Schema.mkDimensionProperties (Some (BatchFormat.height rh)) None)
    "pixelSize".

Definition hideColumnsRequest (sheetId : Z) (hc : BatchFormat.HideColumns)
  : Schema.Request :=
  Schema.updateDimensionProperties
    (Schema.mkDimensionRange sheetId COLUMNS
       (colLetterToIndex (BatchFormat.startColumn hc))
       (JsNumber.add (colLetterToIndex (BatchFormat.endColumn hc)) 1))
    (Schema.mkDimensionProperties None (Some true))
    "hiddenByUser".

Definition mergeRequest (sheetId : Z) (a1 : string) : list Schema.Request :=
  match parseA1Range a1 with
  | inr bounds =>
      [Schema.mergeCells (boundsToGridRange sheetId bounds) "MERGE_ALL"]
  | inl _ => []
  end.

Definition freezeRequest (sheetId : Z) (freezeRows freezeColumns : option Z)
  : list Schema.Request :=
  match freezeRows, freezeColumns with
  | None, None => []
  | _, _ =>
      [Schema.updateSheetProperties sheetId
         (fst (freezeProperties freezeRows freezeColumns))
         (join (snd (freezeProperties freezeRows freezeColumns)))]
  end.

(** All the requests of a batch, in the order of the operations: cell
    formats, column widths, row heights, hidden columns, merges,
    freeze. *)
Definition batchRequests (sheetId : Z) (operations : BatchFormat.Operations)
  : list Schema.Request :=
  flat_map (cellFormatRequest sheetId)
    (match BatchFormat.cellFormats operations with Some l => l | None => [] end) ++
  map (columnWidthRequest sheetId)
    (match BatchFormat.columnWidths operations with Some l => l | None => [] end) ++
  map (rowHeightRequest sheetId)
    (match BatchFormat.rowHeights operations with Some l => l | None => [] end) ++
  match BatchFormat.hideColumns operations with
  | Some hc => [hideColumnsRequest sheetId hc]
  | None => []
  end ++
  flat_map (mergeRequest sheetId)
    (match BatchFormat.merges operations with Some l => l | None => [] end) ++
  freezeRequest sheetId (BatchFormat.freezeRows operations)
    (BatchFormat.freezeColumns operations).

(** The paths of the populated dimension properties. *)
Definition populatedDimensionPaths (p : Schema.DimensionProperties) : list string :=
  present "pixelSize" (Schema.pixelSize p) ++
  present "hiddenByUser" (Schema.hiddenByUser p).

(** The field mask of a request names exactly the populated attributes
    of its payload, and a cell format request populates at least one. *)
Definition maskAgrees (r : Schema.Request) : Prop :=
  match r with
  | Schema.repeatCell _ payload fields =>
      fields = join (populatedPaths payload) /\ populatedPaths payload <> []
  | Schema.updateSheetProperties _ g fields =>
      fields = join (populatedGridPaths g)
  | Schema.updateDimensionProperties _ p fields =>
      fields = join (populatedDimensionPaths p)
  | Schema.deleteConditionalFormatRule _ _ => True
  | Schema.mergeCells _ _ => True
  end.

(** A cell format that sets at least one attribute [batchFormat] sends. *)
Definition setsAttribute (fmt : BatchFormat.CellFormat) : bool :=
  0 <? Z.of_nat (List.length (snd (cellFormatPayload fmt))).

(** Operations to run [batchFormat] on: a bold range, a cell format
    that sets nothing, a column width, a merge and a frozen row. *)
Definition sampleOperations : BatchFormat.Operations :=
  BatchFormat.mkOperations
    (Some [BatchFormat.mkCellFormat "A1:B2" None (Some true) None None None
             None None None None None;
           BatchFormat.mkCellFormat "C3" None None None None None
             None None None None None])
    (Some [BatchFormat.mkColumnWidth "A" 120])
    None None
    (Some ["A7:E7"])
    (Some 1) None.

(** *** [deleteRows] *)

(** What [deleteRows] throws before it sends anything; a constructor
    stands for a message template, as for [UserError]. *)
Inductive RowsError : Type :=
  (** Sheet ... not found in spreadsheet. *)
  | RowsSheetNotFound (sheetName : string)
  (** Row numbers must be 1-based (minimum 1). *)
  | RowNumbersNotOneBased
  (** startRow cannot be greater than endRow. *)
  | StartRowAfterEndRow.

(** [deleteRows] between the metadata read and the batch update
    (lines 1125-1143): the error it throws, or the range of the one
    [deleteDimension] request it sends. *)
Definition deleteRowsRange {client : SheetsClient}
    (metadata : Data.Spreadsheet Rule) (sheetName : string)
    (startRow endRow : Z) : RowsError + Schema.DimensionRange :=
  let sheet := findByTitle metadata sheetName in
  match match sheet with Some s => Data.sheetIdOf s | None => None end with
  | None => inl (RowsSheetNotFound sheetName)
  | Some sheetId =>
      if (startRow <? 1) || (endRow <? 1) then inl RowNumbersNotOneBased
      else if startRow >? endRow then inl StartRowAfterEndRow
      else
        let startIndex := JsNumber.sub startRow 1 in
        let endIndex := endRow in
        inr (Schema.mkDimensionRange sheetId ROWS startIndex endIndex)
  end.

(** The number of rows the tool [deleteSpreadsheetRows] reports
    ([formatSpreadsheet.ts], line 170). *)
Definition deletedRowCount (startRow endRow : Z) : Z :=
  JsNumber.add (JsNumber.sub endRow startRow) 1.

(** *** [getConditionalFormatRules], sheet by sheet *)

(** The entry of one sheet in the result: none for a sheet without an
    identifier, or with another identifier than the one asked for. *)
Definition entryOf {Rule : Type} (sheetId : option Z) (sheet : Data.Sheet Rule)
  : list (SheetRules.t Rule) :=
  match Data.sheetIdOf sheet with
  | Some current =>
      if match sheetId with Some wanted => current =? wanted | None => true end
      then [SheetRules.mk current
              (match truthyText (Data.titleOf sheet) with
               | Some t => t
               | None => "Unknown"
               end)
              (rulesOf sheet)]
      else []
  | None => []
  end.

(** ** Apps Script project files ([googleAppsScriptApiHelpers.ts]) *)

Module Script.

(** ['SERVER_JS' | 'HTML' | 'JSON'] *)
Inductive FileType : Type := SERVER_JS | HTML | JSON.

Definition fileTypeName (t : FileType) : string :=
  match t with
  | SERVER_JS => "SERVER_JS"
  | HTML => "HTML"
  | JSON => "JSON"
  end.

(** [value || fallback] on an optional text. *)
Definition orElse (value : option string) (fallback : string) : string :=
  match value with
  | Some text => if JsString.truthy text then text else fallback
  | None => fallback
  end.

(** What [getScriptFile] answers. *)
Record Source : Type := mkSource {
  sourceName : string;
  sourceType : string;
  sourceText : string
}.

(** What [listScriptFiles] answers for each file. *)
Record Listed : Type := mkListed {
  listedName : string;
  listedType : string;
  listedSource : option string
}.

Section Files.
(** The attributes of a file that the helpers carry along and do not
    read: the times, the last user, the function set. *)
Variable Other : Type.

(** [script_v1.Schema$File] *)
Record File : Type := mkFile {
  name : option string;
  type : option string;
  source : option string;
  others : option Other
}.

(** [file.name === fileName] *)
Definition named (fileName : string) (file : File) : bool :=
  match name file with
  | Some text => String.eqb text fileName
  | None => false
  end.

(** [{ ...file, source: newSource }] *)
Definition withSource (newSource : string) (file : File) : File :=
  mkFile (name file) (type file) (Some newSource) (others file).

(** What the callback of the [files.map] of [updateScriptFile] returns
    (lines 114-118). *)
Definition resend (fileName newSource : string) (file : File) : File :=
  if named fileName file then withSource newSource file else file.

(** The [files.map] of [updateScriptFile] (lines 113-120), with the
    flag [fileFound] its callback sets. *)
Fixpoint mapFiles (fileName newSource : string) (files : list File)
    (fileFound : bool) : list File * bool :=
  match files with
  | [] => ([], fileFound)
  | file :: rest =>
      if named fileName file then
        let (mapped, fileFound) := mapFiles fileName newSource rest true in
        (withSource newSource file :: mapped, fileFound)
      else
        let (mapped, fileFound) := mapFiles fileName newSource rest fileFound in
        (file :: mapped, fileFound)
  end.

(** [updateScriptFile] (lines 103-131): the files it hands to
    [updateScriptContent], from the files [getScriptContent] answered
    ([content.files || []]); [fileType] defaults to ['SERVER_JS']. *)
Definition updatedFiles (files : option (list File)) (fileName newSource : string)
    (fileType : option FileType) : list File :=
  let fileType := match fileType with Some t => t | None => SERVER_JS end in
  let files := match files with Some l => l | None => [] end in
  let (updatedFiles, fileFound) := mapFiles fileName newSource files false in
  if negb fileFound then
    updatedFiles ++
    [mkFile (Some fileName) (Some (fileTypeName fileType)) (Some newSource) None]
  else updatedFiles.

(** [listScriptFiles] (lines 136-148), after the read. *)
Definition listedFiles (files : option (list File)) : list Listed :=
  let files := match files with Some l => l | None => [] end in
  map (fun file =>
         mkListed (orElse (name file) "Unknown") (orElse (type file) "Unknown")
           (match source file with
            | Some text => if JsString.truthy text then Some text else None
            | None => None
            end))
      files.

(** [getScriptFile] (lines 153-171), after the read: [None] is [null]. *)
Definition selectedFile (files : option (list File)) (fileName : string)
  : option Source :=
  let files := match files with Some l => l | None => [] end in
  match find (named fileName) files with
  | None => None
  | Some file =>
      Some (mkSource (orElse (name file) "Unknown")
              (orElse (type file) "Unknown") (orElse (source file) ""))
  end.

End Files.

Arguments mkFile {Other}.
Arguments name {Other}.
Arguments type {Other}.
Arguments source {Other}.
Arguments others {Other}.
Arguments named {Other}.
Arguments withSource {Other}.
Arguments resend {Other}.
Arguments mapFiles {Other}.
Arguments updatedFiles {Other}.
Arguments listedFiles {Other}.
Arguments selectedFile {Other}.

End Script.

(** ** The range of the tool [addConditionalFormatRule] *)

(** [colToIndex], local to the tool
    ([tools/sheets/addConditionalFormatRule.ts], lines 70-77). *)
Definition colToIndex (col : string) : Z :=
  let col := JsString.toUpperCaseUnits col in
  JsNumber.sub (colLettersToIndex_loop col 0) 1.

(** The range the tool hands to the helper (lines 114-119). *)
Module RuleRange.
Record t : Type := mk {
  startRowIndex : Z;
  endRowIndex : Z;
  startColumnIndex : Z;
  endColumnIndex : Z
}.
End RuleRange.

(** Lines 65-82 of the tool: [None] is the thrown error (Invalid range
    format). *)
Definition ruleRange (range : string) : option RuleRange.t :=
  match Pattern.corners range with
  | None => None
  | Some (g1, g2, g3, g4) =>
      let startCol := colToIndex g1 in
      let startRow := JsNumber.sub (parseRow g2) 1 in
      let endCol := JsNumber.add (colToIndex g3) 1 in
      let endRow := parseRow g4 in
      Some (RuleRange.mk startRow endRow startCol endCol)
  end.

(** The grid range the helper [addConditionalFormatRule] puts in its
    request ([googleSheetsApiHelpers.ts], lines 714-722). *)
Definition ruleGridRange (sheetId : Z) (range : RuleRange.t) : GridRange :=
  mkGridRange sheetId
    (Some (RuleRange.startRowIndex range)) (Some (RuleRange.endRowIndex range))
    (Some (RuleRange.startColumnIndex range))
    (Some (RuleRange.endColumnIndex range)).

(** ** One read, then one batch update *)

Section UpdateEffects.
Context {client : SheetsClient}.

(** The world and the answer after one read of the metadata and one
    batch update, the failure of the service translated by the
    [catch] block of the helper. *)
Definition afterUpdate (action spreadsheetId : string)
    (requests : list Schema.Request) (w : World)
  : World * (UserError + ResponseData) :=
  let (remote', answer) := answerBatchUpdate (remote w) spreadsheetId requests in
  (mkWorld remote'
     (calls w ++ [SpreadsheetsGet spreadsheetId None;
                  SpreadsheetsBatchUpdate spreadsheetId requests]),
   match answer with
   | inl e => inl (onApiError action spreadsheetId e)
   | inr data => inr data
   end).

End UpdateEffects.

(** ** Cell references of the readers *)

(** [n ?? 0] and [n || 0] on an optional number. *)
Definition orZero (n : option Z) : Z :=
  match n with
  | Some n => if n =? 0 then 0 else n
  | None => 0
  end.

(** [l?.[0]] *)
Definition firstOf {A : Type} (l : option (list A)) : option A :=
  match l with
  | Some (x :: _) => Some x
  | _ => None
  end.

(** The message of the error [rowColToA1] throws (lines 37-39). *)
Definition negativeMessage (row col : Z) : string :=
  ("Row and column indices must be non-negative. Got row: " ++
   JsNumber.toString row ++ ", col: " ++ JsNumber.toString col)%string.

(** [getDataValidation] (lines 1172-1250), after the read. *)
Module Validation.

(** [sheets_v4.Schema$ConditionValue] *)
Record ConditionValue : Type := mkConditionValue {
  userEnteredValue : option string;
  relativeDate : option string
}.

(** [sheets_v4.Schema$BooleanCondition] *)
Record BooleanCondition : Type := mkBooleanCondition {
  type : option string;
  values : option (list ConditionValue)
}.

(** [sheets_v4.Schema$DataValidationRule] *)
Record Rule : Type := mkRule {
  condition : option BooleanCondition;
  inputMessage : option string;
  strict : option bool;
  showCustomUi : option bool
}.

(** The part of the response that is read. *)
Record CellData : Type := mkCellData {
  dataValidation : option Rule
}.

Record RowData : Type := mkRowData {
  rowValues : option (list CellData)
}.

Record GridData : Type := mkGridData {
  startRow : option Z;
  startColumn : option Z;
  rowData : option (list RowData)
}.

Record Sheet : Type := mkSheet {
  data : option (list GridData)
}.

Record Response : Type := mkResponse {
  sheets : option (list Sheet)
}.

(** What is answered for a cell. *)
Record Condition : Type := mkCondition {
  conditionType : string;
  conditionValues : list string
}.

Record Entry : Type := mkEntry {
  cell : string;
  entryCondition : option Condition;
  entryInputMessage : option string;
  entryStrict : option bool;
  entryShowCustomUi : option bool
}.

(** [v.userEnteredValue || v.relativeDate || ''] *)
Definition valueText (v : ConditionValue) : string :=
  match truthyText (userEnteredValue v) with
  | Some text => text
  | None =>
      match truthyText (relativeDate v) with
      | Some text => text
      | None => EmptyString
      end
  end.

(** Lines 1218-1232: the entry pushed for a cell with a validation. *)
Definition entry (cellRef : string) (dv : Rule) : Entry :=
  let conditionValues :=
    match condition dv with
    | Some c =>
        match values c with
        | Some vs => map valueText vs
        | None => []
        end
    | None => []
    end in
  mkEntry cellRef
    (match condition dv with
     | Some c =>
         Some (mkCondition
                 (match truthyText (type c) with
                  | Some text => text
                  | None => "UNKNOWN"
                  end)
                 conditionValues)
     | None => None
     end)
    (truthyText (inputMessage dv))
    (strict dv)
    (showCustomUi dv).

(** The inner loop (lines 1212-1234), from [colIdx] on. *)
Fixpoint rowValidations (startRow startCol rowIdx : Z) (values : list CellData)
    (colIdx : Z) (validations : list Entry) : UserError + list Entry :=
  match values with
  | [] => inr validations
  | cellData :: rest =>
      match rowColToA1 (JsNumber.add startRow rowIdx)
              (JsNumber.add startCol colIdx) with
      | inl e => inl e
      | inr cellRef =>
          let validations :=
            match dataValidation cellData with
            | Some dv => validations ++ [entry cellRef dv]
            | None => validations
            end in
          rowValidations startRow startCol rowIdx rest (colIdx + 1) validations
      end
  end.

(** The outer loop (lines 1208-1235), from [rowIdx] on. *)
Fixpoint gridValidations (startRow startCol : Z) (rows : list RowData)
    (rowIdx : Z) (validations : list Entry) : UserError + list Entry :=
  match rows with
  | [] => inr validations
  | row :: rest =>
      match rowValues row with
      | None => gridValidations startRow startCol rest (rowIdx + 1) validations
      | Some values =>
          match rowValidations startRow startCol rowIdx values 0 validations with
          | inl e => inl e
          | inr validations =>
              gridValidations startRow startCol rest (rowIdx + 1) validations
          end
      end
  end.

(** Lines 1198-1248: the answer for a response read.  An error of
    [rowColToA1] reaches the [catch] block, which has no line for a
    [UserError] and wraps its message. *)
Definition validationsOf (range : string) (response : Response)
  : UserError + string * list Entry :=
  let sheetData := firstOf (sheets response) in
  let gridData :=
    match sheetData with
    | Some sheet => firstOf (data sheet)
    | None => None
    end in
  match gridData with
  | None => inr (range, [])
  | Some gridData =>
      match rowData gridData with
      | None => inr (range, [])
      | Some rows =>
          let startRow := orZero (startRow gridData) in
          let startCol := orZero (startColumn gridData) in
          match gridValidations startRow startCol rows 0 [] with
          | inl (NegativeRowCol row col) =>
              inl (Failed "get data validation" (negativeMessage row col))
          | inl e => inl e
          | inr validations => inr (range, validations)
          end
      end
  end.

End Validation.

(** A list with the index of each element, counting from [i]. *)
Fixpoint indexedFrom {A : Type} (i : Z) (l : list A) : list (Z * A) :=
  match l with
  | [] => []
  | x :: rest => (i, x) :: indexedFrom (i + 1) rest
  end.

(** The cells of a row that carry a validation, each with the offset
    [i] of the row and its own offset. *)
Definition rowCells (i : Z) (indexed : list (Z * Validation.CellData))
  : list (Z * Z * Validation.Rule) :=
  flat_map
    (fun '(j, cellData) =>
       match Validation.dataValidation cellData with
       | Some dv => [(i, j, dv)]
       | None => []
       end)
    indexed.

Definition gridCells (indexed : list (Z * Validation.RowData))
  : list (Z * Z * Validation.Rule) :=
  flat_map
    (fun '(i, row) =>
       match Validation.rowValues row with
       | Some values => rowCells i (indexedFrom 0 values)
       | None => []
       end)
    indexed.

(** The cells of a grid that carry a validation, row by row, each with
    its offsets in the grid. *)
Definition validatedCells (rows : list Validation.RowData)
  : list (Z * Z * Validation.Rule) :=
  gridCells (indexedFrom 0 rows).

(** The reference of the cell at the offsets [i] and [j] of a grid
    that starts at [startRow] and [startCol], as [rowColToA1] writes
    it. *)
Definition cellAt (startRow startCol i j : Z) : string :=
  (indexToColumnLetters (JsNumber.add startCol j) ++
   JsNumber.toString (JsNumber.add (JsNumber.add startRow i) 1))%string.

(** The entry of a cell that carries a validation. *)
Definition entryAt (startRow startCol : Z) (c : Z * Z * Validation.Rule)
  : Validation.Entry :=
  let '(i, j, dv) := c in Validation.entry (cellAt startRow startCol i j) dv.

(** [s.replace(/\d+/, '')]: the text without its first run of digits. *)
Fixpoint replaceDigits (s : string) : string :=
  match s with
  | EmptyString => EmptyString
  | String c rest =>
      if JsString.isDigit c then snd (JsString.span JsString.isDigit rest)
      else String c (replaceDigits rest)
  end.

(** The cell reference of the tool [getCellFormatting]
    ([tools/sheets/getCellFormatting.ts], lines 47-48, 57 and 64-65) for
    the cell at the offsets [r] and [c] of the grid. *)
Definition formattingCellRef (startRow startColumn : option Z) (r c : Z)
  : UserError + string :=
  let startRow := JsNumber.add (orZero startRow) 1 in
  let startCol := orZero startColumn in
  let rowNum := JsNumber.add startRow r in
  match rowColToA1 0 (JsNumber.add startCol c) with
  | inl e => inl e
  | inr a1 =>
      let colLetter := replaceDigits a1 in
      inr (colLetter ++ JsNumber.toString rowNum)%string
  end.

(** ** [setDropdownValidation] up to its request *)

(** The rule for a source range (lines 591-601): the one value is the
    formula of the range, the sheet name between single quotes. *)
Definition rangeRule (strict : bool) (inputMessage : option string)
    (srcSheet : option string) (srcA1 : string) : Validation.Rule :=
  Validation.mkRule
    (Some (Validation.mkBooleanCondition (Some "ONE_OF_RANGE")
             (Some [Validation.mkConditionValue
                      (Some ("=" ++
                             match truthyText srcSheet with
                             | Some name => "'" ++ name ++ "'!"
                             | None => ""
                             end ++ srcA1)%string)
                      None])))
    (truthyText inputMessage) (Some strict) (Some true).

(** The rule for a list of values (lines 604-612). *)
Definition listRule (strict : bool) (inputMessage : option string)
    (values : list string) : Validation.Rule :=
  Validation.mkRule
    (Some (Validation.mkBooleanCondition (Some "ONE_OF_LIST")
             (Some (map (fun v => Validation.mkConditionValue (Some v) None)
                      values))))
    (truthyText inputMessage) (Some strict) (Some true).

Section Dropdown.
Context {client : SheetsClient}.
Local Open Scope effect_scope.

(** [setDropdownValidation] (lines 570-645) from its first line to the
    request it is about to send (lines 580-614), inside its [try]
    block: the range and the rule of the one [setDataValidation]
    request, [None] being the rule [undefined], which clears the
    validation of the range.  With a source range the helper resolves
    the sheet of that range and parses its cell part too, and throws
    where they throw.  [strict] defaults to [true].  The batch update
    that follows is not part of this definition. *)
Definition dropdownRequest (spreadsheetId range : string)
    (values : option (list string)) (strict : option bool)
    (inputMessage sourceRange : option string)
  : M UserError (GridRange * option Validation.Rule) :=
  let strict := match strict with Some b => b | None => true end in
  tryCatch
    (let (sheetName, a1Range) := parseRange range in
     sheetId <- tryCatch (resolveSheetId spreadsheetId sheetName) ThrownUser ;;
     gridRange <- lift (match parseA1ToGridRange a1Range sheetId with
                        | inl e => inl (ThrownUser e)
                        | inr g => inr g
                        end) ;;
     match truthyText sourceRange with
     | Some sourceRange =>
         let (srcSheet, srcA1) := parseRange sourceRange in
         srcSheetId <-
           tryCatch (resolveSheetId spreadsheetId srcSheet) ThrownUser ;;
         srcGridRange <- lift (match parseA1ToGridRange srcA1 srcSheetId with
                               | inl e => inl (ThrownUser e)
                               | inr g => inr g
                               end) ;;
         ret (gridRange, Some (rangeRule strict inputMessage srcSheet srcA1))
     | None =>
         match values with
         | Some ((_ :: _) as values) =>
             ret (gridRange, Some (listRule strict inputMessage values))
         | _ => ret (gridRange, None)
         end
     end)
    (onThrown "set dropdown validation" spreadsheetId).

End Dropdown.

(** ** The rule of [addConditionalFormatRule] *)

Module ConditionalFormat.

Inductive ConditionType : Type :=
  | NUMBER_GREATER | NUMBER_LESS | NUMBER_EQ | NUMBER_GREATER_THAN_EQ
  | NUMBER_LESS_THAN_EQ | TEXT_CONTAINS | TEXT_NOT_CONTAINS | BLANK
  | NOT_BLANK | CUSTOM_FORMULA.

(** The arguments of the tool that make the rule
    ([tools/sheets/addConditionalFormatRule.ts], lines 20-46). *)
Record Args : Type := mkArgs {
  conditionType : ConditionType;
  conditionValue : option string;
  backgroundColor : option string;
  textColor : option string;
  bold : option bool;
  italic : option bool
}.

(** The [rule] argument of the helper (lines 659-667). *)
Record Rule : Type := mkRule {
  type : ConditionType;
  values : option (list string);
  ruleBackgroundColor : option Rgb.t;
  ruleTextColor : option Rgb.t;
  ruleBold : option bool;
  ruleItalic : option bool
}.

(** [sheets_v4.Schema$BooleanCondition] as the helper fills it: the
    type and the values entered. *)
Record Condition : Type := mkCondition {
  conditionKind : ConditionType;
  userEnteredValues : option (list string)
}.

(** The rule the tool builds (lines 84-110 of the tool). *)
Definition ruleOf (args : Args) : Rule :=
  let rule := mkRule (conditionType args) None None None None None in
  let rule :=
    match truthyText (conditionValue args) with
    | Some value =>
        mkRule (type rule) (Some [value]) (ruleBackgroundColor rule)
          (ruleTextColor rule) (ruleBold rule) (ruleItalic rule)
    | None => rule
    end in
  let rule :=
    match truthyText (backgroundColor args) with
    | Some text =>
        match hexToRgb text with
        | Some bg =>
            mkRule (type rule) (values rule) (Some bg) (ruleTextColor rule)
              (ruleBold rule) (ruleItalic rule)
        | None => rule
        end
    | None => rule
    end in
  let rule :=
    match truthyText (textColor args) with
    | Some text =>
        match hexToRgb text with
        | Some tc =>
            mkRule (type rule) (values rule) (ruleBackgroundColor rule)
              (Some tc) (ruleBold rule) (ruleItalic rule)
        | None => rule
        end
    | None => rule
    end in
  let rule :=
    match bold args with
    | Some b =>
        mkRule (type rule) (values rule) (ruleBackgroundColor rule)
          (ruleTextColor rule) (Some b) (ruleItalic rule)
    | None => rule
    end in
  match italic args with
  | Some i =>
      mkRule (type rule) (values rule) (ruleBackgroundColor rule)
        (ruleTextColor rule) (ruleBold rule) (Some i)
  | None => rule
  end.

(** The format the helper builds from the rule
    ([googleSheetsApiHelpers.ts], lines 671-697). *)
Definition formatOf (rule : Rule) : Schema.CellFormat :=
  let format := Schema.emptyCellFormat in
  let format :=
    match ruleBackgroundColor rule with
    | Some c => Schema.setBackgroundColor (Schema.opaque c) format
    | None => format
    end in
  if match ruleTextColor rule with Some _ => true | None => false end
     || match ruleBold rule with Some _ => true | None => false end
     || match ruleItalic rule with Some _ => true | None => false end
  then
    let textFormat := Schema.emptyTextFormat in
    let textFormat :=
      match ruleTextColor rule with
      | Some c => Schema.setForegroundColor (Schema.opaque c) textFormat
      | None => textFormat
      end in
    let textFormat :=
      match ruleBold rule with
      | Some b => Schema.setBold b textFormat
      | None => textFormat
      end in
    let textFormat :=
      match ruleItalic rule with
      | Some i => Schema.setItalic i textFormat
      | None => textFormat
      end in
    Schema.setTextFormat textFormat format
  else format.

(** The condition the helper builds (lines 699-705). *)
Definition conditionOf (rule : Rule) : Condition :=
  let booleanCondition := mkCondition (type rule) None in
  match values rule with
  | Some ((_ :: _) as values) => mkCondition (type rule) (Some values)
  | _ => booleanCondition
  end.

(** The colour a text argument of the tool stands for, if any. *)
Definition rgbOf (text : option string) : option Rgb.t :=
  match truthyText text with
  | Some text => hexToRgb text
  | None => None
  end.

Definition colourOf (text : option string) : option Schema.Color :=
  option_map Schema.opaque (rgbOf text).

End ConditionalFormat.

(** * Properties *)

(** ** Characters and strings *)

Section Characters.
Import JsString.

Lemma charCode_range (c : ascii) : 0 <= charCode c < 256.
Proof.
  unfold charCode. pose proof (N_ascii_bounded c). lia.
Qed.

Lemma charCode_fromCharCode (n : Z) :
  0 <= n < 256 -> charCode (fromCharCode n) = n.
Proof.
  intros Hn. unfold charCode, fromCharCode.
  rewrite N_ascii_embedding by lia. lia.
Qed.

Lemma fromCharCode_charCode (c : ascii) : fromCharCode (charCode c) = c.
Proof.
  unfold charCode, fromCharCode. rewrite N2Z.id. apply ascii_N_embedding.
Qed.

Lemma charCode_inj (c d : ascii) : charCode c = charCode d -> c = d.
Proof.
  intros H. rewrite <- (fromCharCode_charCode c), <- (fromCharCode_charCode d).
  now rewrite H.
Qed.

Lemma isUpper_spec (c : ascii) : isUpper c = true <-> 65 <= charCode c <= 90.
Proof. unfold isUpper. rewrite andb_true_iff, !Z.leb_le. tauto. Qed.

Lemma isLower_spec (c : ascii) : isLower c = true <-> 97 <= charCode c <= 122.
Proof. unfold isLower. rewrite andb_true_iff, !Z.leb_le. tauto. Qed.

Lemma isDigit_spec (c : ascii) : isDigit c = true <-> 48 <= charCode c <= 57.
Proof. unfold isDigit. rewrite andb_true_iff, !Z.leb_le. tauto. Qed.

Lemma isLetter_spec (c : ascii) :
  isLetter c = true <->
  65 <= charCode c <= 90 \/ 97 <= charCode c <= 122.
Proof.
  unfold isLetter. now rewrite orb_true_iff, isUpper_spec, isLower_spec.
Qed.

(** An upper-case letter comes out of [toUpperChar] for every letter. *)
Lemma toUpperChar_letter (c : ascii) :
  isLetter c = true -> isUpper (toUpperChar c) = true.
Proof.
  intros H. apply isLetter_spec in H. unfold toUpperChar.
  destruct (isLower c) eqn:Hl.
  - apply isLower_spec in Hl. apply isUpper_spec.
    pose proof (charCode_range c).
    rewrite charCode_fromCharCode; lia.
  - apply isUpper_spec. destruct H as [H | H]; [exact H|].
    apply isLower_spec in H. congruence.
Qed.

Lemma toUpperChar_upper (c : ascii) :
  isUpper c = true -> toUpperChar c = c.
Proof.
  intros H. apply isUpper_spec in H. unfold toUpperChar.
  destruct (isLower c) eqn:Hl; [|reflexivity].
  apply isLower_spec in Hl. lia.
Qed.

Lemma toUpperCase_letters (s : string) :
  forallb isLetter s = true -> forallb isUpper (toUpperCase s) = true.
Proof.
  induction s as [|c s IH]; simpl; [reflexivity|].
  rewrite !andb_true_iff. intros [Hc Hs].
  split; [now apply toUpperChar_letter | now apply IH].
Qed.

Lemma toUpperCase_upper (s : string) :
  forallb isUpper s = true -> toUpperCase s = s.
Proof.
  induction s as [|c s IH]; simpl; [reflexivity|].
  rewrite andb_true_iff. intros [Hc Hs].
  now rewrite toUpperChar_upper, IH.
Qed.

Lemma forallb_app (p : ascii -> bool) (s t : string) :
  forallb p (s ++ t)%string = forallb p s && forallb p t.
Proof.
  induction s as [|c s IH]; simpl; [reflexivity|].
  now rewrite IH, andb_assoc.
Qed.

Lemma forallb_weaken (p q : ascii -> bool) (s : string) :
  (forall c, p c = true -> q c = true) ->
  forallb p s = true -> forallb q s = true.
Proof.
  intros Hpq. induction s as [|c s IH]; simpl; [easy|].
  rewrite !andb_true_iff. intros [Hc Hs]. split; auto.
Qed.

Lemma append_empty_r (s : string) : (s ++ EmptyString)%string = s.
Proof. induction s as [|c s IH]; simpl; [reflexivity | now rewrite IH]. Qed.

Lemma append_assoc (s t u : string) :
  ((s ++ t) ++ u)%string = (s ++ (t ++ u))%string.
Proof. induction s as [|c s IH]; simpl; [reflexivity | now rewrite IH]. Qed.

(** Induction on a string from its last character. *)
Lemma string_snoc_ind (P : string -> Prop) :
  P EmptyString ->
  (forall s c, P s -> P (s ++ String c EmptyString)%string) ->
  forall s, P s.
Proof.
  intros Hnil Hsnoc s.
  rewrite <- (string_of_list_ascii_of_string s).
  induction (list_ascii_of_string s) as [|c l IH] using rev_ind.
  - exact Hnil.
  - replace (string_of_list_ascii (l ++ [c]))
      with (string_of_list_ascii l ++ String c EmptyString)%string.
    + apply Hsnoc, IH.
    + clear. induction l as [|d l IH]; simpl; [reflexivity | now rewrite IH].
Qed.

End Characters.

(** ** Numbers: rounding, and where it does nothing *)

Section Doubles.
Import JsNumber.

Lemma nearestEven_lower (n d : Z) : 0 < d -> n / d <= nearestEven n d.
Proof.
  intros Hd. unfold nearestEven.
  destruct (2 * (n mod d) <? d); [lia|].
  destruct (d <? 2 * (n mod d)); [lia|].
  destruct (Z.even (n / d)); lia.
Qed.

Lemma nearestEven_upper (n d : Z) :
  0 < d -> 2 * d * nearestEven n d <= 2 * n + d.
Proof.
  intros Hd. unfold nearestEven.
  pose proof (Z.div_mod n d ltac:(lia)) as Hn.
  pose proof (Z.mod_pos_bound n d Hd) as Hr.
  destruct (Z.ltb_spec (2 * (n mod d)) d); [nia|].
  destruct (Z.ltb_spec d (2 * (n mod d))); [nia|].
  destruct (Z.even (n / d)); nia.
Qed.

(** Up to 2^53 in magnitude every integer is a double. *)
Lemma double_exact (z : Z) : Z.abs z <= 2 ^ 53 -> double z = z.
Proof.
  intros H. unfold double.
  destruct (Z.leb_spec (Z.abs z) (2 ^ 53)); [reflexivity | lia].
Qed.

(** Above 2^53 the double of an integer is at least 2^53. *)
Lemma double_large (x : Z) : 2 ^ 53 < x -> 2 ^ 53 <= double x.
Proof.
  intros Hx. unfold double.
  destruct (Z.leb_spec (Z.abs x) (2 ^ 53)) as [|_]; [lia|].
  rewrite Z.abs_eq, Z.sgn_pos by lia.
  set (e := Z.log2 x - 52).
  assert (Hlog : 53 <= Z.log2 x) by (apply Z.log2_le_pow2; lia).
  destruct (Z.log2_spec x ltac:(lia)) as [Hlo _].
  assert (He : 1 <= e) by (unfold e; lia).
  assert (Hpow : 0 < 2 ^ e) by (apply Z.pow_pos_nonneg; lia).
  assert (Hsplit : 2 ^ Z.log2 x = 2 ^ 52 * 2 ^ e).
  { rewrite <- Z.pow_add_r by lia. f_equal. unfold e. lia. }
  assert (Hq : 2 ^ 52 <= x / 2 ^ e).
  { apply Z.div_le_lower_bound; [exact Hpow|]. lia. }
  pose proof (nearestEven_lower x (2 ^ e) Hpow) as Hm.
  assert (H2 : 2 <= 2 ^ e).
  { change 2 with (2 ^ 1) at 1. apply Z.pow_le_mono_r; lia. }
  change (2 ^ 53) with (2 ^ 52 * 2). nia.
Qed.

Lemma double_nonneg (x : Z) : 0 <= x -> 0 <= double x.
Proof.
  intros Hx. destruct (Z_le_gt_dec x (2 ^ 53)) as [H|H].
  - rewrite double_exact by lia. exact Hx.
  - pose proof (double_large x ltac:(lia)). lia.
Qed.

(** A double below 2^53 is the double of itself only. *)
Lemma double_below (x : Z) : 0 <= x -> double x < 2 ^ 53 -> double x = x.
Proof.
  intros Hx Hd. destruct (Z_le_gt_dec x (2 ^ 53)) as [H|H].
  - apply double_exact. lia.
  - pose proof (double_large x ltac:(lia)). lia.
Qed.

Lemma add_exact (a b : Z) : Z.abs (a + b) <= 2 ^ 53 -> add a b = a + b.
Proof. apply double_exact. Qed.

Lemma sub_exact (a b : Z) : Z.abs (a - b) <= 2 ^ 53 -> sub a b = a - b.
Proof. apply double_exact. Qed.

Lemma mul_exact (a b : Z) : Z.abs (a * b) <= 2 ^ 53 -> mul a b = a * b.
Proof. apply double_exact. Qed.

(** Up to 2^53 the rounding of the quotient by 26 does not reach the
    next integer: [Math.floor(a / 26)] is the integer quotient. *)
Lemma floorDiv_26 (a : Z) : 0 <= a <= 2 ^ 53 -> floorDiv a 26 = a / 26.
Proof.
  intros Ha. unfold floorDiv.
  destruct (Z.ltb_spec a 26) as [|Hab]; [symmetry; apply Z.div_small; lia|].
  set (q := a / 26).
  assert (Hq : 1 <= q) by (unfold q; apply Z.div_le_lower_bound; lia).
  assert (Hq49 : q < 2 ^ 49).
  { unfold q. apply Z.div_lt_upper_bound; [lia|].
    change (26 * 2 ^ 49) with 14636698788954112.
    change (2 ^ 53) with 9007199254740992 in Ha. lia. }
  assert (Hk : Z.log2 q < 49) by (apply Z.log2_lt_pow2; lia).
  pose proof (Z.log2_nonneg q) as Hk0.
  set (e := Z.log2 q - 52).
  destruct (Z.leb_spec 0 e) as [He|He]; [unfold e in He; lia|].
  set (P := 2 ^ (- e)).
  assert (HP : 16 <= P).
  { unfold P. change 16 with (2 ^ 4). apply Z.pow_le_mono_r; unfold e; lia. }
  pose proof (nearestEven_lower (a * P) 26 ltac:(lia)) as H1.
  pose proof (nearestEven_upper (a * P) 26 ltac:(lia)) as H2.
  set (m := nearestEven (a * P) 26) in *.
  pose proof (Z.div_mod a 26 ltac:(lia)) as Hdm. fold q in Hdm.
  pose proof (Z.mod_pos_bound a 26 ltac:(lia)) as Hr.
  assert (Hlow : q * P <= a * P / 26).
  { apply Z.div_le_lower_bound; [lia|]. nia. }
  symmetry. apply Z.div_unique with (r := m - q * P); nia.
Qed.

(** Up to 2^53 a number is printed with its decimal digits. *)
Lemma toString_decimal (n : Z) :
  0 <= n <= 2 ^ 53 -> toString n = decimal n.
Proof.
  intros Hn. unfold toString, toStringPos.
  destruct (Z.ltb_spec n 0); [lia|].
  destruct (Z.leb_spec n (2 ^ 53)); [reflexivity | lia].
Qed.

End Doubles.

(** ** Column letters and column indices *)

Section ColumnLetters.
Import JsString.

Lemma lettersValue_app (s t : string) (index : Z) :
  lettersValue (s ++ t)%string index =
  lettersValue t (lettersValue s index).
Proof.
  revert index. induction s as [|c s IH]; intros index; simpl;
    [reflexivity | apply IH].
Qed.

Lemma lettersValue_nonneg (s : string) (index : Z) :
  forallb isUpper s = true -> 0 <= index ->
  0 <= lettersValue s index.
Proof.
  revert index. induction s as [|c s IH]; intros index; simpl; [easy|].
  rewrite andb_true_iff. intros [Hc Hs] Hi.
  apply isUpper_spec in Hc. apply IH; [exact Hs | lia].
Qed.

Lemma lettersValue_ge (s : string) (index : Z) :
  forallb isUpper s = true -> 0 <= index ->
  index <= lettersValue s index.
Proof.
  revert index. induction s as [|c s IH]; intros index; simpl; [lia|].
  rewrite andb_true_iff. intros [Hc Hs] Hi.
  apply isUpper_spec in Hc.
  specialize (IH (index * 26 + (charCode c - 64)) Hs). lia.
Qed.

(** A text of at most eleven letters spells a number below 2^53. *)
Lemma lettersValue_length (s : string) (index : Z) :
  forallb isUpper s = true -> 0 <= index ->
  lettersValue s index + 2 <= (index + 2) * 26 ^ length s.
Proof.
  revert index. induction s as [|c s IH]; intros index.
  - intros _ Hi. cbn. lia.
  - cbn [forallb lettersValue]. rewrite andb_true_iff. intros [Hc Hs] Hi.
    apply isUpper_spec in Hc.
    specialize (IH (index * 26 + (charCode c - 64)) Hs ltac:(lia)).
    unfold length in *. cbn [String.length].
    rewrite Nat2Z.inj_succ, Z.pow_succ_r by lia.
    assert (0 < 26 ^ Z.of_nat (String.length s))
      by (apply Z.pow_pos_nonneg; lia).
    nia.
Qed.

(** The letter the loop writes for the remainder [m % 26]. *)
Lemma charCode_letter (m : Z) :
  0 <= m ->
  charCode (fromCharCode (65 + Z.rem m 26)) = 65 + m mod 26 /\
  0 <= m mod 26 < 26.
Proof.
  intros Hm. rewrite Z.rem_mod_nonneg by lia.
  pose proof (Z.mod_pos_bound m 26 ltac:(lia)) as Hr.
  split; [apply charCode_fromCharCode; lia | exact Hr].
Qed.

(** The code units of the upper case of a text of letters are those
    of its ASCII upper case. *)
Lemma toUpperCaseUnits_letters (s : string) :
  forallb isLetter s = true ->
  toUpperCaseUnits s = codeUnits (toUpperCase s).
Proof.
  induction s as [|c s IH]; [reflexivity|].
  cbn [forallb toUpperCaseUnits toUpperCase codeUnits].
  rewrite andb_true_iff. intros [Hc Hs]. rewrite (IH Hs).
  unfold upperUnits, toUpperChar. destruct (isLower c) eqn:Hl.
  - apply isLower_spec in Hl. pose proof (charCode_range c).
    now rewrite charCode_fromCharCode by lia.
  - apply isLetter_spec in Hc. destruct Hc as [Hc|Hc];
      [|apply isLower_spec in Hc; congruence].
    repeat match goal with
           | |- context [?a =? ?b] =>
               destruct (Z.eqb_spec a b); [lia|]
           end.
    destruct (Z.leb_spec 224 (charCode c)); [lia|]. reflexivity.
Qed.

Lemma toUpperCaseUnits_upper (s : string) :
  forallb isUpper s = true -> toUpperCaseUnits s = codeUnits s.
Proof.
  intros H. rewrite toUpperCaseUnits_letters.
  - now rewrite toUpperCase_upper.
  - revert H. apply forallb_weaken. intros c Hc. unfold isLetter.
    now rewrite Hc.
Qed.

(** While the number spelled stays within 2^53 the loop of
    [colLettersToIndex] computes it without rounding. *)
Lemma colLettersToIndex_loop_exact (upper : string) (index : Z) :
  forallb isUpper upper = true -> 0 <= index ->
  lettersValue upper index <= 2 ^ 53 ->
  colLettersToIndex_loop (codeUnits upper) index = lettersValue upper index.
Proof.
  revert index. induction upper as [|c upper IH]; intros index;
    [reflexivity|].
  cbn [forallb codeUnits colLettersToIndex_loop lettersValue].
  rewrite andb_true_iff. intros [Hc Hs] Hi Hbound.
  apply isUpper_spec in Hc.
  pose proof (lettersValue_ge upper (index * 26 + (charCode c - 64)) Hs
                ltac:(lia)) as Hge.
  rewrite mul_exact, sub_exact, add_exact by lia.
  apply IH; [exact Hs | lia | exact Hbound].
Qed.

(** Within 2^53 [colLettersToIndex] is the column number less one. *)
Lemma colLettersToIndex_exact (L : string) :
  forallb isLetter L = true -> columnNumber L <= 2 ^ 53 ->
  colLettersToIndex L = columnNumber L - 1.
Proof.
  intros HL Hbound. unfold colLettersToIndex, columnNumber in *.
  rewrite toUpperCaseUnits_letters by exact HL.
  pose proof (toUpperCase_letters L HL) as Hup.
  rewrite colLettersToIndex_loop_exact by (try assumption; lia).
  pose proof (lettersValue_nonneg (toUpperCase L) 0 Hup ltac:(lia)).
  apply sub_exact. lia.
Qed.

(** One turn of the [while] loop, and its exit. *)
Lemma rowColToA1_loop_step (colNum : Z) (colStr : string) :
  0 < colNum <= 2 ^ 53 ->
  rowColToA1_loop colNum colStr =
  rowColToA1_loop ((colNum - 1) / 26)
    (String (fromCharCode (65 + Z.rem (colNum - 1) 26)) colStr).
Proof.
  intros H. rewrite rowColToA1_loop_equation_1.
  destruct (Z_lt_dec 0 colNum) as [Hl|Hl]; [|lia].
  cbn [rowColToA1_loop_unfold_clause_1].
  rewrite sub_exact by lia.
  now rewrite floorDiv_26 by lia.
Qed.

Lemma rowColToA1_loop_exit (colNum : Z) (colStr : string) :
  colNum <= 0 -> rowColToA1_loop colNum colStr = colStr.
Proof.
  intros H. rewrite rowColToA1_loop_equation_1.
  destruct (Z_lt_dec 0 colNum); [lia | reflexivity].
Qed.

Lemma quotient_below (n : Z) : 0 < n -> 0 <= (n - 1) / 26 < n.
Proof.
  intros Hn. split; [apply Z.div_pos; lia|].
  apply Z.le_lt_trans with (n - 1); [|lia].
  apply Z.div_le_upper_bound; lia.
Qed.

(** The loop only prepends to what it was given. *)
Lemma rowColToA1_loop_acc (colNum : Z) :
  0 <= colNum <= 2 ^ 53 ->
  forall colStr,
    rowColToA1_loop colNum colStr =
    (rowColToA1_loop colNum EmptyString ++ colStr)%string.
Proof.
  intros [Hpos Hbound]. revert Hbound. pattern colNum.
  apply Z_lt_induction; [|exact Hpos].
  clear colNum Hpos. intros n IH Hbound colStr.
  destruct (Z_lt_dec 0 n) as [Hn | Hn].
  - rewrite !(rowColToA1_loop_step n) by lia.
    pose proof (quotient_below n Hn) as Hq.
    rewrite (IH _ Hq ltac:(lia) (String _ colStr)),
      (IH _ Hq ltac:(lia) (String _ EmptyString)).
    now rewrite append_assoc.
  - now rewrite !rowColToA1_loop_exit by lia.
Qed.

Lemma rowColToA1_loop_upper (colNum : Z) :
  0 <= colNum <= 2 ^ 53 ->
  forallb isUpper (rowColToA1_loop colNum EmptyString) = true.
Proof.
  intros [Hpos Hbound]. revert Hbound. pattern colNum.
  apply Z_lt_induction; [|exact Hpos].
  clear colNum Hpos. intros n IH Hbound.
  destruct (Z_lt_dec 0 n) as [Hn | Hn].
  - rewrite rowColToA1_loop_step by lia.
    pose proof (quotient_below n Hn) as Hq.
    rewrite rowColToA1_loop_acc by lia.
    rewrite forallb_app, (IH _ Hq ltac:(lia)). cbn [forallb andb].
    rewrite andb_true_r. apply isUpper_spec.
    destruct (charCode_letter (n - 1)) as [-> Hr]; lia.
  - now rewrite rowColToA1_loop_exit by lia.
Qed.

(** What the loop wrote for [colNum] spells [colNum]. *)
Lemma lettersValue_rowColToA1_loop (colNum : Z) :
  0 <= colNum <= 2 ^ 53 ->
  lettersValue (rowColToA1_loop colNum EmptyString) 0 = colNum.
Proof.
  intros [Hpos Hbound]. revert Hbound. pattern colNum.
  apply Zlt_0_ind; [|exact Hpos].
  clear colNum Hpos. intros n IH Hpos Hbound.
  destruct (Z_lt_dec 0 n) as [Hn | Hn].
  - rewrite rowColToA1_loop_step by lia.
    pose proof (quotient_below n Hn) as Hq.
    rewrite rowColToA1_loop_acc by lia.
    rewrite lettersValue_app, (IH _ Hq ltac:(lia)).
    cbn [lettersValue].
    destruct (charCode_letter (n - 1)) as [-> Hr]; [lia|].
    pose proof (Z.div_mod (n - 1) 26 ltac:(lia)). lia.
  - rewrite rowColToA1_loop_exit by lia.
    cbn [lettersValue]. lia.
Qed.

(** Writing the letters of the number an upper-case text spells, when
    it is within 2^53, gives the text back. *)
Lemma rowColToA1_loop_lettersValue (upper : string) :
  forallb isUpper upper = true ->
  lettersValue upper 0 <= 2 ^ 53 ->
  rowColToA1_loop (lettersValue upper 0) EmptyString = upper.
Proof.
  induction upper as [|upper c IH] using string_snoc_ind; intros Hup Hbound.
  - cbn [lettersValue]. now rewrite rowColToA1_loop_exit by lia.
  - rewrite forallb_app in Hup. cbn [forallb] in Hup.
    rewrite andb_true_r in Hup. apply andb_true_iff in Hup as [Hu Hc].
    apply isUpper_spec in Hc.
    rewrite lettersValue_app in Hbound |- *.
    cbn [lettersValue] in Hbound |- *.
    pose proof (lettersValue_nonneg upper 0 Hu ltac:(lia)) as Hv.
    set (v := lettersValue upper 0) in *.
    assert (Hdiv : (v * 26 + (charCode c - 64) - 1) / 26 = v).
    { symmetry. apply (Z.div_unique _ 26 v (charCode c - 65)); lia. }
    assert (Hmod : (v * 26 + (charCode c - 64) - 1) mod 26 = charCode c - 65).
    { symmetry. apply (Z.mod_unique _ 26 v (charCode c - 65)); lia. }
    rewrite rowColToA1_loop_step by lia.
    rewrite Hdiv, Z.rem_mod_nonneg, Hmod by lia.
    rewrite rowColToA1_loop_acc by lia.
    rewrite (IH Hu ltac:(lia)).
    replace (65 + (charCode c - 65)) with (charCode c) by lia.
    now rewrite fromCharCode_charCode.
Qed.

End ColumnLetters.

Section ColumnLettersRoundTrip.
Import JsString.

(** A valid column-letter text has a column number of at least 1. *)
Lemma columnNumber_pos (L : string) :
  isColumnLetters L = true -> 1 <= columnNumber L.
Proof.
  unfold isColumnLetters, columnNumber.
  destruct L as [|c L]; simpl; [discriminate|].
  rewrite andb_true_iff. intros [Hc HL].
  apply toUpperChar_letter, isUpper_spec in Hc.
  pose proof (lettersValue_ge (toUpperCase L)
                (charCode (toUpperChar c) - 64)
                (toUpperCase_letters L HL)).
  lia.
Qed.

(** A valid column-letter text of at most eleven letters has a column
    number below 2^53. *)
Lemma columnNumber_eleven (L : string) :
  forallb isLetter L = true -> length L <= 11 -> columnNumber L < 2 ^ 53.
Proof.
  intros HL Hlen. unfold columnNumber.
  pose proof (lettersValue_length (toUpperCase L) 0
                (toUpperCase_letters L HL) ltac:(lia)) as H.
  assert (Hsame : length (toUpperCase L) = length L).
  { unfold length. f_equal. clear. induction L as [|c L IH]; simpl; congruence. }
  rewrite Hsame in H.
  assert (Hpow : 26 ^ length L <= 26 ^ 11).
  { apply Z.pow_le_mono_r; [lia|exact Hlen]. }
  change (26 ^ 11) with 3670344486987776 in Hpow.
  change (2 ^ 53) with 9007199254740992. lia.
Qed.

(** A valid column-letter text decodes to a column [rowColToA1]
    accepts. *)
Lemma colLettersToIndex_nonneg (L : string) :
  isColumnLetters L = true -> columnNumber L <= 2 ^ 53 ->
  0 <= colLettersToIndex L.
Proof.
  intros HL Hbound. pose proof (columnNumber_pos L HL).
  unfold isColumnLetters in HL. apply andb_true_iff in HL as [_ HL].
  rewrite colLettersToIndex_exact by assumption. lia.
Qed.

(** [rowColToA1] writes the column letters and then the row number. *)
Lemma rowColToA1_letters (row col : Z) :
  0 <= row -> 0 <= col ->
  rowColToA1 row col =
  inr (indexToColumnLetters col ++
       JsNumber.toString (JsNumber.add row 1))%string.
Proof.
  intros Hr Hc. unfold rowColToA1.
  destruct (row <? 0) eqn:E1; [apply Z.ltb_lt in E1; lia|].
  destruct (col <? 0) eqn:E2; [apply Z.ltb_lt in E2; lia|].
  reflexivity.
Qed.

(** The letters of a column within 2^53, and what they decode to. *)
Lemma indexToColumnLetters_upper (n : Z) :
  0 <= n < 2 ^ 53 -> forallb isUpper (indexToColumnLetters n) = true.
Proof.
  intros Hn. unfold indexToColumnLetters.
  rewrite add_exact by lia. apply rowColToA1_loop_upper. lia.
Qed.

Lemma colLettersToIndex_indexToColumnLetters (n : Z) :
  0 <= n < 2 ^ 53 -> colLettersToIndex (indexToColumnLetters n) = n.
Proof.
  intros Hn. unfold colLettersToIndex.
  rewrite toUpperCaseUnits_upper by now apply indexToColumnLetters_upper.
  pose proof (indexToColumnLetters_upper n Hn) as Hup.
  unfold indexToColumnLetters in *.
  rewrite add_exact in * by lia.
  pose proof (lettersValue_rowColToA1_loop (n + 1) ltac:(lia)) as Hv.
  rewrite colLettersToIndex_loop_exact by (try assumption; lia).
  rewrite Hv. rewrite sub_exact by lia. lia.
Qed.

(** The claim of C7 fails on the code: the twelve letters Z form a
    valid column-letter text, whose column number is above 2^53; the
    loop of [colLettersToIndex] rounds, and the letters written for
    the index it returns are not the text. *)
Lemma columnLetters_rounding_counterexample :
  isColumnLetters "ZZZZZZZZZZZZ" = true /\
  columnNumber "ZZZZZZZZZZZZ" - 1 = 99246114928149461 /\
  colLettersToIndex "ZZZZZZZZZZZZ" = 99246114928149472 /\
  indexToColumnLetters (colLettersToIndex "ZZZZZZZZZZZZ") = "AAAAAAAAAAAAK" /\
  indexToColumnLetters (colLettersToIndex "ZZZZZZZZZZZZ") <>
    toUpperCase "ZZZZZZZZZZZZ".
Proof.
  assert (H : indexToColumnLetters (colLettersToIndex "ZZZZZZZZZZZZ") =
              "AAAAAAAAAAAAK") by reflexivity.
  split; [reflexivity|]. split; [reflexivity|]. split; [reflexivity|].
  split; [exact H|]. rewrite H. discriminate.
Qed.

(** C7, amended.  Within the range where the numbers of the source are
    exact, the two column conversions are mutually inverse: decoding
    the letters written for a column index from 0 to below 2^53 gives
    the index back, and writing the letters of what a valid
    column-letter text decodes to gives the text back in upper case
    when its column number is at most 2^53, as it is for every text of
    at most eleven letters. *)
Theorem columnLetters_roundtrip :
  (forall n : Z,
      0 <= n < 2 ^ 53 -> colLettersToIndex (indexToColumnLetters n) = n) /\
  (forall L : string,
      isColumnLetters L = true ->
      columnNumber L <= 2 ^ 53 ->
      indexToColumnLetters (colLettersToIndex L) = toUpperCase L) /\
  (forall L : string,
      isColumnLetters L = true ->
      length L <= 11 ->
      columnNumber L <= 2 ^ 53).
Proof.
  repeat apply conj.
  - exact colLettersToIndex_indexToColumnLetters.
  - intros L HL Hbound. pose proof (columnNumber_pos L HL) as Hpos.
    unfold isColumnLetters in HL. apply andb_true_iff in HL as [_ HL].
    rewrite colLettersToIndex_exact by assumption.
    unfold indexToColumnLetters.
    rewrite add_exact by lia.
    replace (columnNumber L - 1 + 1) with (columnNumber L) by lia.
    unfold columnNumber in *.
    apply rowColToA1_loop_lettersValue; [|exact Hbound].
    now apply toUpperCase_letters.
  - intros L HL Hlen.
    unfold isColumnLetters in HL. apply andb_true_iff in HL as [_ HL].
    pose proof (columnNumber_eleven L HL Hlen). lia.
Qed.

Lemma columnLetters_roundtrip_witness :
  colLettersToIndex (indexToColumnLetters 702) = 702 /\
  indexToColumnLetters (colLettersToIndex "aZb") = "AZB".
Proof.
  destruct columnLetters_roundtrip as (Hn & HL & Hlen).
  split.
  - apply Hn. lia.
  - apply (HL "aZb"); [reflexivity|].
    apply (Hlen "aZb"); [reflexivity | cbn; lia].
Defined.

End ColumnLettersRoundTrip.

(** ** The default sheet of [normalizeRange] *)

(** C10.  Without a sheet name, a range that holds no exclamation mark
    comes back behind the fixed prefix Sheet1! and is otherwise
    unchanged; a range that holds one comes back as it is, whatever the
    sheet name. *)
Theorem normalizeRange_default (range : string) :
  (JsString.includesChar "!" range = false ->
   normalizeRange range None = ("Sheet1!" ++ range)%string) /\
  (JsString.includesChar "!" range = true ->
   forall sheetName, normalizeRange range sheetName = range).
Proof.
  unfold normalizeRange. split; intros H.
  - now rewrite H.
  - intros sheetName. now rewrite H.
Qed.

Lemma normalizeRange_default_witness :
  normalizeRange "A1:B2" None = "Sheet1!A1:B2" /\
  normalizeRange "Data!A1" (Some "Other") = "Data!A1".
Proof.
  split.
  - apply (proj1 (normalizeRange_default "A1:B2")). reflexivity.
  - apply (proj2 (normalizeRange_default "Data!A1")). reflexivity.
Defined.

(** ** What the patterns of the range parsers capture *)

Section Patterns.
Import JsString.

Lemma span_spec (p : ascii -> bool) (s run rest : string) :
  span p s = (run, rest) ->
  s = (run ++ rest)%string /\ forallb p run = true.
Proof.
  revert run rest. induction s as [|c s IH]; intros run rest; simpl.
  - intros [= <- <-]. now split.
  - destruct (p c) eqn:Hc.
    + destruct (span p s) as [a b]. intros [= <- <-].
      destruct (IH a b eq_refl) as [-> Ha]. simpl. now rewrite Hc, Ha.
    + intros [= <- <-]. now split.
Qed.

Lemma plus_spec (p : ascii -> bool) (s run rest : string) :
  Regex.plus p s = Some (run, rest) ->
  s = (run ++ rest)%string /\ forallb p run = true /\ truthy run = true.
Proof.
  unfold Regex.plus. destruct (span p s) as [a b] eqn:E.
  destruct (truthy a) eqn:Ht; [|discriminate].
  intros [= <- <-]. destruct (span_spec _ _ _ _ E). now repeat split.
Qed.

Lemma rowOnly_spec (s g1 : string) (g2 : option string) :
  Regex.rowOnly s = Some (g1, g2) ->
  s = joined g1 g2 /\ captured isDigit g1 /\ capturedOpt isDigit g2.
Proof.
  unfold Regex.rowOnly.
  destruct (Regex.plus isDigit s) as [[a [|c rest]]|] eqn:E1; try discriminate.
  - intros [= <- <-]. apply plus_spec in E1 as (-> & H1 & H2).
    rewrite append_empty_r. now repeat split.
  - destruct (Ascii.eqb_spec c ":") as [->|Hc].
    + destruct (Regex.plus isDigit rest) as [[b [|d r]]|] eqn:E2;
        try discriminate.
      intros [= <- <-].
      apply plus_spec in E1 as (-> & H1 & H2).
      apply plus_spec in E2 as (-> & H3 & H4).
      rewrite append_empty_r. now repeat split.
    + destruct c as [[] [] [] [] [] [] [] []]; try discriminate;
        now contradiction Hc.
Qed.

Lemma colOnly_spec (s g1 : string) (g2 : option string) :
  Regex.colOnly s = Some (g1, g2) ->
  s = joined g1 g2 /\ captured isLetter g1 /\ capturedOpt isLetter g2.
Proof.
  unfold Regex.colOnly.
  destruct (Regex.plus isLetter s) as [[a [|c rest]]|] eqn:E1; try discriminate.
  - intros [= <- <-]. apply plus_spec in E1 as (-> & H1 & H2).
    rewrite append_empty_r. now repeat split.
  - destruct (Ascii.eqb_spec c ":") as [->|Hc].
    + destruct (Regex.plus isLetter rest) as [[b [|d r]]|] eqn:E2;
        try discriminate.
      intros [= <- <-].
      apply plus_spec in E1 as (-> & H1 & H2).
      apply plus_spec in E2 as (-> & H3 & H4).
      rewrite append_empty_r. now repeat split.
    + destruct c as [[] [] [] [] [] [] [] []]; try discriminate;
        now contradiction Hc.
Qed.

Lemma standard_spec (s g1 g2 : string) (g3 g4 : option string) :
  Regex.standard s = Some (g1, g2, g3, g4) ->
  captured isLetter g1 /\ captured isDigit g2 /\
  capturedOpt isLetter g3 /\ capturedOpt isDigit g4 /\
  match g3, g4 with
  | Some c, Some r => s = (g1 ++ g2 ++ String ":" (c ++ r))%string
  | None, None => s = (g1 ++ g2)%string
  | _, _ => False
  end.
Proof.
  unfold Regex.standard.
  destruct (Regex.plus isLetter s) as [[a rest1]|] eqn:E1; [|discriminate].
  destruct (Regex.plus isDigit rest1) as [[b [|c rest2]]|] eqn:E2;
    try discriminate.
  - intros [= <- <- <- <-].
    apply plus_spec in E1 as (-> & H1 & H2).
    apply plus_spec in E2 as (-> & H3 & H4).
    rewrite append_empty_r. now repeat split.
  - destruct (Ascii.eqb_spec c ":") as [->|Hc].
    + destruct (Regex.plus isLetter rest2) as [[d rest3]|] eqn:E3;
        [|discriminate].
      destruct (Regex.plus isDigit rest3) as [[e [|x r]]|] eqn:E4;
        try discriminate.
      intros [= <- <- <- <-].
      apply plus_spec in E1 as (-> & H1 & H2).
      apply plus_spec in E2 as (-> & H3 & H4).
      apply plus_spec in E3 as (-> & H5 & H6).
      apply plus_spec in E4 as (-> & H7 & H8).
      rewrite append_empty_r. now repeat split.
    + destruct c as [[] [] [] [] [] [] [] []]; try discriminate;
        now contradiction Hc.
Qed.

Lemma span_all (p : ascii -> bool) (s : string) :
  forallb p s = true -> span p s = (s, EmptyString).
Proof.
  induction s as [|c s IH]; simpl; [reflexivity|].
  rewrite andb_true_iff. intros [Hc Hs]. now rewrite Hc, (IH Hs).
Qed.

Lemma isDigit_radix10 (c : ascii) :
  isDigit c = true -> JsNumber.isRadixDigit 10 c = true.
Proof.
  intros H. unfold JsNumber.isRadixDigit, JsNumber.digitValue. rewrite H.
  apply isDigit_spec in H. apply Z.ltb_lt. lia.
Qed.

Lemma digitsValue_nonneg (digits : string) (acc : Z) :
  forallb isDigit digits = true -> 0 <= acc ->
  0 <= JsNumber.digitsValue 10 digits acc.
Proof.
  revert acc. induction digits as [|c rest IH]; intros acc; simpl; [easy|].
  rewrite andb_true_iff. intros [Hc Hrest] Hacc. apply IH; [exact Hrest|].
  unfold JsNumber.digitValue. rewrite Hc. apply isDigit_spec in Hc. lia.
Qed.

(** On a capture group of digits [parseInt] reads the whole group:
    there is no white space, sign or prefix to skip, and the result
    is a number, not NaN, and not negative: the double of the row
    number the digits spell. *)
Lemma parseInt_digits (g : string) :
  captured isDigit g ->
  JsNumber.parseInt g 10 = Some (JsNumber.double (rowNumber g)) /\
  0 <= rowNumber g /\ 0 <= parseRow g.
Proof.
  intros [Hd Ht]. unfold rowNumber.
  assert (H : JsNumber.parseInt g 10 =
              Some (JsNumber.double (JsNumber.digitsValue 10 g 0))).
  { destruct g as [|c rest]; [discriminate Ht|].
    pose proof Hd as Hspan.
    apply (forallb_weaken _ _ _ isDigit_radix10), span_all in Hspan.
    simpl in Hd. apply andb_true_iff in Hd as [Hc _].
    unfold JsNumber.parseInt.
    destruct c as [[] [] [] [] [] [] [] []]; try discriminate Hc;
      cbn [JsNumber.trimStart JsNumber.isWhiteSpace];
      cbn -[span JsNumber.digitsValue JsNumber.double];
      rewrite Hspan; cbn -[JsNumber.digitsValue JsNumber.double];
      now destruct (JsNumber.digitsValue 10 _ 0). }
  assert (Hv : 0 <= JsNumber.digitsValue 10 g 0)
    by (now apply digitsValue_nonneg).
  split; [exact H|]. split; [exact Hv|].
  unfold parseRow. rewrite H. now apply double_nonneg.
Qed.

(** Up to 2^53 the number read is the row number itself. *)
Lemma parseRow_exact (g : string) :
  captured isDigit g -> rowNumber g <= 2 ^ 53 -> parseRow g = rowNumber g.
Proof.
  intros Hg Hbound. destruct (parseInt_digits g Hg) as (H & Hv & _).
  unfold parseRow. rewrite H. apply double_exact. lia.
Qed.

Lemma parseRow_double (g : string) :
  captured isDigit g -> parseRow g = JsNumber.double (rowNumber g).
Proof.
  intros Hg. destruct (parseInt_digits g Hg) as (H & _).
  unfold parseRow. now rewrite H.
Qed.

Lemma span_app_stop (p : ascii -> bool) (a b : string) :
  forallb p a = true ->
  match b with EmptyString => True | String c _ => p c = false end ->
  span p (a ++ b)%string = (a, b).
Proof.
  intros Ha Hb. induction a as [|c a IH]; simpl.
  - destruct b as [|d b]; [reflexivity|]. simpl. now rewrite Hb.
  - simpl in Ha. apply andb_true_iff in Ha as [Hc Ha].
    now rewrite Hc, (IH Ha).
Qed.

Lemma digit_not_letter (c : ascii) : isDigit c = true -> isLetter c = false.
Proof.
  intros H. apply isDigit_spec in H.
  destruct (isLetter c) eqn:E; [|reflexivity].
  apply isLetter_spec in E. lia.
Qed.

Lemma letter_not_digit (c : ascii) : isLetter c = true -> isDigit c = false.
Proof.
  intros H. apply isLetter_spec in H.
  destruct (isDigit c) eqn:E; [|reflexivity].
  apply isDigit_spec in E. lia.
Qed.

Lemma plus_all (p : ascii -> bool) (s : string) :
  captured p s -> Regex.plus p s = Some (s, EmptyString).
Proof.
  intros [Hp Ht]. unfold Regex.plus. now rewrite (span_all p s Hp), Ht.
Qed.

(** A run of letters followed by a run of digits. *)
Lemma plus_letters_digits (a b : string) :
  captured isLetter a -> captured isDigit b ->
  Regex.plus isLetter (a ++ b)%string = Some (a, b).
Proof.
  intros [Ha Hta] [Hb Htb]. unfold Regex.plus.
  rewrite span_app_stop, Hta; [reflexivity | exact Ha |].
  destruct b as [|c b]; [exact I|].
  simpl in Hb. apply andb_true_iff in Hb as [Hc _].
  now apply digit_not_letter.
Qed.

Lemma plus_none (p : ascii -> bool) (c : ascii) (s : string) :
  p c = false -> Regex.plus p (String c s) = None.
Proof. intros H. unfold Regex.plus. simpl. now rewrite H. Qed.

Lemma captured_head (p : ascii -> bool) (g : string) :
  captured p g -> exists c rest, g = String c rest /\ p c = true.
Proof.
  intros [Hp Ht]. destruct g as [|c rest]; [discriminate Ht|].
  simpl in Hp. apply andb_true_iff in Hp as [Hc _]. now exists c, rest.
Qed.

(** The patterns match what has their shape, with the groups the
    shape shows. *)
Lemma plus_stop (p : ascii -> bool) (a b : string) :
  captured p a ->
  match b with EmptyString => True | String c _ => p c = false end ->
  Regex.plus p (a ++ b)%string = Some (a, b).
Proof.
  intros [Ha Ht] Hb. unfold Regex.plus.
  now rewrite (span_app_stop p a b Ha Hb), Ht.
Qed.

Lemma hasDigit_letters (s : string) :
  forallb isLetter s = true -> Regex.hasDigit s = false.
Proof.
  induction s as [|c s IH]; [reflexivity|]. cbn [forallb Regex.hasDigit].
  rewrite andb_true_iff. intros [Hc Hs].
  now rewrite (letter_not_digit c Hc), (IH Hs).
Qed.

Lemma hasDigit_app (s t : string) :
  Regex.hasDigit (s ++ t)%string = Regex.hasDigit s || Regex.hasDigit t.
Proof.
  induction s as [|c s IH]; [reflexivity|]. cbn [append Regex.hasDigit].
  now rewrite IH, orb_assoc.
Qed.

Lemma rowOnly_joined (r1 : string) (r2 : option string) :
  captured isDigit r1 -> capturedOpt isDigit r2 ->
  Regex.rowOnly (joined r1 r2) = Some (r1, r2).
Proof.
  intros H1 H2. unfold Regex.rowOnly, joined. destruct r2 as [r|].
  - rewrite (plus_stop isDigit r1 (String ":" r) H1 eq_refl).
    now rewrite (plus_all isDigit r H2).
  - now rewrite (plus_all isDigit r1 H1).
Qed.

Lemma letters_not_rows (c1 rest : string) :
  captured isLetter c1 -> Regex.rowOnly (c1 ++ rest)%string = None.
Proof.
  intros H1. destruct (captured_head isLetter c1 H1) as (c & tail & -> & Hc).
  unfold Regex.rowOnly. cbn [append].
  now rewrite plus_none by (now apply letter_not_digit).
Qed.

Lemma colOnly_joined (c1 : string) (c2 : option string) :
  captured isLetter c1 -> capturedOpt isLetter c2 ->
  Regex.rowOnly (joined c1 c2) = None /\
  Regex.colOnly (joined c1 c2) = Some (c1, c2) /\
  Regex.hasDigit (joined c1 c2) = false.
Proof.
  intros H1 H2. split; [|split].
  - destruct c2 as [c|]; cbn [joined].
    + now apply letters_not_rows.
    + rewrite <- (append_empty_r c1). now apply letters_not_rows.
  - unfold Regex.colOnly, joined. destruct c2 as [c|].
    + rewrite (plus_stop isLetter c1 (String ":" c) H1 eq_refl).
      now rewrite (plus_all isLetter c H2).
    + now rewrite (plus_all isLetter c1 H1).
  - destruct H1 as [H1 _]. destruct c2 as [c|]; cbn [joined].
    + destruct H2 as [H2 _]. rewrite hasDigit_app. cbn [Regex.hasDigit].
      now rewrite (hasDigit_letters c1 H1), (hasDigit_letters c H2).
    + now apply hasDigit_letters.
Qed.

Lemma standard_corners (c1 r1 : string) (second : option (string * string)) :
  captured isLetter c1 -> captured isDigit r1 ->
  match second with
  | Some (c2, r2) => captured isLetter c2 /\ captured isDigit r2
  | None => True
  end ->
  let a1 := (c1 ++ r1 ++ secondCorner second)%string in
  Regex.rowOnly a1 = None /\
  Regex.colOnly a1 = None /\
  Regex.standard a1 =
    Some (c1, r1, option_map fst second, option_map snd second).
Proof.
  intros H1 H2 Hs a1. subst a1.
  destruct (captured_head isDigit r1 H2) as (d & tail & Er & Hd).
  assert (Hfirst : Regex.plus isLetter (c1 ++ r1 ++ secondCorner second)%string
                   = Some (c1, (r1 ++ secondCorner second)%string)).
  { apply plus_stop; [exact H1|]. rewrite Er. cbn [append].
    now apply digit_not_letter. }
  split; [now apply letters_not_rows|]. split.
  - unfold Regex.colOnly. rewrite Hfirst, Er. cbn [append].
    destruct d as [[] [] [] [] [] [] [] []]; try discriminate Hd; reflexivity.
  - unfold Regex.standard. rewrite Hfirst.
    destruct second as [[c2 r2]|]; cbn [secondCorner option_map fst snd].
    + destruct Hs as [H3 H4].
      rewrite (plus_stop isDigit r1 (String ":" (c2 ++ r2)) H2 eq_refl).
      destruct (captured_head isDigit r2 H4) as (d2 & tail2 & Er2 & Hd2).
      rewrite (plus_stop isLetter c2 r2 H3)
        by (rewrite Er2; now apply digit_not_letter).
      now rewrite (plus_all isDigit r2 H4).
    + rewrite append_empty_r. now rewrite (plus_all isDigit r1 H2).
Qed.

End Patterns.

(** ** Non-letter column text *)

Section ColumnTextGuard.
Import JsString.

Lemma letters_address (s : string) :
  forallb isLetter s = true -> forallb isAddressChar s = true.
Proof.
  apply forallb_weaken. intros c Hc. unfold isAddressChar. now rewrite Hc.
Qed.

Lemma digits_address (s : string) :
  forallb isDigit s = true -> forallb isAddressChar s = true.
Proof.
  apply forallb_weaken. intros c Hc. unfold isAddressChar.
  rewrite Hc. now rewrite orb_true_r.
Qed.

Lemma capturedOpt_joined (p : ascii -> bool) (g1 : string) (g2 : option string) :
  (forall s, forallb p s = true -> forallb isAddressChar s = true) ->
  captured p g1 -> capturedOpt p g2 ->
  forallb isAddressChar (joined g1 g2) = true.
Proof.
  intros Hp [H1 _] H2. destruct g2 as [g|]; simpl.
  - destruct H2 as [H2 _]. rewrite forallb_app. simpl.
    now rewrite (Hp _ H1), (Hp _ H2).
  - now apply Hp.
Qed.

Lemma rowOnly_address (s : string) :
  forallb isAddressChar s = false -> Regex.rowOnly s = None.
Proof.
  intros Hbad. destruct (Regex.rowOnly s) as [[g1 g2]|] eqn:E; [|reflexivity].
  apply rowOnly_spec in E as (-> & H1 & H2).
  rewrite (capturedOpt_joined isDigit) in Hbad;
    [discriminate | exact digits_address | exact H1 | exact H2].
Qed.

Lemma colOnly_address (s : string) :
  forallb isAddressChar s = false -> Regex.colOnly s = None.
Proof.
  intros Hbad. destruct (Regex.colOnly s) as [[g1 g2]|] eqn:E; [|reflexivity].
  apply colOnly_spec in E as (-> & H1 & H2).
  rewrite (capturedOpt_joined isLetter) in Hbad;
    [discriminate | exact letters_address | exact H1 | exact H2].
Qed.

Lemma standard_address (s : string) :
  forallb isAddressChar s = false -> Regex.standard s = None.
Proof.
  intros Hbad.
  destruct (Regex.standard s) as [[[[g1 g2] g3] g4]|] eqn:E; [|reflexivity].
  apply standard_spec in E as ([H1 _] & [H2 _] & H3 & H4 & Hs).
  apply letters_address in H1. apply digits_address in H2.
  destruct g3 as [c|], g4 as [r|]; try contradiction; subst s.
  - destruct H3 as [H3 _], H4 as [H4 _].
    apply letters_address in H3. apply digits_address in H4.
    rewrite !forallb_app in Hbad. simpl in Hbad.
    rewrite forallb_app, H1, H2, H3, H4 in Hbad. discriminate.
  - rewrite forallb_app, H1, H2 in Hbad. discriminate.
Qed.

(** The patterns of the range parsers capture a column part only when
    it consists of letters, and a range address holding any character
    that is neither a letter, a digit nor the colon makes
    [parseA1ToGridRange] and [parseA1Range] fail with an error of kind
    InvalidFormat. *)
Lemma range_text_guard (a1Range : string) :
  (forall g1 g2,
      Regex.colOnly a1Range = Some (g1, g2) ->
      isColumnLetters g1 = true /\
      forall g, g2 = Some g -> isColumnLetters g = true) /\
  (forall g1 g2 g3 g4,
      Regex.standard a1Range = Some (g1, g2, g3, g4) ->
      isColumnLetters g1 = true /\
      forall g, g3 = Some g -> isColumnLetters g = true) /\
  (forallb isAddressChar a1Range = false ->
   (forall sheetId,
       parseA1ToGridRange a1Range sheetId = inl (InvalidRangeFormat a1Range)) /\
   parseA1Range a1Range = inl (InvalidA1Range a1Range) /\
   errorKind (InvalidRangeFormat a1Range) = InvalidFormat /\
   errorKind (InvalidA1Range a1Range) = InvalidFormat).
Proof.
  unfold isColumnLetters. split; [|split].
  - intros g1 g2 E. apply colOnly_spec in E as (_ & [H1 H2] & H3).
    split; [now rewrite H1, H2|].
    intros g ->. destruct H3 as [H3 H4]. now rewrite H3, H4.
  - intros g1 g2 g3 g4 E.
    apply standard_spec in E as ([H1 H2] & _ & H3 & _).
    split; [now rewrite H1, H2|].
    intros g ->. destruct H3 as [H3 H4]. now rewrite H3, H4.
  - intros Hbad. repeat split.
    + intros sheetId. unfold parseA1ToGridRange.
      now rewrite rowOnly_address, colOnly_address, standard_address.
    + unfold parseA1Range. now rewrite standard_address.
Qed.

(** C9 fails on [batchFormat].  The column of a column width (and the
    two columns of a range of hidden columns) go to [colLetterToIndex]
    with no pattern before it, unlike the ranges of the cell formats
    and of the merges, which [parseA1Range] checks.  On the text 1,
    which holds no letter, [colLetterToIndex] does not fail with
    InvalidFormat: it returns -16, and [batchFormat] sends a request
    to size the columns from -16 to -15.  The same text as the range
    of a cell format is refused with InvalidFormat. *)
Theorem batchFormat_column_text_unguarded :
  forallb isLetter "1" = false /\
  colLettersToIndex "1" = -16 /\
  colLetterToIndex "1" = -16 /\
  batchFormat (client := memoryClient) "doc" "Data"
    (BatchFormat.mkOperations None
       (Some [BatchFormat.mkColumnWidth "1" 120]) None None None None None)
    (mkWorld (client := memoryClient) twoSheets []) =
  (mkWorld (client := memoryClient) twoSheets
     [SpreadsheetsGet "doc" None;
      SpreadsheetsBatchUpdate "doc"
        [Schema.updateDimensionProperties
           (Schema.mkDimensionRange 7 COLUMNS (-16) (-15))
           (Schema.mkDimensionProperties (Some 120%Q) None) "pixelSize"]],
   inr (FromRemote 1%nat)) /\
  batchFormatRequests 7
    (BatchFormat.mkOperations
       (Some [BatchFormat.mkCellFormat "1" None (Some true) None None None
                None None None None None])
       None None None None None None) =
  inl (InvalidA1Range "1") /\
  errorKind (InvalidA1Range "1") = InvalidFormat.
Proof. repeat split. Qed.

(** A text can grow when it is put in upper case: the sharp s, code
    unit 223, becomes SS and is decoded as the column SS, of index
    512. *)
Example colLettersToIndex_sharp_s :
  toUpperCaseUnits (String "223"%char EmptyString) = [83; 83] /\
  colLettersToIndex (String "223"%char EmptyString) = 512 /\
  colLettersToIndex "SS" = 512.
Proof. repeat split. Qed.

End ColumnTextGuard.

(** ** Bounds of the grid ranges the parsers build *)

Section GridRangeBounds.
Import JsString.

(** The claim of C5 fails on the code: the whole-row address 5:3 is
    accepted and yields a start row 4 above its end row 3. *)
Lemma parseA1ToGridRange_reversed_counterexample :
  parseA1ToGridRange "5:3" 0 = inr (mkGridRange 0 (Some 4) (Some 3) None None) /\
  ~ gridRangeOrdered (mkGridRange 0 (Some 4) (Some 3) None None).
Proof.
  split; [reflexivity|].
  unfold gridRangeOrdered, axisOrdered. simpl. lia.
Qed.

(** A row number above 2^53 is rounded: the cell A9007199254740994
    gets an empty range, with both row bounds 2^53. *)
Example parseA1ToGridRange_rounded_row :
  parseA1ToGridRange "A9007199254740994" 0 =
  inr (mkGridRange 0 (Some (2 ^ 53)) (Some (2 ^ 53)) (Some 0) (Some 1)).
Proof. reflexivity. Qed.

(** The bounds of one axis: the index of the first row or column named
    and, for the end, the number of the last one named. *)
Lemma row_bounds (r1 : string) (r2 : option string) :
  captured isDigit r1 -> capturedOpt isDigit r2 ->
  rowNumber r1 <= 2 ^ 53 ->
  match r2 with Some r => rowNumber r | None => rowNumber r1 end <= 2 ^ 53 ->
  JsNumber.sub (parseRow r1) 1 = rowNumber r1 - 1 /\
  ifGroup r2 parseRow (JsNumber.add (JsNumber.sub (parseRow r1) 1) 1) =
    match r2 with Some r => rowNumber r | None => rowNumber r1 end /\
  ifGroup r2 (fun g => JsNumber.sub (parseRow g) 1)
    (JsNumber.sub (parseRow r1) 1) =
    match r2 with Some r => rowNumber r | None => rowNumber r1 end - 1.
Proof.
  intros H1 H2 Hb1 Hb2.
  destruct (parseInt_digits r1 H1) as (_ & Hpos & _).
  rewrite (parseRow_exact r1 H1 Hb1).
  rewrite sub_exact by lia. split; [reflexivity|].
  unfold ifGroup. destruct r2 as [r|].
  - destruct (parseInt_digits r H2) as (_ & Hpos2 & _).
    destruct H2 as [H2 Ht]. rewrite Ht.
    rewrite (parseRow_exact r (conj H2 Ht) Hb2).
    split; [reflexivity|]. apply sub_exact. lia.
  - split; [|reflexivity]. rewrite add_exact by lia. lia.
Qed.

Lemma column_bounds (c1 : string) (c2 : option string) :
  captured isLetter c1 -> capturedOpt isLetter c2 ->
  columnNumber c1 <= 2 ^ 53 ->
  match c2 with Some c => columnNumber c | None => columnNumber c1 end
    <= 2 ^ 53 ->
  colLettersToIndex c1 = columnNumber c1 - 1 /\
  ifGroup c2 (fun g => JsNumber.add (colLettersToIndex g) 1)
    (JsNumber.add (colLettersToIndex c1) 1) =
    match c2 with Some c => columnNumber c | None => columnNumber c1 end /\
  ifGroup c2 colLetterToIndex (colLetterToIndex c1) =
    match c2 with Some c => columnNumber c | None => columnNumber c1 end - 1.
Proof.
  intros [H1 Ht1] H2 Hb1 Hb2.
  assert (Hp1 : 1 <= columnNumber c1).
  { apply columnNumber_pos. unfold isColumnLetters. now rewrite H1, Ht1. }
  change (colLetterToIndex c1) with (colLettersToIndex c1).
  rewrite (colLettersToIndex_exact c1 H1 Hb1). split; [reflexivity|].
  unfold ifGroup. destruct c2 as [c|].
  - destruct H2 as [H2 Ht2]. rewrite Ht2.
    assert (Hp2 : 1 <= columnNumber c).
    { apply columnNumber_pos. unfold isColumnLetters. now rewrite H2, Ht2. }
    change (colLetterToIndex c) with (colLettersToIndex c).
    rewrite (colLettersToIndex_exact c H2 Hb2).
    split; [|reflexivity]. rewrite add_exact by lia. lia.
  - split; [|reflexivity]. rewrite add_exact by lia. lia.
Qed.

(** C5, amended.  The grid range [parseA1ToGridRange] builds has the
    bounds of the axes its address names and no other.  For whole
    rows the two column bounds are absent, for whole columns the two
    row bounds; for a rectangle all four are present, and they are
    those of the grid range [batchFormat] builds from what
    [parseA1Range] returns.  Each start bound is the index, from 0, of
    the first row or column named, and each end bound the index of
    the last one named plus one, an exclusive end, for row and column
    numbers up to 2^53; so the end bound lies above the start bound
    when the address is written in order, and below it for a
    reversed address, which the parsers neither reorder nor refuse.
    No text that has none of the three shapes is given a range. *)
Theorem parsed_range_bounds (sheetId : Z) :
  (forall r1 r2,
      captured isDigit r1 -> capturedOpt isDigit r2 ->
      let first := rowNumber r1 - 1 in
      let last :=
        match r2 with Some r => rowNumber r - 1 | None => first end in
      first < 2 ^ 53 -> last < 2 ^ 53 ->
      parseA1ToGridRange (joined r1 r2) sheetId =
      inr (mkGridRange sheetId (Some first) (Some (last + 1)) None None)) /\
  (forall c1 c2,
      captured isLetter c1 -> capturedOpt isLetter c2 ->
      let first := columnNumber c1 - 1 in
      let last :=
        match c2 with Some c => columnNumber c - 1 | None => first end in
      first < 2 ^ 53 -> last < 2 ^ 53 ->
      parseA1ToGridRange (joined c1 c2) sheetId =
      inr (mkGridRange sheetId None None (Some first) (Some (last + 1)))) /\
  (forall c1 r1 second,
      captured isLetter c1 -> captured isDigit r1 ->
      match second with
      | Some (c2, r2) => captured isLetter c2 /\ captured isDigit r2
      | None => True
      end ->
      let firstRow := rowNumber r1 - 1 in
      let lastRow :=
        match second with
        | Some (_, r2) => rowNumber r2 - 1
        | None => firstRow
        end in
      let firstCol := columnNumber c1 - 1 in
      let lastCol :=
        match second with
        | Some (c2, _) => columnNumber c2 - 1
        | None => firstCol
        end in
      firstRow < 2 ^ 53 -> lastRow < 2 ^ 53 ->
      firstCol < 2 ^ 53 -> lastCol < 2 ^ 53 ->
      let a1 := (c1 ++ r1 ++ secondCorner second)%string in
      let range :=
        mkGridRange sheetId (Some firstRow) (Some (lastRow + 1))
          (Some firstCol) (Some (lastCol + 1)) in
      parseA1ToGridRange a1 sheetId = inr range /\
      exists b,
        parseA1Range a1 = inr b /\ boundsToGridRange sheetId b = range) /\
  (forall a1Range g,
      parseA1ToGridRange a1Range sheetId = inr g ->
      paired (startRowIndex g) (endRowIndex g) = true /\
      paired (startColumnIndex g) (endColumnIndex g) = true /\
      ((exists r1 r2,
           captured isDigit r1 /\ capturedOpt isDigit r2 /\
           a1Range = joined r1 r2 /\
           startRowIndex g <> None /\ startColumnIndex g = None) \/
       (exists c1 c2,
           captured isLetter c1 /\ capturedOpt isLetter c2 /\
           a1Range = joined c1 c2 /\
           startRowIndex g = None /\ startColumnIndex g <> None) \/
       (exists c1 r1 second,
           captured isLetter c1 /\ captured isDigit r1 /\
           match second with
           | Some (c2, r2) => captured isLetter c2 /\ captured isDigit r2
           | None => True
           end /\
           a1Range = (c1 ++ r1 ++ secondCorner second)%string /\
           startRowIndex g <> None /\ startColumnIndex g <> None))).
Proof.
  repeat apply conj.
  - intros r1 r2 H1 H2 first last Hb1 Hb2.
    unfold parseA1ToGridRange. rewrite (rowOnly_joined r1 r2 H1 H2).
    destruct (row_bounds r1 r2 H1 H2) as (Hs & He & _).
    + unfold first in Hb1. lia.
    + unfold last, first in Hb2. destruct r2; lia.
    + rewrite He, Hs. unfold last, first.
      repeat f_equal. destruct r2; lia.
  - intros c1 c2 H1 H2 first last Hb1 Hb2.
    destruct (colOnly_joined c1 c2 H1 H2) as (Hrow & Hcol & Hdigit).
    unfold parseA1ToGridRange. rewrite Hrow, Hcol, Hdigit. cbn [negb].
    destruct (column_bounds c1 c2 H1 H2) as (Hs & He & _).
    + unfold first in Hb1. lia.
    + unfold last, first in Hb2. destruct c2; lia.
    + rewrite He, Hs. unfold last, first.
      repeat f_equal. destruct c2; lia.
  - intros c1 r1 second H1 H2 Hsecond firstRow lastRow firstCol lastCol
      Hb1 Hb2 Hb3 Hb4 a1 range.
    destruct (standard_corners c1 r1 second H1 H2 Hsecond)
      as (Hrow & Hcol & Hstd). fold a1 in Hrow, Hcol, Hstd.
    assert (Hr2 : capturedOpt isDigit (option_map snd second)).
    { destruct second as [[c2 r2]|]; [apply Hsecond | exact I]. }
    assert (Hc2 : capturedOpt isLetter (option_map fst second)).
    { destruct second as [[c2 r2]|]; [apply Hsecond | exact I]. }
    destruct (row_bounds r1 (option_map snd second) H2 Hr2)
      as (Hrs & Hre & Hrb).
    { unfold firstRow in Hb1. lia. }
    { unfold lastRow, firstRow in Hb2.
      destruct second as [[c2 r2]|]; cbn [option_map snd]; lia. }
    destruct (column_bounds c1 (option_map fst second) H1 Hc2)
      as (Hcs & Hce & Hcb).
    { unfold firstCol in Hb3. lia. }
    { unfold lastCol, firstCol in Hb4.
      destruct second as [[c2 r2]|]; cbn [option_map fst]; lia. }
    assert (Hrange : range =
      mkGridRange sheetId (Some (rowNumber r1 - 1))
        (Some match option_map snd second with
              | Some r => rowNumber r | None => rowNumber r1 end)
        (Some (columnNumber c1 - 1))
        (Some match option_map fst second with
              | Some c => columnNumber c | None => columnNumber c1 end)).
    { unfold range, lastRow, firstRow, lastCol, firstCol.
      destruct second as [[c2 r2]|]; cbn [option_map fst snd];
        repeat f_equal; lia. }
    split.
    + unfold parseA1ToGridRange. rewrite Hrow, Hcol, Hstd.
      now rewrite Hre, Hrs, Hce, Hcs, Hrange.
    + unfold parseA1Range. rewrite Hstd. eexists. split; [reflexivity|].
      unfold boundsToGridRange. cbn [startRow endRow startCol endCol].
      change (colLetterToIndex c1) with (colLettersToIndex c1) in *.
      rewrite Hrb, Hcb, Hrs, Hcs, Hrange.
      assert (Hp1 : 1 <= columnNumber c1).
      { apply columnNumber_pos. unfold isColumnLetters.
        destruct H1 as [-> ->]. reflexivity. }
      destruct (parseInt_digits r1 H2) as (_ & Hp2 & _).
      destruct second as [[c2 r2]|]; cbn [option_map fst snd] in *.
      * destruct Hsecond as [[H3 Ht3] H4].
        assert (1 <= columnNumber c2).
        { apply columnNumber_pos. unfold isColumnLetters.
          now rewrite H3, Ht3. }
        destruct (parseInt_digits r2 H4) as (_ & Hp4 & _).
        unfold lastRow, lastCol, firstRow, firstCol in *.
        rewrite !add_exact by lia. repeat f_equal; lia.
      * unfold lastRow, lastCol, firstRow, firstCol in *.
        rewrite !add_exact by lia. repeat f_equal; lia.
  - intros a1Range g. unfold parseA1ToGridRange.
    assert (Hstd :
      match Regex.standard a1Range with
      | Some (g1, g2, g3, g4) =>
          inr (mkGridRange sheetId (Some (JsNumber.sub (parseRow g2) 1))
                 (Some (ifGroup g4 parseRow
                          (JsNumber.add (JsNumber.sub (parseRow g2) 1) 1)))
                 (Some (colLettersToIndex g1))
                 (Some (ifGroup g3
                          (fun g => JsNumber.add (colLettersToIndex g) 1)
                          (JsNumber.add (colLettersToIndex g1) 1))))
      | None => inl (InvalidRangeFormat a1Range)
      end = inr g ->
      paired (startRowIndex g) (endRowIndex g) = true /\
      paired (startColumnIndex g) (endColumnIndex g) = true /\
      exists c1 r1 second,
        captured isLetter c1 /\ captured isDigit r1 /\
        match second with
        | Some (c2, r2) => captured isLetter c2 /\ captured isDigit r2
        | None => True
        end /\
        a1Range = (c1 ++ r1 ++ secondCorner second)%string /\
        startRowIndex g <> None /\ startColumnIndex g <> None).
    { destruct (Regex.standard a1Range) as [[[[g1 g2] g3] g4]|] eqn:E;
        [|discriminate].
      intros [= <-]. cbn.
      apply standard_spec in E as (H1 & H2 & H3 & H4 & Hs).
      split; [reflexivity|]. split; [reflexivity|].
      destruct g3 as [c|], g4 as [r|]; try contradiction.
      - exists g1, g2, (Some (c, r)). cbn [secondCorner].
        repeat split; try apply H1; try apply H2; try apply H3;
          try apply H4; try discriminate. exact Hs.
      - exists g1, g2, None. cbn [secondCorner].
        repeat split; try apply H1; try apply H2; try discriminate.
        now rewrite append_empty_r. }
    destruct (Regex.rowOnly a1Range) as [[r1 r2]|] eqn:Erow.
    { intros [= <-]. cbn. split; [reflexivity|]. split; [reflexivity|].
      left. apply rowOnly_spec in Erow as (-> & H1 & H2).
      exists r1, r2. repeat split; try apply H1; try exact H2.
      discriminate. }
    destruct (Regex.colOnly a1Range) as [[c1 c2]|] eqn:Ecol.
    + destruct (Regex.hasDigit a1Range); cbn [negb].
      * intros E. destruct (Hstd E) as (P1 & P2 & P3). auto.
      * intros [= <-]. cbn. split; [reflexivity|]. split; [reflexivity|].
        right. left. apply colOnly_spec in Ecol as (-> & H1 & H2).
        exists c1, c2. repeat split; try apply H1; try exact H2.
        discriminate.
    + intros E. destruct (Hstd E) as (P1 & P2 & P3). auto.
Qed.

End GridRangeBounds.

Lemma parsed_range_bounds_witness :
  parseA1ToGridRange "b3:D5" 7 =
  inr (mkGridRange 7 (Some 2) (Some (4 + 1)) (Some 1) (Some (3 + 1))).
Proof.
  refine (proj1 (proj1 (proj2 (proj2 (parsed_range_bounds 7)))
                  "b" "3" (Some ("D", "5")) _ _ _ _ _ _ _)).
  - split; reflexivity.
  - split; reflexivity.
  - repeat split; reflexivity.
  - reflexivity.
  - reflexivity.
  - reflexivity.
  - reflexivity.
Defined.

(** The three shapes on the addresses the specification lists. *)
Example parseA1ToGridRange_rectangle :
  parseA1ToGridRange "A1:B2" 0 =
  inr (mkGridRange 0 (Some 0) (Some 2) (Some 0) (Some 2)).
Proof. reflexivity. Qed.

Example parseA1ToGridRange_row_band :
  parseA1ToGridRange "3:5" 0 = inr (mkGridRange 0 (Some 2) (Some 5) None None).
Proof. reflexivity. Qed.

Example parseA1ToGridRange_column_band :
  parseA1ToGridRange "A:C" 0 = inr (mkGridRange 0 None None (Some 0) (Some 3)).
Proof. reflexivity. Qed.

(** ** The colour codec *)

Section ColourCodec.

(** Both spellings of red decode to the components 1, 0, 0. *)
Lemma hexToRgb_red :
  hexToRgb "#FF0000" = hexToRgb "F00" /\
  exists c,
    hexToRgb "F00" = Some c /\
    (Rgb.red c == 1)%Q /\ (Rgb.green c == 0)%Q /\ (Rgb.blue c == 0)%Q.
Proof.
  split; [reflexivity|].
  eexists. split; [reflexivity|]. repeat split.
Qed.

(** A colour comes back only for a text of three or six characters
    after the optional hash sign. *)
Lemma hexToRgb_length (hex : string) (c : Rgb.t) :
  hexToRgb hex = Some c ->
  exists body,
    (hex = body \/ hex = String "#" body) /\
    (String.length body = 3%nat \/ String.length body = 6%nat).
Proof.
  unfold hexToRgb. destruct (JsString.truthy hex); simpl; [|discriminate].
  set (body := match hex with String "#" rest => rest | _ => hex end).
  assert (Hbody : hex = body \/ hex = String "#" body).
  { unfold body. destruct hex as [|a rest]; [now left|].
    destruct (Ascii.eqb_spec a "#") as [->|Ha]; [now right|].
    left. destruct a as [[] [] [] [] [] [] [] []];
      try reflexivity; now contradiction Ha. }
  clearbody body. intros H. exists body. split; [exact Hbody|].
  destruct body as [|c0 [|c1 [|c2 [|c3 [|c4 [|c5 [|c6 r]]]]]]];
    try discriminate H; auto.
  unfold JsString.length in H. simpl String.length in H.
  destruct (Z.of_nat (S (S (S (S (S (S (S (String.length r)))))))) =? 6)
    eqn:E; [apply Z.eqb_eq in E; lia | discriminate H].
Qed.

(** C8 fails on the code.  The text 12345G has six characters, the
    last of which is no hexadecimal digit; [parseInt] reads the five
    digits before it, so [hexToRgb] returns a colour, not [null]. *)
Theorem hexToRgb_accepts_non_hex :
  JsString.forallb (JsNumber.isRadixDigit 16) "12345G" = false /\
  hexToRgb "12345G" = Some (Rgb.mk (1 # 255) (35 # 255) (69 # 255)).
Proof. split; reflexivity. Qed.

End ColourCodec.

(** ** Resolving a sheet *)

Section ResolveSheet.
Context {client : SheetsClient}.

Lemma getSpreadsheetMetadata_run (spreadsheetId : string) (w : World) :
  getSpreadsheetMetadata spreadsheetId w =
  (afterGet spreadsheetId None w,
   match answerGet (remote w) spreadsheetId with
   | inl e => inl (onApiError "get spreadsheet metadata" spreadsheetId e)
   | inr metadata => inr metadata
   end).
Proof.
  unfold getSpreadsheetMetadata, tryCatch, spreadsheets_get, afterGet.
  now destruct (answerGet (remote w) spreadsheetId).
Qed.

(** [resolveSheetId] reads the metadata once, changes nothing, and
    answers what [selectSheetId] finds in the metadata read. *)
Lemma resolveSheetId_run (spreadsheetId : string) (sheetName : option string)
    (w : World) :
  resolveSheetId spreadsheetId sheetName w =
  (afterGet spreadsheetId None w,
   match answerGet (remote w) spreadsheetId with
   | inl e => inl (onApiError "get spreadsheet metadata" spreadsheetId e)
   | inr metadata => selectSheetId metadata sheetName
   end).
Proof.
  unfold resolveSheetId, bind, lift. rewrite getSpreadsheetMetadata_run.
  now destruct (answerGet (remote w) spreadsheetId).
Qed.







End ResolveSheet.

(** ** Clearing the conditional-format rules of a sheet *)

Section ClearRules.
Context {client : SheetsClient}.

Lemma pushDeletes_descending (sheetId : Z) (count : nat)
    (requests : list Schema.Request) :
  pushDeletes sheetId count requests =
  requests ++ descendingDeletes sheetId count.
Proof.
  unfold descendingDeletes. revert requests.
  induction count as [|i IH]; intros requests; simpl pushDeletes.
  - simpl. now rewrite app_nil_r.
  - rewrite IH, seq_S, rev_app_distr. simpl.
    now rewrite <- app_assoc.
Qed.

Lemma descendingDeletes_length (sheetId : Z) (n : nat) :
  List.length (descendingDeletes sheetId n) = n.
Proof.
  unfold descendingDeletes.
  now rewrite length_map, length_rev, length_seq.
Qed.

Lemma descendingDeletes_nth (sheetId : Z) (n k : nat) :
  (k < n)%nat ->
  nth_error (descendingDeletes sheetId n) k =
  Some (Schema.deleteConditionalFormatRule sheetId (Z.of_nat (n - 1 - k))).
Proof.
  intros Hk. unfold descendingDeletes.
  rewrite nth_error_map.
  assert (H : nth_error (rev (seq 0 n)) k = Some (n - 1 - k)%nat).
  { rewrite (nth_error_nth' _ 0%nat) by (now rewrite length_rev, length_seq).
    rewrite rev_nth by (now rewrite length_seq).
    rewrite length_seq, seq_nth by lia. f_equal. lia. }
  now rewrite H.
Qed.

Lemma find_app {A : Type} (f : A -> bool) (l1 l2 : list A) :
  find f (l1 ++ l2) =
  match find f l1 with Some x => Some x | None => find f l2 end.
Proof.
  induction l1 as [|x l1 IH]; simpl; [reflexivity|].
  now destruct (f x).
Qed.

(** An entry for [sheetId] already collected stays the first one. *)
Lemma collectRules_keep (sheets : list (Data.Sheet Rule)) (sheetId : Z)
    (results : list (SheetRules.t Rule)) :
  find (fun s => SheetRules.sheetId s =? sheetId) results <> None ->
  find (fun s => SheetRules.sheetId s =? sheetId)
    (collectRules sheets (Some sheetId) results) =
  find (fun s => SheetRules.sheetId s =? sheetId) results.
Proof.
  revert results.
  induction sheets as [|x l IH]; intros results Hres; simpl; [reflexivity|].
  destruct (Data.sheetIdOf x) as [c|]; simpl; [|now apply IH].
  destruct (c =? sheetId); simpl; [|now apply IH].
  destruct (find (fun s => SheetRules.sheetId s =? sheetId) results)
    as [found|] eqn:E; [|congruence].
  rewrite IH; rewrite find_app, E; [reflexivity | discriminate].
Qed.

(** Among the entries collected for [sheetId], the first one for
    [sheetId] is that of the first sheet carrying the identifier. *)
Lemma collectRules_find (sheets : list (Data.Sheet Rule)) (sheetId : Z)
    (results : list (SheetRules.t Rule)) :
  find (fun s => SheetRules.sheetId s =? sheetId) results = None ->
  option_map SheetRules.rules
    (find (fun s => SheetRules.sheetId s =? sheetId)
       (collectRules sheets (Some sheetId) results)) =
  option_map rulesOf (find (hasSheetId sheetId) sheets).
Proof.
  revert results. induction sheets as [|sheet rest IH]; intros results Hres.
  - simpl. now rewrite Hres.
  - simpl. unfold hasSheetId at 1.
    destruct (Data.sheetIdOf sheet) as [current|] eqn:Ecur; simpl;
      [|now apply IH].
    destruct (current =? sheetId) eqn:Eeq; simpl; [|now apply IH].
    rewrite collectRules_keep; rewrite find_app, Hres; simpl; rewrite Eeq;
      [reflexivity | discriminate].
Qed.

(** C3.  When the first sheet carrying [sheetId] has [n > 0]
    conditional-format rules, [clearConditionalFormatRules] places,
    after its one read, exactly one batch update; the batch holds
    exactly [n] requests, the request at position [k] deleting the
    rule at index [n - 1 - k]: the indices [n-1], [n-2], ..., [0] in
    that order. *)
Theorem clearConditionalFormatRules_descending
    (spreadsheetId : string) (sheetId : Z) (w : World)
    (data : Data.Spreadsheet Rule) (sheet : Data.Sheet Rule) (n : nat) :
  answerGet (remote w) spreadsheetId = inr data ->
  find (hasSheetId sheetId) (sheetsOf data) = Some sheet ->
  List.length (rulesOf sheet) = n ->
  (0 < n)%nat ->
  exists requests,
    calls (fst (clearConditionalFormatRules spreadsheetId sheetId w)) =
    calls w ++ [SpreadsheetsGet spreadsheetId (Some rulesFields);
                SpreadsheetsBatchUpdate spreadsheetId requests] /\
    requests = descendingDeletes sheetId n /\
    List.length requests = n /\
    forall k, (k < n)%nat ->
      nth_error requests k =
      Some (Schema.deleteConditionalFormatRule sheetId (Z.of_nat (n - 1 - k))).
Proof.
  intros Hget Hfind Hlen Hn.
  exists (descendingDeletes sheetId n).
  split; [|split; [reflexivity|split;
    [apply descendingDeletes_length | apply descendingDeletes_nth]]].
  pose proof (collectRules_find (sheetsOf data) sheetId [] eq_refl) as Hc.
  rewrite Hfind in Hc. simpl in Hc.
  unfold clearConditionalFormatRules, getConditionalFormatRules.
  unfold tryCatch, bind, ret, spreadsheets_get, spreadsheets_batchUpdate.
  cbn [remote calls]. rewrite Hget. fold (sheetsOf data).
  destruct (find (fun s => SheetRules.sheetId s =? sheetId)
              (collectRules (sheetsOf data) (Some sheetId) []))
    as [sheetRules|]; [|discriminate Hc].
  simpl in Hc. injection Hc as Hrules. rewrite Hrules, Hlen.
  destruct (Z.of_nat n =? 0) eqn:E; [apply Z.eqb_eq in E; lia|].
  rewrite pushDeletes_descending. cbn [app remote calls].
  destruct (answerBatchUpdate (remote w) spreadsheetId
              (descendingDeletes sheetId n)) as [remote' [e|answer]];
    cbn [fst calls]; now rewrite <- app_assoc.
Qed.

(** The order is strictly descending. *)
Lemma descendingDeletes_sorted (sheetId : Z) (n j k : nat) (a b : Z) :
  (j < k)%nat ->
  nth_error (descendingDeletes sheetId n) j =
    Some (Schema.deleteConditionalFormatRule sheetId a) ->
  nth_error (descendingDeletes sheetId n) k =
    Some (Schema.deleteConditionalFormatRule sheetId b) ->
  b < a.
Proof.
  intros Hjk Hj Hk.
  assert (Hkn : (k < n)%nat).
  { rewrite <- (descendingDeletes_length sheetId n).
    apply nth_error_Some. now rewrite Hk. }
  rewrite descendingDeletes_nth in Hj by lia.
  rewrite descendingDeletes_nth in Hk by lia.
  injection Hj as <-. injection Hk as <-. lia.
Qed.

End ClearRules.


Lemma clearConditionalFormatRules_descending_witness :
  exists requests,
    calls (fst (clearConditionalFormatRules (client := memoryClient) "doc" 7
                  (mkWorld (client := memoryClient) twoSheets []))) =
    [] ++ [SpreadsheetsGet "doc" (Some rulesFields);
           SpreadsheetsBatchUpdate "doc" requests] /\
    requests = descendingDeletes 7 3 /\
    List.length requests = 3%nat /\
    forall k, (k < 3)%nat ->
      nth_error requests k =
      Some (Schema.deleteConditionalFormatRule 7 (Z.of_nat (3 - 1 - k))).
Proof.
  eapply (clearConditionalFormatRules_descending (client := memoryClient)
            "doc" 7 (mkWorld (client := memoryClient) twoSheets []) twoSheets).
  - reflexivity.
  - reflexivity.
  - reflexivity.
  - lia.
Defined.

(** ** Field masks and payloads *)

Section FieldMasks.

(** The mask of [formatCells] is the fixed list of four attributes. *)
Lemma formatCellsFields_mask :
  formatCellsFields =
  ("userEnteredFormat(" ++ join formatCellsMask ++ ")")%string.
Proof. reflexivity. Qed.

(** [freezeRowsAndColumns] and the freeze operation of [batchFormat]
    build the mask and the payload together: the field parts are the
    paths of the populated grid properties. *)
Lemma freezeProperties_agree (frozenRows frozenColumns : option Z) :
  snd (freezeProperties frozenRows frozenColumns) =
  populatedGridPaths (fst (freezeProperties frozenRows frozenColumns)).
Proof. now destruct frozenRows, frozenColumns. Qed.

(** The text format part: the fields grow by the paths of the
    attributes set, and a text format with no attribute set is not
    flagged. *)
Lemma textFormatPayload_spec (fmt : BatchFormat.CellFormat) (fields : list string) :
  let '(textFormat, hasTextFormat, fields') := textFormatPayload fmt fields in
  fields' = fields ++ populatedTextPaths textFormat /\
  (hasTextFormat = false -> populatedTextPaths textFormat = []).
Proof.
  destruct fmt as [range fontSize bold italic fontFamily fontColor
                     backgroundColor hAlign vAlign numberFormat wrap].
  unfold textFormatPayload, truthyText.
  cbn [BatchFormat.fontSize BatchFormat.bold BatchFormat.italic
       BatchFormat.fontFamily BatchFormat.fontColor].
  destruct fontColor as [fc|];
    [destruct (JsString.truthy fc); [destruct (hexToRgb fc)|]|];
  destruct fontSize, bold, italic;
  (destruct fontFamily as [ff|]; [destruct (JsString.truthy ff)|]);
  cbn; rewrite <- ?app_assoc, ?app_nil_r; split;
    first [reflexivity | discriminate].
Qed.

(** [batchFormat] builds the mask and the payload of a cell format
    together: the fields are the paths of the populated attributes. *)
Lemma cellFormatPayload_agree (fmt : BatchFormat.CellFormat) :
  snd (cellFormatPayload fmt) = populatedPaths (fst (cellFormatPayload fmt)).
Proof.
  unfold cellFormatPayload.
  assert (Htext := textFormatPayload_spec fmt).
  destruct (truthyText (BatchFormat.backgroundColor fmt)) as [bg|];
    [destruct (hexToRgb bg)|];
  match goal with
  | |- context [textFormatPayload fmt ?f] =>
      specialize (Htext f);
      destruct (textFormatPayload fmt f) as [[textFormat has] fields];
      destruct Htext as [-> Hnone]
  end;
  (destruct has; [clear Hnone | specialize (Hnone eq_refl); rewrite Hnone]);
  destruct (BatchFormat.horizontalAlignment fmt),
    (BatchFormat.verticalAlignment fmt),
    (truthyText (BatchFormat.numberFormat fmt)),
    (BatchFormat.wrapStrategy fmt);
  cbn; rewrite <- ?app_assoc, ?app_nil_r; cbn; reflexivity.
Qed.

(** C4 fails on [formatCells].  Asked for bold text only on the cell
    A1, it sends one request whose payload populates the text format
    alone, under the fixed mask that also names the background
    colour and the two alignments. *)
Theorem formatCells_mask_disagrees :
  exists payload,
    calls (fst (formatCells (client := memoryClient) "doc" "A1" boldOnly
                  (mkWorld (client := memoryClient) twoSheets []))) =
    [SpreadsheetsGet "doc" None;
     SpreadsheetsBatchUpdate "doc"
       [Schema.repeatCell (mkGridRange 0 (Some 0) (Some 1) (Some 0) (Some 1))
          payload formatCellsFields]] /\
    populatedAttributes payload = ["textFormat"] /\
    formatCellsMask <> populatedAttributes payload.
Proof.
  eexists. split; [reflexivity|]. split; [reflexivity | discriminate].
Qed.

End FieldMasks.

(** ** The requests of the table cell editor *)

Section TableCellEditor.
Import Docs.
Context {helpers : StyleHelpers}.

Lemma applyTextContent_spec (cellRange : CellRange) (args : Args) (b : Builder) :
  applyTextContent cellRange args b =
  mkBuilder (requests b ++ textContentRequests cellRange args)
    (newTextStart b)
    (match textContent args with
     | Some text => startIndex cellRange + JsString.length text
     | None => endIndex cellRange
     end).
Proof.
  unfold applyTextContent, textContentRequests, push, setNewTextEnd.
  destruct (textContent args) as [text|]; cbn; [|now rewrite app_nil_r].
  destruct (endIndex cellRange >? startIndex cellRange),
    (JsString.length text >? 0); cbn;
    rewrite ?app_nil_r, <- ?app_assoc; reflexivity.
Qed.

Lemma applyTextStyle_spec (args : Args) (b : Builder) :
  applyTextStyle args b =
  mkBuilder (requests b ++ textStyleRequests args b)
    (newTextStart b) (newTextEnd b).
Proof.
  unfold applyTextStyle, textStyleRequests, push. destruct b as [rs s e].
  cbn. destruct (textStyle args) as [style|]; [|now rewrite app_nil_r].
  destruct (e >? s); [|now rewrite app_nil_r].
  destruct (buildUpdateTextStyleRequest s e style (tabId args));
    cbn; now rewrite ?app_nil_r.
Qed.

Lemma applyParagraphStyle_spec (cellRange : CellRange) (args : Args)
    (b : Builder) :
  applyParagraphStyle cellRange args b =
  mkBuilder (requests b ++ paragraphStyleRequests cellRange args b)
    (newTextStart b) (newTextEnd b).
Proof.
  unfold applyParagraphStyle, paragraphStyleRequests, push.
  destruct b as [rs s e]. cbn.
  destruct (paragraphStyle args) as [style|]; [|now rewrite app_nil_r].
  destruct (e >=? s); [|now rewrite app_nil_r].
  destruct (buildUpdateParagraphStyleRequest s _ style (tabId args));
    cbn; now rewrite ?app_nil_r.
Qed.

(** The requests come in the fixed order delete, insert, character
    style, paragraph style. *)
Lemma buildRequests_spec (cellRange : CellRange) (args : Args) :
  let newEnd :=
    match textContent args with
    | Some text => startIndex cellRange + JsString.length text
    | None => endIndex cellRange
    end in
  let b := mkBuilder [] (startIndex cellRange) newEnd in
  buildRequests cellRange args =
  mkBuilder
    (textContentRequests cellRange args ++
     textStyleRequests args b ++
     paragraphStyleRequests cellRange args b)
    (startIndex cellRange) newEnd.
Proof.
  intros newEnd b. unfold buildRequests.
  rewrite applyParagraphStyle_spec, applyTextStyle_spec, applyTextContent_spec.
  cbn [requests newTextStart newTextEnd app].
  rewrite <- app_assoc. reflexivity.
Qed.

Lemma filter_textContentRequests (cellRange : CellRange) (args : Args)
    (p : Request -> bool) :
  p (deleteContentRange (startIndex cellRange) (endIndex cellRange)) = false ->
  (forall text, p (insertText (startIndex cellRange) text) = false) ->
  filter p (textContentRequests cellRange args) = [].
Proof.
  intros Hd Hi. unfold textContentRequests.
  destruct (textContent args) as [text|]; [|reflexivity].
  destruct (endIndex cellRange >? startIndex cellRange),
    (JsString.length text >? 0); cbn; rewrite ?Hd, ?Hi; reflexivity.
Qed.

Lemma filter_textStyleRequests (args : Args) (b : Builder)
    (p : Request -> bool) :
  (forall request, p (updateTextStyle request) = false) ->
  filter p (textStyleRequests args b) = [].
Proof.
  intros Hp. unfold textStyleRequests.
  destruct (textStyle args) as [style|]; [|reflexivity].
  destruct (newTextEnd b >? newTextStart b); [|reflexivity].
  destruct (buildUpdateTextStyleRequest _ _ style (tabId args));
    cbn; rewrite ?Hp; reflexivity.
Qed.

Lemma filter_paragraphStyleRequests (cellRange : CellRange) (args : Args)
    (b : Builder) (p : Request -> bool) :
  (forall request, p (updateParagraphStyle request) = false) ->
  filter p (paragraphStyleRequests cellRange args b) = [].
Proof.
  intros Hp. unfold paragraphStyleRequests.
  destruct (paragraphStyle args) as [style|]; [|reflexivity].
  destruct (newTextEnd b >=? newTextStart b); [|reflexivity].
  destruct (buildUpdateParagraphStyleRequest _ _ style (tabId args));
    cbn; rewrite ?Hp; reflexivity.
Qed.

(** C1.  When a replacement text is given, the editor emits one
    delete request, for the whole cell content, exactly when the
    content is not empty ([endIndex > startIndex]), and none
    otherwise; it emits one insert request, of the text at the start
    of the cell, exactly when the text is not empty, and none
    otherwise.  Replacing the content at 10 to 15 by a text of
    length 8 with a character style and no paragraph style, the
    requests are, in this order, the deletion of 10 to 15, the
    insertion at 10 and the style request the helper builds for 10
    to 18. *)
Theorem editTableCell_text_requests (cellRange : CellRange) (text : string)
    (style : option TextStyleArgs) (paragraph : option ParagraphStyleArgs)
    (tab : option string) :
  let emitted :=
    requests (buildRequests cellRange (mkArgs (Some text) style paragraph tab)) in
  filter isDelete emitted =
    (if endIndex cellRange >? startIndex cellRange
     then [deleteContentRange (startIndex cellRange) (endIndex cellRange)]
     else []) /\
  filter isInsert emitted =
    (if JsString.length text >? 0
     then [insertText (startIndex cellRange) text]
     else []) /\
  (forall s request,
      cellRange = mkCellRange 10 15 ->
      JsString.length text = 8 ->
      style = Some s ->
      paragraph = None ->
      buildUpdateTextStyleRequest 10 18 s tab = Some request ->
      emitted =
      [deleteContentRange 10 15; insertText 10 text; updateTextStyle request]).
Proof.
  intros emitted. subst emitted. rewrite buildRequests_spec.
  cbn [requests textContent]. split; [|split].
  - rewrite !filter_app.
    rewrite filter_textStyleRequests, filter_paragraphStyleRequests
      by reflexivity.
    unfold textContentRequests. cbn [textContent].
    destruct (endIndex cellRange >? startIndex cellRange),
      (JsString.length text >? 0); reflexivity.
  - rewrite !filter_app.
    rewrite filter_textStyleRequests, filter_paragraphStyleRequests
      by reflexivity.
    unfold textContentRequests. cbn [textContent].
    destruct (endIndex cellRange >? startIndex cellRange),
      (JsString.length text >? 0); reflexivity.
  - intros s request -> Hlen -> -> Hstyle.
    unfold textContentRequests, textStyleRequests, paragraphStyleRequests.
    cbn [textContent textStyle paragraphStyle tabId startIndex endIndex
         newTextStart newTextEnd].
    rewrite Hlen. cbn. now rewrite Hstyle.
Qed.

(** C2, amended.  The new content end is the start of the cell plus
    the length of the text when a text is given (the empty text
    included, of length 0, which inserts nothing), and the original
    end of the cell otherwise.  When a
    paragraph style is requested and the new end is not below the
    start, the paragraph request is the one the helper builds from
    the start of the cell to the new end plus one when a text is
    given, and to the original end plus one otherwise; it is the only
    paragraph request. *)
Theorem editTableCell_newTextEnd (cellRange : CellRange) (args : Args) :
  let b := buildRequests cellRange args in
  newTextStart b = startIndex cellRange /\
  newTextEnd b =
    match textContent args with
    | Some text => startIndex cellRange + JsString.length text
    | None => endIndex cellRange
    end /\
  forall style,
    paragraphStyle args = Some style ->
    filter isParagraphStyle (requests b) =
    if newTextEnd b >=? startIndex cellRange then
      match
        buildUpdateParagraphStyleRequest (startIndex cellRange)
          (match textContent args with
           | Some _ => newTextEnd b + 1
           | None => endIndex cellRange + 1
           end) style (tabId args)
      with
      | Some request => [updateParagraphStyle request]
      | None => []
      end
    else [].
Proof.
  intros b. subst b. rewrite buildRequests_spec.
  cbn [requests newTextStart newTextEnd]. split; [|split]; try reflexivity.
  intros style Hstyle. rewrite !filter_app.
  rewrite filter_textContentRequests, filter_textStyleRequests by reflexivity.
  unfold paragraphStyleRequests. rewrite Hstyle.
  cbn [app newTextStart newTextEnd].
  destruct (_ >=? startIndex cellRange); [|reflexivity].
  now destruct (buildUpdateParagraphStyleRequest _ _ style (tabId args)).
Qed.

End TableCellEditor.

Lemma editTableCell_text_requests_witness :
  Docs.requests
    (Docs.buildRequests (helpers := Docs.spanHelpers) (Docs.mkCellRange 10 15)
       (Docs.mkArgs (helpers := Docs.spanHelpers)
          (Some "newtext8") (Some ["bold"%string]) None None)) =
  [Docs.deleteContentRange 10 15; Docs.insertText 10 "newtext8";
   Docs.updateTextStyle (helpers := Docs.spanHelpers) (10, 18)].
Proof.
  destruct (editTableCell_text_requests (helpers := Docs.spanHelpers)
              (Docs.mkCellRange 10 15) "newtext8" (Some ["bold"%string])
              None None) as (_ & _ & H).
  apply (H ["bold"%string] (10, 18)); reflexivity.
Defined.

Lemma editTableCell_newTextEnd_witness :
  filter Docs.isParagraphStyle
    (Docs.requests
       (Docs.buildRequests (helpers := Docs.spanHelpers) (Docs.mkCellRange 10 15)
          (Docs.mkArgs (helpers := Docs.spanHelpers)
             (Some "abc") None (Some ["alignment"%string]) None))) =
  [Docs.updateParagraphStyle (helpers := Docs.spanHelpers) (10, 14)] /\
  filter Docs.isParagraphStyle
    (Docs.requests
       (Docs.buildRequests (helpers := Docs.spanHelpers) (Docs.mkCellRange 10 15)
          (Docs.mkArgs (helpers := Docs.spanHelpers)
             None None (Some ["alignment"%string]) None))) =
  [Docs.updateParagraphStyle (helpers := Docs.spanHelpers) (10, 16)].
Proof.
  split.
  - destruct (editTableCell_newTextEnd (helpers := Docs.spanHelpers)
                (Docs.mkCellRange 10 15)
                (Docs.mkArgs (helpers := Docs.spanHelpers)
                   (Some "abc") None (Some ["alignment"%string]) None))
      as (_ & _ & H).
    exact (H ["alignment"%string] eq_refl).
  - destruct (editTableCell_newTextEnd (helpers := Docs.spanHelpers)
                (Docs.mkCellRange 10 15)
                (Docs.mkArgs (helpers := Docs.spanHelpers)
                   None None (Some ["alignment"%string]) None))
      as (_ & _ & H).
    exact (H ["alignment"%string] eq_refl).
Defined.

(** The claim of C2 fails on the code for the empty text: over the
    cell from 10 to 15 nothing is inserted, the requests being the
    deletion and the paragraph style, yet the new content end is 10,
    not the original end 15, and the paragraph request covers 10 to
    11, not 10 to 16. *)
Lemma editTableCell_empty_text_counterexample :
  Docs.requests
    (Docs.buildRequests (helpers := Docs.spanHelpers) (Docs.mkCellRange 10 15)
       (Docs.mkArgs (helpers := Docs.spanHelpers)
          (Some EmptyString) None (Some ["alignment"%string]) None)) =
  [Docs.deleteContentRange 10 15;
   Docs.updateParagraphStyle (helpers := Docs.spanHelpers) (10, 11)] /\
  Docs.newTextEnd
    (Docs.buildRequests (helpers := Docs.spanHelpers) (Docs.mkCellRange 10 15)
       (Docs.mkArgs (helpers := Docs.spanHelpers)
          (Some EmptyString) None (Some ["alignment"%string]) None)) = 10 /\
  Docs.newTextEnd
    (Docs.buildRequests (helpers := Docs.spanHelpers) (Docs.mkCellRange 10 15)
       (Docs.mkArgs (helpers := Docs.spanHelpers)
          (Some EmptyString) None (Some ["alignment"%string]) None)) <>
  Docs.endIndex (Docs.mkCellRange 10 15) /\
  filter Docs.isParagraphStyle
    (Docs.requests
       (Docs.buildRequests (helpers := Docs.spanHelpers)
          (Docs.mkCellRange 10 15)
          (Docs.mkArgs (helpers := Docs.spanHelpers)
             (Some EmptyString) None (Some ["alignment"%string]) None))) <>
  [Docs.updateParagraphStyle (helpers := Docs.spanHelpers) (10, 16)].
Proof.
  split; [reflexivity|]. split; [reflexivity|]. split; discriminate.
Qed.

(** An empty cell and a text of length 3: the insertion alone. *)
Example editTableCell_empty_cell :
  Docs.submission (helpers := Docs.spanHelpers) (Docs.mkCellRange 10 10)
    (Docs.mkArgs (helpers := Docs.spanHelpers) (Some "abc") None None None) =
  Some [Docs.insertText (helpers := Docs.spanHelpers) 10 "abc"].
Proof. reflexivity. Qed.

(** Nothing asked for: no batch is handed to the submitter. *)
Example editTableCell_no_change :
  Docs.submission (helpers := Docs.spanHelpers) (Docs.mkCellRange 10 15)
    (Docs.mkArgs (helpers := Docs.spanHelpers) None None None None) = None.
Proof. reflexivity. Qed.

(** * Further properties *)

(** ** Cell addresses: [a1ToRowCol] and [rowColToA1] *)

Section CellAddresses.
Import JsString.

Lemma string_of_uint_digits (d : Decimal.uint) :
  forallb isDigit (NilEmpty.string_of_uint d) = true.
Proof. induction d; simpl; auto. Qed.

Lemma digitsValue_of_uint_acc (d : Decimal.uint) (acc : positive) :
  JsNumber.digitsValue 10 (NilEmpty.string_of_uint d) (Z.pos acc) =
  Z.pos (Pos.of_uint_acc d acc).
Proof.
  revert acc. induction d; intros acc; simpl NilEmpty.string_of_uint;
    cbn [JsNumber.digitsValue Pos.of_uint_acc]; [reflexivity|..];
    rewrite <- IHd; f_equal;
    match goal with
    | |- context [JsNumber.digitValue ?c] =>
        let v := eval vm_compute in (JsNumber.digitValue c) in
        change (JsNumber.digitValue c) with v
    end; cbv iota; lia.
Qed.

Lemma digitsValue_of_uint (d : Decimal.uint) :
  JsNumber.digitsValue 10 (NilEmpty.string_of_uint d) 0 = Z.of_N (Pos.of_uint d).
Proof.
  induction d; simpl NilEmpty.string_of_uint;
    cbn [JsNumber.digitsValue Pos.of_uint]; [reflexivity|..];
    match goal with
    | |- context [JsNumber.digitValue ?c] =>
        let v := eval vm_compute in (JsNumber.digitValue c) in
        change (JsNumber.digitValue c) with v
    end; cbv iota; change (0 * 10 + 0) with 0; [exact IHd|..];
    match goal with
    | |- context [0 * 10 + Z.pos ?k] =>
        change (0 * 10 + Z.pos k) with (Z.pos k)
    end; rewrite digitsValue_of_uint_acc; reflexivity.
Qed.

(** The text of a positive number up to 2^53 is its decimal digits,
    and reads back as the number. *)
Lemma parseRow_toString (n : Z) :
  0 < n <= 2 ^ 53 ->
  captured isDigit (JsNumber.toString n) /\ parseRow (JsNumber.toString n) = n.
Proof.
  intros Hn. rewrite toString_decimal by lia.
  destruct n as [|p|p]; try lia.
  unfold JsNumber.decimal. cbn [Z.to_int NilZero.string_of_int].
  assert (Hnil : Pos.to_uint p <> Decimal.Nil).
  { intros E. pose proof (DecimalPos.Unsigned.of_to p) as H.
    rewrite E in H. discriminate H. }
  assert (Hs : NilZero.string_of_uint (Pos.to_uint p) =
               NilEmpty.string_of_uint (Pos.to_uint p)).
  { unfold NilZero.string_of_uint. now destruct (Pos.to_uint p). }
  rewrite Hs.
  assert (Hcap : captured isDigit (NilEmpty.string_of_uint (Pos.to_uint p))).
  { split; [apply string_of_uint_digits|].
    destruct (Pos.to_uint p); [contradiction|..]; reflexivity. }
  split; [exact Hcap|].
  assert (Hvalue : rowNumber (NilEmpty.string_of_uint (Pos.to_uint p)) =
                   Z.pos p).
  { unfold rowNumber.
    rewrite digitsValue_of_uint, DecimalPos.Unsigned.of_to. reflexivity. }
  rewrite (parseRow_exact _ Hcap) by (rewrite Hvalue; lia).
  exact Hvalue.
Qed.

Lemma cell_app (a b : string) :
  captured isLetter a -> captured isDigit b ->
  Pattern.cell (a ++ b)%string = Some (a, b).
Proof.
  intros Ha Hb. unfold Pattern.cell.
  now rewrite (plus_letters_digits a b Ha Hb), (plus_all isDigit b Hb).
Qed.

Lemma cell_spec (s g1 g2 : string) :
  Pattern.cell s = Some (g1, g2) ->
  s = (g1 ++ g2)%string /\ captured isLetter g1 /\ captured isDigit g2.
Proof.
  unfold Pattern.cell.
  destruct (Regex.plus isLetter s) as [[a rest]|] eqn:E1; [|discriminate].
  destruct (Regex.plus isDigit rest) as [[b [|c r]]|] eqn:E2; try discriminate.
  intros [= <- <-].
  apply plus_spec in E1 as (-> & H1 & H2).
  apply plus_spec in E2 as (-> & H3 & H4).
  rewrite append_empty_r. now repeat split.
Qed.

Lemma truthy_app_r (a b : string) :
  truthy b = true -> truthy (a ++ b)%string = true.
Proof. destruct a; simpl; auto. Qed.

(** A positive counter makes the loop of [rowColToA1] write at least
    one letter. *)
Lemma rowColToA1_loop_truthy (colNum : Z) :
  0 < colNum <= 2 ^ 53 ->
  truthy (rowColToA1_loop colNum EmptyString) = true.
Proof.
  intros H. rewrite rowColToA1_loop_step by exact H.
  rewrite rowColToA1_loop_acc by (pose proof (quotient_below colNum); lia).
  now apply truthy_app_r.
Qed.

Lemma upper_letters (s : string) :
  forallb isUpper s = true -> forallb isLetter s = true.
Proof.
  apply forallb_weaken. intros c Hc. unfold isLetter. now rewrite Hc.
Qed.

(** An address written from a row and a column below 2^53 reads back
    as them. *)
Lemma rowColToA1_read_back (row col : Z) :
  0 <= row < 2 ^ 53 -> 0 <= col < 2 ^ 53 ->
  a1ToRowCol (indexToColumnLetters col ++
              JsNumber.toString (JsNumber.add row 1))%string =
  Some (RowCol.mk row col).
Proof.
  intros Hrow Hcol. rewrite add_exact by lia.
  destruct (parseRow_toString (row + 1)) as [Hdigits Hparse]; [lia|].
  assert (Hup : forallb isUpper (indexToColumnLetters col) = true)
    by now apply indexToColumnLetters_upper.
  assert (Hletters : captured isLetter (indexToColumnLetters col)).
  { split; [now apply upper_letters|].
    unfold indexToColumnLetters. rewrite add_exact by lia.
    apply rowColToA1_loop_truthy. lia. }
  unfold a1ToRowCol. rewrite (cell_app _ _ Hletters Hdigits).
  change (JsNumber.sub
            (colLettersToIndex_loop
               (toUpperCaseUnits (indexToColumnLetters col)) 0) 1)
    with (colLettersToIndex (indexToColumnLetters col)).
  rewrite colLettersToIndex_indexToColumnLetters by exact Hcol.
  rewrite Hparse, sub_exact by lia.
  f_equal. f_equal. lia.
Qed.

(** X1.  Reading back an address that [rowColToA1] wrote gives the
    row and the column it was written from: for every row and column
    from 0 up to, and not including, 2^53, [rowColToA1] returns an
    address, and [a1ToRowCol] of that address is the pair again.
    (From 2^53 on the sums [row + 1] and [col + 1] are rounded.) *)
Theorem a1ToRowCol_rowColToA1 (row col : Z) :
  0 <= row < 2 ^ 53 -> 0 <= col < 2 ^ 53 ->
  exists a1,
    rowColToA1 row col = inr a1 /\
    a1ToRowCol a1 = Some (RowCol.mk row col).
Proof.
  intros Hrow Hcol. eexists.
  split; [apply rowColToA1_letters; lia|].
  now apply rowColToA1_read_back.
Qed.

Lemma a1ToRowCol_rowColToA1_witness :
  exists a1,
    rowColToA1 11 27 = inr a1 /\ a1ToRowCol a1 = Some (RowCol.mk 11 27).
Proof. apply (a1ToRowCol_rowColToA1 11 27); lia. Defined.

(** From 2^53 on the row written is rounded: row 2^53 is written with
    the number 2^53, not 2^53 + 1, and reads back as row 2^53 - 1. *)
Example rowColToA1_rounded_row :
  rowColToA1 (2 ^ 53) 0 = inr "A9007199254740992" /\
  a1ToRowCol "A9007199254740992" = Some (RowCol.mk (2 ^ 53 - 1) 0).
Proof. split; reflexivity. Qed.

(** A rounded number lies above every bound, up to 2^53, that the
    number lies above. *)
Lemma double_lower (k x : Z) :
  - 2 ^ 53 <= x -> k <= x -> k <= 2 ^ 53 -> k <= JsNumber.double x.
Proof.
  intros Hx Hk Hb. destruct (Z_le_gt_dec (Z.abs x) (2 ^ 53)) as [H|H].
  - now rewrite double_exact.
  - pose proof (double_large x). lia.
Qed.

(** The loop over the column letters gives at least 1 on a letter. *)
Lemma colLettersToIndex_loop_lower (upper : string) (index : Z) :
  forallb isUpper upper = true -> 1 <= index ->
  1 <= colLettersToIndex_loop (codeUnits upper) index.
Proof.
  revert index. induction upper as [|c upper IH]; intros index Hup Hindex.
  - exact Hindex.
  - simpl in Hup. apply andb_true_iff in Hup as [Hc Hup].
    cbn [codeUnits colLettersToIndex_loop]. apply IH; [exact Hup|].
    unfold isUpper in Hc. apply andb_true_iff in Hc as [H1 H2].
    apply Z.leb_le in H1, H2.
    unfold JsNumber.add, JsNumber.mul, JsNumber.sub.
    rewrite (double_exact (charCode c - 64)) by lia.
    pose proof (double_lower 1 (index * 26)).
    apply double_lower; lia.
Qed.

Lemma colLettersToIndex_loop_pos (upper : string) :
  forallb isUpper upper = true -> truthy upper = true ->
  1 <= colLettersToIndex_loop (codeUnits upper) 0.
Proof.
  destruct upper as [|c upper]; [discriminate|]. intros Hup _.
  simpl in Hup. apply andb_true_iff in Hup as [Hc Hup].
  cbn [codeUnits colLettersToIndex_loop].
  apply colLettersToIndex_loop_lower; [exact Hup|].
  unfold isUpper in Hc. apply andb_true_iff in Hc as [H1 H2].
  apply Z.leb_le in H1, H2.
  unfold JsNumber.add, JsNumber.mul, JsNumber.sub.
  rewrite (double_exact (0 * 26)), (double_exact (charCode c - 64)) by lia.
  apply double_lower; lia.
Qed.

(** A text the cell pattern matches has neither of the two band
    shapes, and has the rectangle shape with one corner only. *)
Lemma cell_shapes (a1 g1 g2 : string) :
  Pattern.cell a1 = Some (g1, g2) ->
  Regex.rowOnly a1 = None /\ Regex.colOnly a1 = None /\
  Regex.standard a1 = Some (g1, g2, None, None).
Proof.
  intros H. apply cell_spec in H as (-> & Hl & Hd).
  pose proof (plus_letters_digits g1 g2 Hl Hd) as Hplus.
  pose proof (plus_all isDigit g2 Hd) as Hdigits.
  repeat split.
  - unfold Regex.rowOnly. destruct Hl as [Hl Ht].
    destruct g1 as [|c g1]; [discriminate Ht|].
    simpl in Hl. apply andb_true_iff in Hl as [Hc _].
    cbn [append]. now rewrite plus_none by (now apply letter_not_digit).
  - unfold Regex.colOnly. rewrite Hplus. destruct Hd as [Hd Ht].
    destruct g2 as [|c g2]; [discriminate Ht|].
    simpl in Hd. apply andb_true_iff in Hd as [Hc _].
    destruct c as [[] [] [] [] [] [] [] []]; try discriminate Hc; reflexivity.
  - unfold Regex.standard. now rewrite Hplus, Hdigits.
Qed.

(** X2.  [a1ToRowCol] and [parseA1ToGridRange] agree on a single cell:
    whenever [a1ToRowCol] accepts a text, [parseA1ToGridRange] accepts
    it too and builds the range that starts at that row and column
    and ends at the sums, as the code computes them, of each and 1.
    The column read is never negative; the row is -1 at the least,
    which it is for row number 0, a number [a1ToRowCol] does not turn
    away.  For a row and a column read below 2^53 the sums are exact
    and the range is the one cell at that row and column. *)
Theorem a1ToRowCol_gridRange (a1 : string) (cell : RowCol.t) (sheetId : Z) :
  a1ToRowCol a1 = Some cell ->
  parseA1ToGridRange a1 sheetId =
  inr (mkGridRange sheetId
         (Some (RowCol.row cell)) (Some (JsNumber.add (RowCol.row cell) 1))
         (Some (RowCol.col cell)) (Some (JsNumber.add (RowCol.col cell) 1))) /\
  -1 <= RowCol.row cell /\ 0 <= RowCol.col cell /\
  (RowCol.row cell < 2 ^ 53 -> RowCol.col cell < 2 ^ 53 ->
   parseA1ToGridRange a1 sheetId =
   inr (mkGridRange sheetId
          (Some (RowCol.row cell)) (Some (RowCol.row cell + 1))
          (Some (RowCol.col cell)) (Some (RowCol.col cell + 1)))).
Proof.
  unfold a1ToRowCol.
  destruct (Pattern.cell a1) as [[g1 g2]|] eqn:E; [|discriminate].
  intros [= <-]. cbn [RowCol.row RowCol.col].
  destruct (cell_shapes _ _ _ E) as (Hrow & Hcol & Hstd).
  apply cell_spec in E as (-> & Hl & Hd).
  assert (Hrange :
    parseA1ToGridRange (g1 ++ g2) sheetId =
    inr (mkGridRange sheetId
           (Some (JsNumber.sub (parseRow g2) 1))
           (Some (JsNumber.add (JsNumber.sub (parseRow g2) 1) 1))
           (Some (JsNumber.sub
                    (colLettersToIndex_loop (toUpperCaseUnits g1) 0) 1))
           (Some (JsNumber.add
                    (JsNumber.sub
                       (colLettersToIndex_loop (toUpperCaseUnits g1) 0) 1)
                    1)))).
  { unfold parseA1ToGridRange. rewrite Hrow, Hcol, Hstd. reflexivity. }
  assert (Hlow : -1 <= JsNumber.sub (parseRow g2) 1).
  { destruct (parseInt_digits g2 Hd) as (_ & _ & H).
    apply double_lower; lia. }
  assert (Hleft : 0 <= JsNumber.sub
                         (colLettersToIndex_loop (toUpperCaseUnits g1) 0) 1).
  { destruct Hl as [Hl Ht].
    rewrite toUpperCaseUnits_letters by exact Hl.
    pose proof (colLettersToIndex_loop_pos (toUpperCase g1)
                  (toUpperCase_letters g1 Hl)) as Hpos.
    enough (1 <= colLettersToIndex_loop (codeUnits (toUpperCase g1)) 0)
      by (apply double_lower; lia).
    apply Hpos. destruct g1; [discriminate Ht | reflexivity]. }
  split; [exact Hrange|]. split; [exact Hlow|]. split; [exact Hleft|].
  intros Hr Hc. rewrite Hrange. now rewrite !add_exact by lia.
Qed.

Lemma a1ToRowCol_gridRange_witness :
  parseA1ToGridRange "c0" 5 =
  inr (mkGridRange 5 (Some (-1)) (Some (-1 + 1)) (Some 2) (Some (2 + 1))).
Proof.
  refine (proj2 (proj2 (proj2
            (a1ToRowCol_gridRange "c0" (RowCol.mk (-1) 2) 5 eq_refl))) _ _);
    reflexivity.
Defined.

End CellAddresses.

(** ** The colour codec, further *)

Section ColourComponents.
Import JsString.

Lemma band_255 (x : Z) : JsNumber.band x 255 = JsNumber.toInt32 x mod 256.
Proof.
  unfold JsNumber.band.
  change (JsNumber.toInt32 255) with (Z.ones 8).
  now rewrite Z.land_ones by lia.
Qed.

Lemma band_255_range (x : Z) : 0 <= JsNumber.band x 255 <= 255.
Proof.
  rewrite band_255.
  pose proof (Z.mod_pos_bound (JsNumber.toInt32 x) 256 ltac:(lia)). lia.
Qed.

Lemma component_unit (k : Z) :
  0 <= k <= 255 -> (0 <= inject_Z k / 255 /\ inject_Z k / 255 <= 1)%Q.
Proof.
  intros Hk. unfold Qle, Qdiv, Qmult, Qinv, inject_Z. simpl. lia.
Qed.

(** X3.  Whatever text it is given, a colour that [hexToRgb] returns
    has its three components between 0 and 1. *)
Theorem hexToRgb_unit_interval (hex : string) (c : Rgb.t) :
  hexToRgb hex = Some c ->
  (0 <= Rgb.red c /\ Rgb.red c <= 1)%Q /\
  (0 <= Rgb.green c /\ Rgb.green c <= 1)%Q /\
  (0 <= Rgb.blue c /\ Rgb.blue c <= 1)%Q.
Proof.
  unfold hexToRgb. destruct (negb (truthy hex)); [discriminate|].
  match goal with
  | |- (if ?b then _ else _) = _ -> _ => destruct b; [discriminate|]
  end.
  match goal with
  | |- match ?p with Some _ => _ | None => _ end = _ -> _ =>
      destruct p as [bigint|]; [|discriminate]
  end.
  intros [= <-]. cbn [Rgb.red Rgb.green Rgb.blue].
  repeat split; apply component_unit, band_255_range.
Qed.

Lemma hexToRgb_unit_interval_witness :
  (0 <= Rgb.red (Rgb.mk (254 # 255) (220 # 255) (187 # 255)) /\
   Rgb.red (Rgb.mk (254 # 255) (220 # 255) (187 # 255)) <= 1)%Q.
Proof.
  exact (proj1 (hexToRgb_unit_interval "-12345" _ eq_refl)).
Defined.

(** On a run of hexadecimal digits [parseInt] reads the whole run:
    no digit is white space or a sign, and no second digit is the x of
    a prefix. *)
Lemma parseInt_hex (s : string) :
  captured (JsNumber.isRadixDigit 16) s ->
  JsNumber.parseInt s 16 =
  Some (JsNumber.double (JsNumber.digitsValue 16 s 0)).
Proof.
  intros [Hd Ht]. destruct s as [|c1 rest]; [discriminate Ht|].
  pose proof (span_all _ _ Hd) as Hspan.
  simpl in Hd. apply andb_true_iff in Hd as [Hc1 Hrest].
  unfold JsNumber.parseInt.
  destruct c1 as [[] [] [] [] [] [] [] []]; try discriminate Hc1;
    cbn [JsNumber.trimStart JsNumber.isWhiteSpace];
    cbn -[span JsNumber.digitsValue JsNumber.isRadixDigit JsNumber.double];
    try (rewrite Hspan; cbn -[JsNumber.digitsValue JsNumber.double];
         now destruct (JsNumber.digitsValue 16 _ 0)).
  assert (Hprefix :
    match rest with
    | String "x"%char rest0 | String "X"%char rest0 => rest0
    | _ => String "0" rest
    end = String "0" rest).
  { destruct rest as [|c2 rest]; [reflexivity|].
    simpl in Hrest. apply andb_true_iff in Hrest as [Hc2 _].
    destruct c2 as [[] [] [] [] [] [] [] []]; try discriminate Hc2;
      reflexivity. }
  rewrite Hprefix, Hspan. cbn -[JsNumber.digitsValue JsNumber.double].
  now destruct (JsNumber.digitsValue 16 _ 0).
Qed.

Lemma hexValue_range (c : ascii) :
  JsNumber.isRadixDigit 16 c = true -> 0 <= hexValue c < 16.
Proof.
  unfold JsNumber.isRadixDigit, hexValue, JsNumber.digitValue.
  destruct (isDigit c) eqn:Ed.
  - apply isDigit_spec in Ed. intros H. apply Z.ltb_lt in H. lia.
  - destruct (isLower c) eqn:El.
    + apply isLower_spec in El. intros H. apply Z.ltb_lt in H. lia.
    + destruct (isUpper c) eqn:Eu; [|discriminate].
      apply isUpper_spec in Eu. intros H. apply Z.ltb_lt in H. lia.
Qed.

Lemma toInt32_small (x : Z) :
  - 2 ^ 31 <= x < 2 ^ 31 -> JsNumber.toInt32 x = x.
Proof.
  intros H. unfold JsNumber.toInt32. rewrite Z.mod_small; lia.
Qed.

(** The three bytes of a number below 2^24. *)
Lemma bytes_of (hi mid lo : Z) :
  0 <= hi < 256 -> 0 <= mid < 256 -> 0 <= lo < 256 ->
  let x := (hi * 256 + mid) * 256 + lo in
  JsNumber.band (JsNumber.sar x 16) 255 = hi /\
  JsNumber.band (JsNumber.sar x 8) 255 = mid /\
  JsNumber.band x 255 = lo.
Proof.
  intros Hhi Hmid Hlo x.
  assert (Hx : JsNumber.toInt32 x = x) by (apply toInt32_small; subst x; lia).
  unfold JsNumber.sar. rewrite !band_255, Hx.
  change (16 mod 32) with 16. change (8 mod 32) with 8.
  rewrite !Z.shiftr_div_pow2 by lia.
  change (2 ^ 16) with 65536. change (2 ^ 8) with 256.
  assert (H16 : x / 65536 = hi).
  { symmetry. apply (Z.div_unique x 65536 hi (mid * 256 + lo)); subst x; lia. }
  assert (H8 : x / 256 = hi * 256 + mid).
  { symmetry. apply (Z.div_unique x 256 (hi * 256 + mid) lo); subst x; lia. }
  rewrite H16, H8.
  rewrite !toInt32_small by lia.
  repeat split.
  - apply Z.mod_small; lia.
  - symmetry. apply (Z.mod_unique _ 256 hi mid); lia.
  - symmetry. apply (Z.mod_unique x 256 (hi * 256 + mid) lo); subst x; lia.
Qed.

Lemma hexByte_range (hi lo : ascii) :
  JsNumber.isRadixDigit 16 hi = true -> JsNumber.isRadixDigit 16 lo = true ->
  0 <= hexByte hi lo < 256.
Proof.
  intros Hhi Hlo. unfold hexByte.
  pose proof (hexValue_range hi Hhi). pose proof (hexValue_range lo Hlo). lia.
Qed.

(** A hexadecimal digit is no hash sign. *)
Lemma hash_not_hex (c : ascii) (rest : string) :
  JsNumber.isRadixDigit 16 c = true ->
  match String c rest with
  | String "#" tail => tail
  | _ => String c rest
  end = String c rest.
Proof.
  intros H.
  destruct c as [[] [] [] [] [] [] [] []]; try discriminate H; reflexivity.
Qed.

(** [hexToRgb] on six characters that are hexadecimal digits. *)
Lemma hexToRgb_six (c1 c2 c3 c4 c5 c6 : ascii) :
  JsNumber.isRadixDigit 16 c1 = true -> JsNumber.isRadixDigit 16 c2 = true ->
  JsNumber.isRadixDigit 16 c3 = true -> JsNumber.isRadixDigit 16 c4 = true ->
  JsNumber.isRadixDigit 16 c5 = true -> JsNumber.isRadixDigit 16 c6 = true ->
  hexToRgb
    (String c1 (String c2 (String c3 (String c4 (String c5
       (String c6 EmptyString)))))) =
  Some (Rgb.mk (inject_Z (hexByte c1 c2) / 255)
               (inject_Z (hexByte c3 c4) / 255)
               (inject_Z (hexByte c5 c6) / 255))%Q.
Proof.
  intros H1 H2 H3 H4 H5 H6.
  set (text := String c1 (String c2 (String c3 (String c4 (String c5
                 (String c6 EmptyString)))))).
  assert (Hcap : captured (JsNumber.isRadixDigit 16) text).
  { split; [|reflexivity]. unfold text. simpl.
    now rewrite H1, H2, H3, H4, H5, H6. }
  assert (Hvalue : JsNumber.digitsValue 16 text 0 =
                   (hexByte c1 c2 * 256 + hexByte c3 c4) * 256 + hexByte c5 c6).
  { unfold text, hexByte, hexValue. cbn [JsNumber.digitsValue]. lia. }
  assert (Hstrip : match text with
                   | String "#"%char rest => rest
                   | _ => text
                   end = text) by exact (hash_not_hex c1 _ H1).
  unfold hexToRgb. rewrite !Hstrip.
  unfold text. cbv beta iota. fold text.
  change (negb (truthy text)) with false.
  change (negb (JsString.length text =? 6)) with false. cbv iota.
  rewrite (parseInt_hex text Hcap), Hvalue.
  pose proof (hexByte_range c1 c2 H1 H2) as Hr.
  pose proof (hexByte_range c3 c4 H3 H4) as Hg.
  pose proof (hexByte_range c5 c6 H5 H6) as Hb.
  rewrite double_exact by lia.
  destruct (bytes_of (hexByte c1 c2) (hexByte c3 c4) (hexByte c5 c6))
    as (-> & -> & ->); auto using hexByte_range.
Qed.

(** The hash sign before a hexadecimal digit is dropped. *)
Lemma hexToRgb_hash (c : ascii) (rest : string) :
  JsNumber.isRadixDigit 16 c = true ->
  hexToRgb (String "#" (String c rest)) = hexToRgb (String c rest).
Proof.
  intros H. set (text := String c rest).
  assert (Hstrip : match text with
                   | String "#"%char tail => tail
                   | _ => text
                   end = text) by exact (hash_not_hex c _ H).
  unfold hexToRgb. rewrite !Hstrip. reflexivity.
Qed.

(** Three hexadecimal digits are doubled. *)
Lemma hexToRgb_three (c1 c2 c3 : ascii) :
  JsNumber.isRadixDigit 16 c1 = true ->
  hexToRgb (String c1 (String c2 (String c3 EmptyString))) =
  hexToRgb (String c1 (String c1 (String c2 (String c2 (String c3
              (String c3 EmptyString)))))).
Proof.
  intros H.
  set (three := String c1 (String c2 (String c3 EmptyString))).
  set (six := String c1 (String c1 (String c2 (String c2 (String c3
                (String c3 EmptyString)))))).
  assert (Hthree : match three with
                   | String "#"%char tail => tail
                   | _ => three
                   end = three) by exact (hash_not_hex c1 _ H).
  assert (Hsix : match six with
                 | String "#"%char tail => tail
                 | _ => six
                 end = six) by exact (hash_not_hex c1 _ H).
  unfold hexToRgb. rewrite !Hthree, !Hsix. reflexivity.
Qed.

(** X4.  A text of six hexadecimal digits, with or without the hash
    sign before it, decodes to the colour whose components are the
    three bytes the digit pairs spell, each over 255; and a text of
    three hexadecimal digits, with or without the hash sign, decodes
    as the six-digit text that doubles each digit does. *)
Theorem hexToRgb_hex_digits (c1 c2 c3 c4 c5 c6 : ascii) :
  JsNumber.isRadixDigit 16 c1 = true -> JsNumber.isRadixDigit 16 c2 = true ->
  JsNumber.isRadixDigit 16 c3 = true -> JsNumber.isRadixDigit 16 c4 = true ->
  JsNumber.isRadixDigit 16 c5 = true -> JsNumber.isRadixDigit 16 c6 = true ->
  let six :=
    String c1 (String c2 (String c3 (String c4 (String c5
      (String c6 EmptyString))))) in
  let colour :=
    Rgb.mk (inject_Z (hexByte c1 c2) / 255)%Q
           (inject_Z (hexByte c3 c4) / 255)%Q
           (inject_Z (hexByte c5 c6) / 255)%Q in
  hexToRgb six = Some colour /\
  hexToRgb (String "#" six) = Some colour /\
  hexToRgb (String c1 (String c3 (String c5 EmptyString))) =
  hexToRgb (String c1 (String c1 (String c3 (String c3 (String c5
              (String c5 EmptyString)))))) /\
  hexToRgb (String "#" (String c1 (String c3 (String c5 EmptyString)))) =
  hexToRgb (String c1 (String c1 (String c3 (String c3 (String c5
              (String c5 EmptyString)))))).
Proof.
  intros H1 H2 H3 H4 H5 H6 six colour.
  pose proof (hexToRgb_six c1 c2 c3 c4 c5 c6 H1 H2 H3 H4 H5 H6) as Hsix.
  split; [exact Hsix|]. split; [|split].
  - unfold six. now rewrite hexToRgb_hash.
  - now apply hexToRgb_three.
  - rewrite hexToRgb_hash by exact H1. now apply hexToRgb_three.
Qed.

Lemma hexToRgb_hex_digits_witness :
  hexToRgb "1a2B3c" =
  Some (Rgb.mk (inject_Z (hexByte "1" "a") / 255)%Q
               (inject_Z (hexByte "2" "B") / 255)%Q
               (inject_Z (hexByte "3" "c") / 255)%Q).
Proof.
  exact (proj1 (hexToRgb_hex_digits "1" "a" "2" "B" "3" "c"
                  eq_refl eq_refl eq_refl eq_refl eq_refl eq_refl)).
Defined.

End ColourComponents.

(** ** The requests of [batchFormat] *)

Section BatchFormatRequests.

Lemma invalidRange_parse (a1 : string) :
  (invalidRange a1 = true -> parseA1Range a1 = inl (InvalidA1Range a1)) /\
  (invalidRange a1 = false -> exists bounds, parseA1Range a1 = inr bounds).
Proof.
  unfold invalidRange, parseA1Range.
  destruct (Regex.standard a1) as [[[[g1 g2] g3] g4]|]; split;
    try discriminate; try reflexivity.
  intros _. eexists. reflexivity.
Qed.

Lemma fold_left_push {X R : Type} (f : X -> R) (xs : list X) (acc : list R) :
  fold_left (fun requests x => requests ++ [f x]) xs acc = acc ++ map f xs.
Proof.
  revert acc. induction xs as [|x xs IH]; intros acc; simpl.
  - now rewrite app_nil_r.
  - now rewrite IH, <- app_assoc.
Qed.

(** The loop over the cell formats stops at the first range that is
    not valid; otherwise it pushes the request of each format. *)
Lemma forOf_cellFormats (sheetId : Z) (l : list BatchFormat.CellFormat)
    (acc : list Schema.Request) :
  forOf (pushCellFormat sheetId) l acc =
  match find invalidRange (map BatchFormat.range l) with
  | Some a1 => inl (InvalidA1Range a1)
  | None => inr (acc ++ flat_map (cellFormatRequest sheetId) l)
  end.
Proof.
  revert acc. induction l as [|fmt l IH]; intros acc; simpl.
  - now rewrite app_nil_r.
  - unfold pushCellFormat at 1, cellFormatRequest at 1.
    destruct (invalidRange_parse (BatchFormat.range fmt)) as [Hbad Hgood].
    destruct (invalidRange (BatchFormat.range fmt)).
    + now rewrite (Hbad eq_refl).
    + destruct (Hgood eq_refl) as [bounds ->].
      destruct (cellFormatPayload fmt) as [payload fields]. cbn [fst snd].
      destruct (0 <? Z.of_nat (List.length fields)); rewrite IH;
        destruct (find invalidRange (map BatchFormat.range l));
        try reflexivity; now rewrite <- app_assoc.
Qed.

Lemma forOf_merges (sheetId : Z) (l : list string) (acc : list Schema.Request) :
  forOf
    (fun requests mergeRange =>
       match parseA1Range mergeRange with
       | inl e => inl e
       | inr bounds =>
           inr (requests ++
                [Schema.mergeCells (boundsToGridRange sheetId bounds)
                   "MERGE_ALL"])
       end) l acc =
  match find invalidRange l with
  | Some a1 => inl (InvalidA1Range a1)
  | None => inr (acc ++ flat_map (mergeRequest sheetId) l)
  end.
Proof.
  revert acc. induction l as [|a1 l IH]; intros acc; simpl.
  - now rewrite app_nil_r.
  - unfold mergeRequest at 1.
    destruct (invalidRange_parse a1) as [Hbad Hgood].
    destruct (invalidRange a1).
    + now rewrite (Hbad eq_refl).
    + destruct (Hgood eq_refl) as [bounds ->]. rewrite IH.
      destruct (find invalidRange l); [reflexivity|].
      now rewrite <- app_assoc.
Qed.

(** The requests [batchFormat] builds with its loops are the requests
    of the operations, in their order; it builds none when a range is
    not valid, and then fails on the first such range. *)
Lemma batchFormatRequests_eq (sheetId : Z) (operations : BatchFormat.Operations) :
  batchFormatRequests sheetId operations =
  match find invalidRange (batchRanges operations) with
  | Some a1 => inl (InvalidA1Range a1)
  | None => inr (batchRequests sheetId operations)
  end.
Proof.
  unfold batchFormatRequests, batchRanges, batchRequests, forOfOptional.
  destruct operations as [cfs cws rhs hc ms fr fc].
  cbn [BatchFormat.cellFormats BatchFormat.columnWidths BatchFormat.rowHeights
       BatchFormat.hideColumns BatchFormat.merges BatchFormat.freezeRows
       BatchFormat.freezeColumns].
  rewrite find_app.
  assert (Hcf :
    match cfs with
    | Some l => forOf (pushCellFormat sheetId) l []
    | None => inr []
    end =
    match find invalidRange
            (map BatchFormat.range
               (match cfs with Some l => l | None => [] end)) with
    | Some a1 => inl (InvalidA1Range a1)
    | None =>
        inr (flat_map (cellFormatRequest sheetId)
               (match cfs with Some l => l | None => [] end))
    end).
  { destruct cfs as [l|]; [|reflexivity]. now rewrite forOf_cellFormats. }
  rewrite Hcf. clear Hcf.
  destruct (find invalidRange
              (map BatchFormat.range
                 (match cfs with Some l => l | None => [] end)));
    [reflexivity|].
  set (r0 := flat_map (cellFormatRequest sheetId)
               (match cfs with Some l => l | None => [] end)).
  set (r1 := match cws with
             | Some l => fold_left _ l r0
             | None => r0
             end).
  assert (H1 : r1 = r0 ++ map (columnWidthRequest sheetId)
                           (match cws with Some l => l | None => [] end)).
  { unfold r1. destruct cws as [l|]; [|now rewrite app_nil_r].
    apply (fold_left_push (columnWidthRequest sheetId)). }
  set (r2 := match rhs with
             | Some l => fold_left _ l r1
             | None => r1
             end).
  assert (H2 : r2 = r1 ++ map (rowHeightRequest sheetId)
                           (match rhs with Some l => l | None => [] end)).
  { unfold r2. destruct rhs as [l|]; [|now rewrite app_nil_r].
    apply (fold_left_push (rowHeightRequest sheetId)). }
  set (r3 := match hc with Some h => r2 ++ _ | None => r2 end).
  assert (H3 : r3 = r2 ++ match hc with
                          | Some h => [hideColumnsRequest sheetId h]
                          | None => []
                          end).
  { unfold r3. destruct hc as [h|]; [reflexivity | now rewrite app_nil_r]. }
  assert (Hm :
    match ms with
    | Some l =>
        forOf
          (fun requests mergeRange =>
             match parseA1Range mergeRange with
             | inl e => inl e
             | inr bounds =>
                 inr (requests ++
                      [Schema.mergeCells (boundsToGridRange sheetId bounds)
                         "MERGE_ALL"])
             end) l r3
    | None => inr r3
    end =
    match find invalidRange (match ms with Some l => l | None => [] end) with
    | Some a1 => inl (InvalidA1Range a1)
    | None =>
        inr (r3 ++ flat_map (mergeRequest sheetId)
                     (match ms with Some l => l | None => [] end))
    end).
  { destruct ms as [l|]; [apply forOf_merges | now rewrite app_nil_r]. }
  rewrite Hm. clear Hm.
  destruct (find invalidRange (match ms with Some l => l | None => [] end));
    [reflexivity|].
  rewrite H3, H2, H1. unfold freezeRequest.
  destruct fr, fc; cbn [fst snd]; rewrite <- ?app_assoc, ?app_nil_r;
    try reflexivity;
    match goal with
    | |- context [freezeProperties ?a ?b] =>
        destruct (freezeProperties a b) eqn:E
    end; cbn [fst snd]; rewrite <- ?app_assoc; reflexivity.
Qed.

Lemma cellFormatRequests_length (sheetId : Z) (l : list BatchFormat.CellFormat) :
  find invalidRange (map BatchFormat.range l) = None ->
  List.length (flat_map (cellFormatRequest sheetId) l) =
  List.length (filter setsAttribute l).
Proof.
  induction l as [|fmt l IH]; simpl; [reflexivity|].
  destruct (invalidRange_parse (BatchFormat.range fmt)) as [_ Hgood].
  destruct (invalidRange (BatchFormat.range fmt)); [discriminate|].
  intros Hl. rewrite length_app, (IH Hl).
  unfold cellFormatRequest, setsAttribute.
  destruct (Hgood eq_refl) as [bounds ->].
  now destruct (0 <? Z.of_nat (List.length (snd (cellFormatPayload fmt)))).
Qed.

Lemma mergeRequests_length (sheetId : Z) (l : list string) :
  find invalidRange l = None ->
  List.length (flat_map (mergeRequest sheetId) l) = List.length l.
Proof.
  induction l as [|a1 l IH]; simpl; [reflexivity|].
  destruct (invalidRange_parse a1) as [_ Hgood].
  destruct (invalidRange a1); [discriminate|].
  intros Hl. rewrite length_app, (IH Hl). unfold mergeRequest.
  now destruct (Hgood eq_refl) as [bounds ->].
Qed.

(** X5.  [batchFormat] parses the ranges of the cell formats and then
    those of the merges.  When one of them is not a valid A1 range it
    builds no request at all and fails with the error for the first
    such range.  Otherwise it builds the requests of the operations in
    the fixed order cell formats, column widths, row heights, hidden
    columns, merges, freeze: one request for each column width, row
    height and merge, one for the hidden columns and one for the
    freeze when asked, and one for each cell format that sets at least
    one attribute, a cell format that sets none being passed over. *)
Theorem batchFormat_requests_in_order (sheetId : Z)
    (operations : BatchFormat.Operations) :
  (forall a1,
      find invalidRange (batchRanges operations) = Some a1 ->
      batchFormatRequests sheetId operations = inl (InvalidA1Range a1)) /\
  (find invalidRange (batchRanges operations) = None ->
   batchFormatRequests sheetId operations =
     inr (batchRequests sheetId operations) /\
   List.length (batchRequests sheetId operations) =
     (List.length
        (filter setsAttribute
           (match BatchFormat.cellFormats operations with
            | Some l => l | None => [] end)) +
      List.length
        (match BatchFormat.columnWidths operations with
         | Some l => l | None => [] end) +
      List.length
        (match BatchFormat.rowHeights operations with
         | Some l => l | None => [] end) +
      (match BatchFormat.hideColumns operations with
       | Some _ => 1 | None => 0 end) +
      List.length
        (match BatchFormat.merges operations with
         | Some l => l | None => [] end) +
      (match BatchFormat.freezeRows operations,
             BatchFormat.freezeColumns operations with
       | None, None => 0 | _, _ => 1 end))%nat).
Proof.
  split.
  - intros a1 H. now rewrite batchFormatRequests_eq, H.
  - intros H. split; [now rewrite batchFormatRequests_eq, H|].
    unfold batchRanges in H. rewrite find_app in H.
    destruct (find invalidRange
                (map BatchFormat.range
                   (match BatchFormat.cellFormats operations with
                    | Some l => l | None => [] end))) eqn:Hcf;
      [discriminate|].
    unfold batchRequests. rewrite !length_app, !length_map.
    rewrite (cellFormatRequests_length _ _ Hcf), (mergeRequests_length _ _ H).
    unfold freezeRequest.
    destruct (BatchFormat.hideColumns operations),
      (BatchFormat.freezeRows operations),
      (BatchFormat.freezeColumns operations); simpl; lia.
Qed.

Lemma cellFormatRequest_mask (sheetId : Z) (fmt : BatchFormat.CellFormat) :
  Forall maskAgrees (cellFormatRequest sheetId fmt).
Proof.
  unfold cellFormatRequest.
  destruct (parseA1Range (BatchFormat.range fmt)) as [e|bounds]; [constructor|].
  destruct (0 <? Z.of_nat (List.length (snd (cellFormatPayload fmt)))) eqn:E;
    [|constructor].
  constructor; [|constructor]. cbn [maskAgrees].
  rewrite cellFormatPayload_agree in *. split; [reflexivity|].
  intros Hnil. rewrite Hnil in E. discriminate E.
Qed.

Lemma Forall_flat_map_each {X R : Type} (P : R -> Prop) (f : X -> list R)
    (xs : list X) :
  (forall x, Forall P (f x)) -> Forall P (flat_map f xs).
Proof.
  intros H. induction xs as [|x xs IH]; simpl; [constructor|].
  apply Forall_app. split; [apply H | exact IH].
Qed.

Lemma Forall_map_each {X R : Type} (P : R -> Prop) (f : X -> R) (xs : list X) :
  (forall x, P (f x)) -> Forall P (map f xs).
Proof.
  intros H. induction xs as [|x xs IH]; simpl; constructor; auto.
Qed.

(** X6.  In every request [batchFormat] builds, the field mask names
    exactly the attributes the payload populates: the paths of the
    populated cell format attributes (at least one) for a cell format,
    the pixel size for a width or a height, the hidden flag for hidden
    columns, and the frozen counts given for the freeze. *)
Theorem batchFormat_masks (sheetId : Z) (operations : BatchFormat.Operations)
    (requests : list Schema.Request) :
  batchFormatRequests sheetId operations = inr requests ->
  Forall maskAgrees requests.
Proof.
  rewrite batchFormatRequests_eq.
  destruct (find invalidRange (batchRanges operations)); [discriminate|].
  intros [= <-]. unfold batchRequests.
  repeat (apply Forall_app; split).
  - apply Forall_flat_map_each. apply cellFormatRequest_mask.
  - apply Forall_map_each. intros cw. reflexivity.
  - apply Forall_map_each. intros rh. reflexivity.
  - destruct (BatchFormat.hideColumns operations); repeat constructor.
  - apply Forall_flat_map_each. intros a1. unfold mergeRequest.
    destruct (parseA1Range a1); repeat constructor.
  - unfold freezeRequest.
    destruct (BatchFormat.freezeRows operations),
      (BatchFormat.freezeColumns operations); repeat constructor.
Qed.

End BatchFormatRequests.

Lemma batchFormat_requests_in_order_witness :
  batchFormatRequests 7 sampleOperations = inr (batchRequests 7 sampleOperations) /\
  List.length (batchRequests 7 sampleOperations) = 4%nat.
Proof.
  exact (proj2 (batchFormat_requests_in_order 7 sampleOperations) eq_refl).
Defined.

Lemma batchFormat_masks_witness :
  Forall maskAgrees (batchRequests 7 sampleOperations).
Proof.
  exact (batchFormat_masks 7 sampleOperations _ eq_refl).
Defined.

(** ** The calls of [batchFormat] *)

Section BatchFormatCalls.
Context {client : SheetsClient}.

(** X7.  [batchFormat] reads the metadata once and sends at most one
    batch update, after all its requests are built.  It sends nothing
    and fails when no sheet has the title given (or the sheet has no
    identifier), and when building the requests fails; it sends
    nothing and answers the spreadsheet identifier alone when there is
    no request to send; otherwise it sends the requests built in one
    batch update. *)
Theorem batchFormat_calls (spreadsheetId sheetName : string)
    (operations : BatchFormat.Operations) (w : World)
    (metadata : Data.Spreadsheet Rule) :
  answerGet (remote w) spreadsheetId = inr metadata ->
  (match findByTitle metadata sheetName with
   | Some sheet => Data.sheetIdOf sheet = None
   | None => True
   end ->
   batchFormat spreadsheetId sheetName operations w =
   (afterGet spreadsheetId None w, inl (SheetNotFound sheetName))) /\
  (forall sheet sheetId,
      findByTitle metadata sheetName = Some sheet ->
      Data.sheetIdOf sheet = Some sheetId ->
      (forall e,
          batchFormatRequests sheetId operations = inl e ->
          batchFormat spreadsheetId sheetName operations w =
          (afterGet spreadsheetId None w, inl e)) /\
      (batchFormatRequests sheetId operations = inr [] ->
       batchFormat spreadsheetId sheetName operations w =
       (afterGet spreadsheetId None w, inr (OnlySpreadsheetId spreadsheetId))) /\
      (forall requests,
          batchFormatRequests sheetId operations = inr requests ->
          requests <> [] ->
          calls (fst (batchFormat spreadsheetId sheetName operations w)) =
          calls w ++ [SpreadsheetsGet spreadsheetId None;
                      SpreadsheetsBatchUpdate spreadsheetId requests])).
Proof.
  intros Hget.
  assert (Hrun :
    forall k : Data.Spreadsheet Rule -> M Thrown (BatchUpdateResult ResponseData),
    bind (tryCatch (getSpreadsheetMetadata spreadsheetId) ThrownUser) k w =
    k metadata (afterGet spreadsheetId None w)).
  { intros k. unfold bind, tryCatch.
    now rewrite getSpreadsheetMetadata_run, Hget. }
  unfold batchFormat. split.
  - intros Hnone. unfold tryCatch at 1. rewrite Hrun.
    destruct (findByTitle metadata sheetName) as [sheet|]; [|reflexivity].
    now rewrite Hnone.
  - intros sheet sheetId Hfind Hid. repeat split.
    + intros e He. unfold tryCatch at 1. rewrite Hrun, Hfind, Hid.
      unfold bind, lift. now rewrite He.
    + intros He. unfold tryCatch at 1. rewrite Hrun, Hfind, Hid.
      unfold bind, lift. now rewrite He.
    + intros requests He Hne. unfold tryCatch at 1. rewrite Hrun, Hfind, Hid.
      unfold bind at 1, lift. rewrite He.
      destruct requests as [|r requests]; [contradiction|].
      cbn [List.length Z.of_nat Z.eqb].
      unfold bind, tryCatch, spreadsheets_batchUpdate, ret, afterGet.
      cbn [remote calls].
      destruct (answerBatchUpdate (remote w) spreadsheetId (r :: requests))
        as [remote' [e|answer]]; cbn [fst calls]; now rewrite <- app_assoc.
Qed.

End BatchFormatCalls.

Lemma batchFormat_calls_witness :
  calls (fst (batchFormat (client := memoryClient) "doc" "Data" sampleOperations
                (mkWorld (client := memoryClient) twoSheets []))) =
  [] ++ [SpreadsheetsGet "doc" None;
         SpreadsheetsBatchUpdate "doc" (batchRequests 7 sampleOperations)].
Proof.
  destruct (batchFormat_calls (client := memoryClient) "doc" "Data"
              sampleOperations (mkWorld (client := memoryClient) twoSheets [])
              twoSheets eq_refl) as [_ H].
  destruct (H _ 7 eq_refl eq_refl) as (_ & _ & Hsend).
  apply Hsend; [reflexivity | discriminate].
Defined.

(** ** Deleting rows *)

Section DeleteRows.
Context {client : SheetsClient}.

(** X8.  [deleteRows] sends a range exactly when a sheet with the
    title given has an identifier and [1 <= startRow <= endRow]; the
    range is then the rows of that sheet from the difference, as the
    code computes it, of [startRow] and 1 to [endRow] exclusive.  For
    an end row up to 2^53 the difference is exact: the range starts
    at [startRow - 1], a non-negative index, and holds as many rows
    as the tool reports deleted, at least one.  A missing sheet is
    reported before a bad row number, and a row number below 1 before
    a start above the end. *)
Theorem deleteRows_range (metadata : Data.Spreadsheet Rule) (sheetName : string)
    (startRow endRow : Z) :
  (forall range,
      deleteRowsRange metadata sheetName startRow endRow = inr range <->
      exists sheet sheetId,
        findByTitle metadata sheetName = Some sheet /\
        Data.sheetIdOf sheet = Some sheetId /\
        1 <= startRow <= endRow /\
        range = Schema.mkDimensionRange sheetId ROWS
                  (JsNumber.sub startRow 1) endRow) /\
  (forall range,
      deleteRowsRange metadata sheetName startRow endRow = inr range ->
      endRow <= 2 ^ 53 ->
      Schema.startIndex range = startRow - 1 /\
      Schema.endIndex range = endRow /\
      0 <= Schema.startIndex range /\
      Schema.endIndex range - Schema.startIndex range =
        deletedRowCount startRow endRow /\
      1 <= deletedRowCount startRow endRow) /\
  ((forall sheet, findByTitle metadata sheetName = Some sheet ->
                  Data.sheetIdOf sheet = None) ->
   deleteRowsRange metadata sheetName startRow endRow =
   inl (RowsSheetNotFound sheetName)) /\
  (forall sheet sheetId,
      findByTitle metadata sheetName = Some sheet ->
      Data.sheetIdOf sheet = Some sheetId ->
      (startRow < 1 \/ endRow < 1 ->
       deleteRowsRange metadata sheetName startRow endRow =
       inl RowNumbersNotOneBased) /\
      (1 <= startRow -> 1 <= endRow -> endRow < startRow ->
       deleteRowsRange metadata sheetName startRow endRow =
       inl StartRowAfterEndRow)).
Proof.
  assert (Hrange : forall range,
    deleteRowsRange metadata sheetName startRow endRow = inr range ->
    exists sheet sheetId,
      findByTitle metadata sheetName = Some sheet /\
      Data.sheetIdOf sheet = Some sheetId /\
      1 <= startRow <= endRow /\
      range = Schema.mkDimensionRange sheetId ROWS
                (JsNumber.sub startRow 1) endRow).
  { intros range. unfold deleteRowsRange.
    destruct (findByTitle metadata sheetName) as [sheet|]; [|discriminate].
    destruct (Data.sheetIdOf sheet) as [sheetId|] eqn:Eid; [|discriminate].
    destruct (startRow <? 1) eqn:E1; [discriminate|].
    destruct (endRow <? 1) eqn:E2; [discriminate|].
    destruct (startRow >? endRow) eqn:E3; [discriminate|].
    cbn [orb]. intros [= <-]. exists sheet, sheetId.
    apply Z.ltb_ge in E1. rewrite Z.gtb_ltb in E3. apply Z.ltb_ge in E3.
    repeat split; try assumption; lia. }
  assert (Hfound : forall sheet sheetId,
    findByTitle metadata sheetName = Some sheet ->
    Data.sheetIdOf sheet = Some sheetId ->
    deleteRowsRange metadata sheetName startRow endRow =
    if (startRow <? 1) || (endRow <? 1) then inl RowNumbersNotOneBased
    else if startRow >? endRow then inl StartRowAfterEndRow
    else inr (Schema.mkDimensionRange sheetId ROWS
                (JsNumber.sub startRow 1) endRow)).
  { intros sheet sheetId Hfind Hid. unfold deleteRowsRange.
    now rewrite Hfind, Hid. }
  split; [|split; [|split]].
  - intros range. split; [apply Hrange|].
    intros (sheet & sheetId & Hfind & Hid & Hrows & ->).
    rewrite (Hfound sheet sheetId Hfind Hid).
    destruct (startRow <? 1) eqn:E1; [apply Z.ltb_lt in E1; lia|].
    destruct (endRow <? 1) eqn:E2; [apply Z.ltb_lt in E2; lia|].
    destruct (startRow >? endRow) eqn:E3; [apply Z.gtb_lt in E3; lia|].
    reflexivity.
  - intros range H Hbound.
    destruct (Hrange range H) as (sheet & sheetId & _ & _ & Hrows & ->).
    unfold deletedRowCount. cbn [Schema.startIndex Schema.endIndex].
    rewrite !sub_exact by lia. rewrite add_exact by lia. lia.
  - intros Hnone. unfold deleteRowsRange.
    destruct (findByTitle metadata sheetName) as [sheet|]; [|reflexivity].
    now rewrite (Hnone sheet eq_refl).
  - intros sheet sheetId Hfind Hid. rewrite (Hfound sheet sheetId Hfind Hid).
    split.
    + intros Hlow.
      destruct (startRow <? 1) eqn:E1; [reflexivity|].
      destruct (endRow <? 1) eqn:E2; [reflexivity|].
      apply Z.ltb_ge in E1. apply Z.ltb_ge in E2. lia.
    + intros Hs He Hlt.
      destruct (startRow <? 1) eqn:E1; [apply Z.ltb_lt in E1; lia|].
      destruct (endRow <? 1) eqn:E2; [apply Z.ltb_lt in E2; lia|].
      destruct (startRow >? endRow) eqn:E3; [reflexivity|].
      rewrite Z.gtb_ltb in E3. apply Z.ltb_ge in E3. lia.
Qed.

End DeleteRows.

Lemma deleteRows_range_witness :
  deleteRowsRange (client := memoryClient) twoSheets "Data" 3 5 =
  inr (Schema.mkDimensionRange 7 ROWS 2 5).
Proof.
  apply (proj1 (deleteRows_range (client := memoryClient) twoSheets "Data" 3 5)).
  eexists _, 7. repeat split; try reflexivity; lia.
Defined.

(** From 2^53 on the start index is rounded: the one row
    9007199254740994 gives a range of two rows. *)
Example deleteRows_rounded_start :
  deleteRowsRange (client := memoryClient) twoSheets "Data"
    9007199254740994 9007199254740994 =
  inr (Schema.mkDimensionRange 7 ROWS 9007199254740992 9007199254740994) /\
  deletedRowCount 9007199254740994 9007199254740994 = 1.
Proof. split; reflexivity. Qed.

(** ** Reading and clearing conditional-format rules *)

Section ReadRules.
Context {client : SheetsClient}.

Lemma collectRules_entries (sheets : list (Data.Sheet Rule)) (sheetId : option Z)
    (results : list (SheetRules.t Rule)) :
  collectRules sheets sheetId results =
  results ++ flat_map (entryOf sheetId) sheets.
Proof.
  revert results. induction sheets as [|sheet rest IH]; intros results; simpl.
  - now rewrite app_nil_r.
  - unfold entryOf at 1, rulesOf.
    destruct (Data.sheetIdOf sheet) as [current|]; destruct sheetId as [wanted|];
      try (destruct (current =? wanted)); cbn [negb]; rewrite IH;
      cbn [app]; rewrite <- ?app_assoc; reflexivity.
Qed.

Lemma entryOf_sheetId (wanted : Z) (sheet : Data.Sheet Rule) :
  Forall (fun e => SheetRules.sheetId e = wanted) (entryOf (Some wanted) sheet).
Proof.
  unfold entryOf. destruct (Data.sheetIdOf sheet) as [current|]; [|constructor].
  destruct (current =? wanted) eqn:E; [|constructor].
  apply Z.eqb_eq in E. repeat constructor. exact E.
Qed.

(** X9.  [getConditionalFormatRules] only reads.  It answers, in the
    order of the sheets, one entry for each sheet that has an
    identifier, with the sheet's title (Unknown when it has none) and
    its rules (none when it has no list of rules); asked for one
    identifier, it answers the entries of the sheets with that
    identifier only. *)
Theorem getConditionalFormatRules_entries (spreadsheetId : string)
    (sheetId : option Z) (w : World) (data : Data.Spreadsheet Rule) :
  answerGet (remote w) spreadsheetId = inr data ->
  getConditionalFormatRules spreadsheetId sheetId w =
  (afterGet spreadsheetId (Some rulesFields) w,
   inr (flat_map (entryOf sheetId) (sheetsOf data))) /\
  (forall wanted,
      sheetId = Some wanted ->
      Forall (fun e => SheetRules.sheetId e = wanted)
        (flat_map (entryOf sheetId) (sheetsOf data))) /\
  (List.length (flat_map (entryOf sheetId) (sheetsOf data)) <=
   List.length (sheetsOf data))%nat.
Proof.
  intros Hget. split; [|split].
  - unfold getConditionalFormatRules, tryCatch, bind, ret, spreadsheets_get,
      afterGet.
    rewrite Hget. fold (sheetsOf data).
    now rewrite collectRules_entries.
  - intros wanted ->. induction (sheetsOf data) as [|sheet l IH]; simpl;
      [constructor|].
    apply Forall_app. split; [apply entryOf_sheetId | exact IH].
  - induction (sheetsOf data) as [|sheet l IH]; simpl; [lia|].
    rewrite length_app.
    assert (List.length (entryOf sheetId sheet) <= 1)%nat.
    { unfold entryOf. destruct (Data.sheetIdOf sheet); [|simpl; lia].
      match goal with |- context [if ?b then _ else _] => destruct b end;
        simpl; lia. }
    lia.
Qed.

(** X10.  [clearConditionalFormatRules] sends nothing when there is
    nothing to clear: when the read fails it fails with the error of
    the read, and when no sheet carries the identifier, or the first
    that does has no rule, it answers the spreadsheet identifier
    alone; in each case the read is its only call. *)
Theorem clearConditionalFormatRules_nothing (spreadsheetId : string)
    (sheetId : Z) (w : World) :
  (forall e,
      answerGet (remote w) spreadsheetId = inl e ->
      clearConditionalFormatRules spreadsheetId sheetId w =
      (afterGet spreadsheetId (Some rulesFields) w,
       inl (onApiError "get conditional format rules" spreadsheetId e))) /\
  (forall data,
      answerGet (remote w) spreadsheetId = inr data ->
      match find (hasSheetId sheetId) (sheetsOf data) with
      | Some sheet => rulesOf sheet = []
      | None => True
      end ->
      clearConditionalFormatRules spreadsheetId sheetId w =
      (afterGet spreadsheetId (Some rulesFields) w,
       inr (OnlySpreadsheetId spreadsheetId))).
Proof.
  split.
  - intros e Hget.
    unfold clearConditionalFormatRules, getConditionalFormatRules.
    unfold tryCatch, bind, ret, spreadsheets_get, afterGet.
    now rewrite Hget.
  - intros data Hget Hrules.
    pose proof (collectRules_find (sheetsOf data) sheetId [] eq_refl) as Hc.
    unfold clearConditionalFormatRules, getConditionalFormatRules.
    unfold tryCatch, bind, ret, spreadsheets_get, afterGet.
    rewrite Hget. fold (sheetsOf data).
    destruct (find (fun s => SheetRules.sheetId s =? sheetId)
                (collectRules (sheetsOf data) (Some sheetId) []))
      as [sheetRules|].
    + destruct (find (hasSheetId sheetId) (sheetsOf data)) as [sheet|];
        [|discriminate Hc].
      simpl in Hc. injection Hc as Hc. now rewrite Hc, Hrules.
    + reflexivity.
Qed.

End ReadRules.

Lemma getConditionalFormatRules_entries_witness :
  snd (getConditionalFormatRules (client := memoryClient) "doc" (Some 7)
         (mkWorld (client := memoryClient) twoSheets [])) =
  inr [SheetRules.mk 7 "Data" [tt; tt; tt]].
Proof.
  destruct (getConditionalFormatRules_entries (client := memoryClient)
              "doc" (Some 7) (mkWorld (client := memoryClient) twoSheets [])
              twoSheets eq_refl) as [H _].
  now rewrite H.
Defined.

Lemma clearConditionalFormatRules_nothing_witness :
  clearConditionalFormatRules (client := memoryClient) "doc" 0
    (mkWorld (client := memoryClient) twoSheets []) =
  (afterGet (client := memoryClient) "doc" (Some rulesFields)
     (mkWorld (client := memoryClient) twoSheets []),
   inr (OnlySpreadsheetId "doc")).
Proof.
  destruct (clearConditionalFormatRules_nothing (client := memoryClient)
              "doc" 0 (mkWorld (client := memoryClient) twoSheets []))
    as [_ H].
  apply (H twoSheets); reflexivity.
Defined.

(** ** Files of an Apps Script project *)

Section ScriptFiles.
Import Script.
Context {Other : Type}.

Lemma mapFiles_spec (fileName newSource : string) (files : list (Script.File Other))
    (fileFound : bool) :
  mapFiles fileName newSource files fileFound =
  (map (resend fileName newSource) files,
   fileFound || existsb (named fileName) files).
Proof.
  revert fileFound. induction files as [|file rest IH]; intros fileFound; simpl.
  - now rewrite orb_false_r.
  - unfold resend at 1. destruct (named fileName file); rewrite IH; simpl.
    + now rewrite orb_true_r.
    + reflexivity.
Qed.

Lemma updatedFiles_spec (files : option (list (Script.File Other))) (fileName newSource : string)
    (fileType : option FileType) :
  let given := match files with Some l => l | None => [] end in
  updatedFiles files fileName newSource fileType =
  map (resend fileName newSource) given ++
  (if existsb (named fileName) given then []
   else [mkFile (Some fileName)
           (Some (fileTypeName
                    (match fileType with Some t => t | None => SERVER_JS end)))
           (Some newSource) None]).
Proof.
  intros given. unfold updatedFiles. fold given.
  rewrite mapFiles_spec. cbn [orb].
  destruct (existsb (named fileName) given); cbn [negb].
  - now rewrite app_nil_r.
  - reflexivity.
Qed.

Lemma named_resend (other fileName newSource : string) (file : Script.File Other) :
  named other (resend fileName newSource file) = named other file.
Proof. unfold resend. now destruct (named fileName file). Qed.

Lemma named_eq (fileName : string) (file : Script.File Other) :
  named fileName file = true <-> name file = Some fileName.
Proof.
  unfold named. destruct (name file) as [text|]; [|split; discriminate].
  rewrite String.eqb_eq. split; [now intros -> | now intros [= ->]].
Qed.

Lemma find_resend (other fileName newSource : string) (files : list (Script.File Other)) :
  find (named other) (map (resend fileName newSource) files) =
  option_map (resend fileName newSource) (find (named other) files).
Proof.
  induction files as [|file rest IH]; simpl; [reflexivity|].
  rewrite named_resend. now destruct (named other file).
Qed.

Lemma find_existsb (p : Script.File Other -> bool) (files : list (Script.File Other)) :
  existsb p files = match find p files with Some _ => true | None => false end.
Proof.
  induction files as [|file rest IH]; simpl; [reflexivity|].
  now destruct (p file).
Qed.

Lemma find_app_none (p : Script.File Other -> bool) (l l' : list (Script.File Other)) :
  find p l = None -> find p (l ++ l') = find p l'.
Proof.
  induction l as [|file rest IH]; simpl; [reflexivity|].
  destruct (p file); [discriminate | exact IH].
Qed.

Lemma find_app_some (p : Script.File Other -> bool) (l l' : list (Script.File Other)) (file : Script.File Other) :
  find p l = Some file -> find p (l ++ l') = Some file.
Proof.
  induction l as [|first rest IH]; simpl; [discriminate|].
  destruct (p first); [trivial | exact IH].
Qed.

Lemma orElse_empty (text : string) : orElse (Some text) "" = text.
Proof. now destruct text. Qed.

Lemma orElse_fileTypeName (t : FileType) (fallback : string) :
  orElse (Some (fileTypeName t)) fallback = fileTypeName t.
Proof. now destruct t. Qed.

(** X11.  What [updateScriptFile] sends, read back by [getScriptFile]:
    the file of that name is there with the new source, with the type
    it had if it existed (the requested type, by default SERVER_JS,
    if it did not); every other name reads as it did before; and the
    list grows by one file exactly when the name was not there. *)
Theorem updateScriptFile_getScriptFile (files : option (list (Script.File Other)))
    (fileName newSource : string) (fileType : option FileType) :
  let sent := updatedFiles files fileName newSource fileType in
  selectedFile (Some sent) fileName =
    Some (mkSource (orElse (Some fileName) "Unknown")
            (match selectedFile files fileName with
             | Some old => sourceType old
             | None =>
                 fileTypeName
                   (match fileType with Some t => t | None => SERVER_JS end)
             end)
            newSource) /\
  (forall other,
      other <> fileName ->
      selectedFile (Some sent) other = selectedFile files other) /\
  List.length sent =
    (List.length (match files with Some l => l | None => [] end) +
     match selectedFile files fileName with Some _ => 0 | None => 1 end)%nat.
Proof.
  intros sent. subst sent. rewrite updatedFiles_spec.
  set (given := match files with Some l => l | None => [] end).
  unfold selectedFile. fold given. rewrite find_existsb.
  repeat apply conj.
  - destruct (find (named fileName) given) as [file|] eqn:Efind.
    + rewrite app_nil_r, find_resend, Efind. cbn [option_map].
      apply find_some in Efind as [_ Hnamed].
      unfold resend. rewrite Hnamed. cbn [withSource name type source sourceType].
      apply named_eq in Hnamed. rewrite Hnamed.
      now rewrite orElse_empty.
    + rewrite find_app_none by now rewrite find_resend, Efind.
      cbn [find]. unfold named at 1. cbn [name]. rewrite String.eqb_refl.
      cbn [name type source].
      now rewrite orElse_empty, orElse_fileTypeName.
  - intros other Hother.
    assert (Hnew : forall l : list (Script.File Other),
               find (named other)
                 (if existsb (named fileName) l then []
                  else [mkFile (Other := Other) (Some fileName)
                          (Some (fileTypeName
                                   (match fileType with
                                    | Some t => t | None => SERVER_JS end)))
                          (Some newSource) None]) = None).
    { intros l. destruct (existsb (named fileName) l); [reflexivity|].
      cbn [find]. unfold named. cbn [name].
      destruct (String.eqb_spec fileName other) as [E|_];
        [now elim Hother | reflexivity]. }
    rewrite <- find_existsb.
    destruct (find (named other) given) as [file|] eqn:Efind.
    + erewrite find_app_some
        by (rewrite find_resend, Efind; reflexivity).
      apply find_some in Efind as [_ Hnamed].
      unfold resend.
      destruct (named fileName file) eqn:Hsame; [|reflexivity].
      apply named_eq in Hnamed. apply named_eq in Hsame.
      rewrite Hnamed in Hsame. injection Hsame as Hsame. now elim Hother.
    + rewrite find_app_none by now rewrite find_resend, Efind.
      now rewrite Hnew.
  - rewrite length_app, length_map.
    now destruct (find (named fileName) given).
Qed.

(** X12.  The list [updateScriptFile] sends keeps the names of the
    files and their order, so [listScriptFiles] lists the names it
    listed, and after them the new name if there was no file of the
    name; every file of the name, not only the first, carries the new
    source; and sending the same name and source again, with any
    type, changes nothing more. *)
Theorem updateScriptFile_again (files : option (list (Script.File Other)))
    (fileName newSource : string) (fileType again : option FileType) :
  let given := match files with Some l => l | None => [] end in
  let sent := updatedFiles files fileName newSource fileType in
  map name sent =
    map name given ++
    (if existsb (named fileName) given then [] else [Some fileName]) /\
  Forall (fun file => named fileName file = true ->
                      source file = Some newSource) sent /\
  existsb (named fileName) sent = true /\
  updatedFiles (Some sent) fileName newSource again = sent /\
  map listedName (listedFiles (Some sent)) =
    map listedName (listedFiles files) ++
    (if existsb (named fileName) given then []
     else [orElse (Some fileName) "Unknown"]).
Proof.
  intros given sent.
  assert (Hsent : sent =
    map (resend fileName newSource) given ++
    (if existsb (named fileName) given then []
     else [mkFile (Some fileName)
             (Some (fileTypeName
                      (match fileType with Some t => t | None => SERVER_JS end)))
             (Some newSource) None])).
  { subst sent given. apply updatedFiles_spec. }
  assert (Hnames : forall l : list (Script.File Other),
             map name (map (resend fileName newSource) l) = map name l).
  { intros l. rewrite map_map. apply map_ext. intros file.
    unfold resend. now destruct (named fileName file). }
  assert (Hall : Forall (fun file => named fileName file = true ->
                                     source file = Some newSource) sent).
  { rewrite Hsent. apply Forall_app. split.
    - apply Forall_forall. intros file Hin.
      apply in_map_iff in Hin as (old & <- & _).
      rewrite named_resend. intros Hnamed. unfold resend. now rewrite Hnamed.
    - destruct (existsb (named fileName) given); now repeat constructor. }
  assert (Hthere : existsb (named fileName) sent = true).
  { rewrite Hsent, existsb_app.
    destruct (existsb (named fileName) given) eqn:E.
    - apply orb_true_iff. left.
      apply existsb_exists in E as (file & Hin & Hnamed).
      apply existsb_exists. exists (resend fileName newSource file).
      split; [now apply in_map | now rewrite named_resend].
    - apply orb_true_iff. right. cbn. unfold named. cbn.
      now rewrite String.eqb_refl. }
  repeat apply conj; trivial.
  - rewrite Hsent, map_app, Hnames.
    now destruct (existsb (named fileName) given).
  - rewrite updatedFiles_spec. cbv zeta. rewrite Hthere, app_nil_r.
    clear Hsent Hthere. induction Hall as [|file rest Hfile _ IH];
      [reflexivity|].
    cbn [map]. rewrite IH. f_equal.
    unfold resend. destruct (named fileName file); [|reflexivity].
    destruct file as [n t s o]. unfold withSource. cbn in *.
    now rewrite Hfile.
  - unfold listedFiles. fold given. rewrite Hsent, !map_app, !map_map.
    f_equal.
    + apply map_ext. intros file. unfold resend.
      now destruct (named fileName file).
    + now destruct (existsb (named fileName) given).
Qed.

End ScriptFiles.

(** ** The range parsers side by side *)

Section RangeParsers.
Import JsString.

(** A text the rectangle pattern matches has neither of the two band
    shapes. *)
Lemma standard_shapes (a1 g1 g2 : string) (g3 g4 : option string) :
  Regex.standard a1 = Some (g1, g2, g3, g4) ->
  Regex.rowOnly a1 = None /\ Regex.colOnly a1 = None.
Proof.
  intros H. unfold Regex.standard in H.
  destruct (Regex.plus isLetter a1) as [[a rest1]|] eqn:E1; [|discriminate].
  destruct (Regex.plus isDigit rest1) as [[b rest2]|] eqn:E2;
    [|discriminate].
  clear H. split.
  - apply plus_spec in E1 as (-> & Hl & Ht).
    destruct (captured_head isLetter a (conj Hl Ht)) as (c & rest & -> & Hc).
    unfold Regex.rowOnly. cbn [append].
    now rewrite plus_none by (now apply letter_not_digit).
  - unfold Regex.colOnly. rewrite E1.
    apply plus_spec in E2 as (-> & Hd & Ht).
    destruct (captured_head isDigit b (conj Hd Ht)) as (c & rest & -> & Hc).
    cbn [append].
    destruct c as [[] [] [] [] [] [] [] []]; try discriminate Hc; reflexivity.
Qed.

Lemma corners_standard (a1 g1 g2 g3 g4 : string) :
  Pattern.corners a1 = Some (g1, g2, g3, g4) ->
  Regex.standard a1 = Some (g1, g2, Some g3, Some g4).
Proof.
  unfold Pattern.corners, Regex.standard.
  destruct (Regex.plus isLetter a1) as [[a rest1]|]; [|discriminate].
  destruct (Regex.plus isDigit rest1) as [[b [|c rest2]]|]; try discriminate.
  destruct (Ascii.eqb_spec c ":") as [->|Hc].
  - destruct (Regex.plus isLetter rest2) as [[a' rest3]|]; [|discriminate].
    destruct (Regex.plus isDigit rest3) as [[b' [|c' rest4]]|];
      try discriminate.
    now intros [= <- <- <- <-].
  - destruct c as [[] [] [] [] [] [] [] []]; try discriminate;
      now elim Hc.
Qed.

Lemma cell_corners (a1 g1 g2 : string) :
  Pattern.cell a1 = Some (g1, g2) -> Pattern.corners a1 = None.
Proof.
  unfold Pattern.cell, Pattern.corners.
  destruct (Regex.plus isLetter a1) as [[a rest1]|]; [|discriminate].
  destruct (Regex.plus isDigit rest1) as [[b [|c rest2]]|]; try discriminate.
  reflexivity.
Qed.

(** Taking 1 from a row number and adding it again gives the number
    when what is left lies below 2^53. *)
Lemma add_sub_one (n : Z) :
  0 <= n -> JsNumber.sub n 1 < 2 ^ 53 ->
  JsNumber.add (JsNumber.sub n 1) 1 = n.
Proof.
  intros Hn Hb. destruct (Z_le_gt_dec (n - 1) (2 ^ 53)) as [H|H].
  - rewrite sub_exact in * by lia. rewrite add_exact by lia. lia.
  - pose proof (double_large (n - 1)). unfold JsNumber.sub in Hb. lia.
Qed.

Lemma parseA1Range_gridRange (a1 : string) (sheetId : Z) (b : A1Bounds) :
  parseA1Range a1 = inr b ->
  endRow b < 2 ^ 53 ->
  parseA1ToGridRange a1 sheetId = inr (boundsToGridRange sheetId b).
Proof.
  unfold parseA1Range.
  destruct (Regex.standard a1) as [[[[g1 g2] g3] g4]|] eqn:E; [|discriminate].
  intros [= <-]. cbn [endRow]. intros Hbound.
  destruct (standard_shapes _ _ _ _ _ E) as [Hrow Hcol].
  destruct (standard_spec _ _ _ _ _ E) as (_ & _ & H3 & H4 & _).
  unfold parseA1ToGridRange. rewrite Hrow, Hcol, E.
  unfold boundsToGridRange. cbn [startRow endRow startCol endCol].
  f_equal. f_equal.
  - unfold ifGroup in *. destruct g4 as [t4|]; [|reflexivity].
    destruct (parseInt_digits t4 H4) as (_ & _ & Hpos).
    destruct H4 as [_ Ht]. rewrite Ht in *.
    now rewrite add_sub_one.
  - unfold ifGroup. destruct g3 as [t3|]; [|reflexivity].
    now destruct (truthy t3).
Qed.

(** X13.  The three parsers of a rectangle agree, for row numbers up
    to 2^53.  A text the parser of [batchFormat] accepts,
    [parseA1ToGridRange] accepts too, and gives the grid range
    [batchFormat] builds from its bounds when the end row of these
    bounds lies below 2^53; a text the tool
    [addConditionalFormatRule] accepts, both accept, the range its
    helper sends is the grid range of [parseA1ToGridRange], and that
    of [batchFormat] too when its end row is 2^53 at most.  The tool
    rejects a single cell, which the two others accept; and
    [batchFormat] rejects the whole rows and whole columns that
    [parseA1ToGridRange] accepts. *)
Theorem range_parsers_agree (a1 : string) (sheetId : Z) :
  (forall b,
      parseA1Range a1 = inr b ->
      endRow b < 2 ^ 53 ->
      parseA1ToGridRange a1 sheetId = inr (boundsToGridRange sheetId b)) /\
  (forall r,
      ruleRange a1 = Some r ->
      parseA1ToGridRange a1 sheetId = inr (ruleGridRange sheetId r) /\
      exists b,
        parseA1Range a1 = inr b /\
        (RuleRange.endRowIndex r <= 2 ^ 53 ->
         boundsToGridRange sheetId b = ruleGridRange sheetId r)) /\
  (forall cell,
      a1ToRowCol a1 = Some cell ->
      ruleRange a1 = None /\ exists b, parseA1Range a1 = inr b) /\
  (forall g,
      parseA1ToGridRange a1 sheetId = inr g ->
      startRowIndex g = None \/ startColumnIndex g = None ->
      parseA1Range a1 = inl (InvalidA1Range a1)).
Proof.
  repeat apply conj.
  - intros b. apply parseA1Range_gridRange.
  - intros r Hr. unfold ruleRange in Hr.
    destruct (Pattern.corners a1) as [[[[g1 g2] g3] g4]|] eqn:E;
      [|discriminate].
    injection Hr as <-. apply corners_standard in E.
    destruct (standard_shapes _ _ _ _ _ E) as [Hrow Hcol].
    destruct (standard_spec _ _ _ _ _ E) as (_ & _ & [_ H3] & H4 & _).
    destruct (parseInt_digits g4 H4) as (_ & _ & Hpos).
    destruct H4 as [_ H4].
    split.
    + unfold parseA1ToGridRange. rewrite Hrow, Hcol, E.
      unfold ifGroup. rewrite H3, H4. reflexivity.
    + unfold parseA1Range. rewrite E. eexists. split; [reflexivity|].
      unfold boundsToGridRange, ruleGridRange, ifGroup.
      cbn [startRow endRow startCol endCol RuleRange.startRowIndex
           RuleRange.endRowIndex RuleRange.startColumnIndex
           RuleRange.endColumnIndex].
      rewrite H3, H4. intros Hbound.
      rewrite (sub_exact (parseRow g4)) by lia.
      rewrite (add_exact (parseRow g4 - 1)) by lia.
      repeat f_equal. lia.
  - intros cell Hcell. unfold a1ToRowCol in Hcell.
    destruct (Pattern.cell a1) as [[g1 g2]|] eqn:E; [|discriminate].
    split.
    + unfold ruleRange. now rewrite (cell_corners _ _ _ E).
    + destruct (cell_shapes _ _ _ E) as (_ & _ & Hs).
      unfold parseA1Range. rewrite Hs. eexists. reflexivity.
  - intros g Hg Hband. unfold parseA1Range.
    destruct (Regex.standard a1) as [[[[g1 g2] g3] g4]|] eqn:E;
      [|reflexivity].
    destruct (standard_shapes _ _ _ _ _ E) as [Hrow Hcol].
    unfold parseA1ToGridRange in Hg. rewrite Hrow, Hcol, E in Hg.
    injection Hg as <-. cbn in Hband. destruct Hband; discriminate.
Qed.

(** From 2^53 on the end rows differ: [parseA1ToGridRange] sends the
    row number read, [batchFormat] the sum of the rounded index and 1. *)
Example range_parsers_rounded_row :
  parseA1ToGridRange "A1:A9007199254740994" 0 =
  inr (mkGridRange 0 (Some 0) (Some 9007199254740994) (Some 0) (Some 1)) /\
  exists b,
    parseA1Range "A1:A9007199254740994" = inr b /\
    boundsToGridRange 0 b =
    mkGridRange 0 (Some 0) (Some 9007199254740992) (Some 0) (Some 1).
Proof. split; [reflexivity|]. eexists. split; reflexivity. Qed.

End RangeParsers.

Lemma range_parsers_agree_witness :
  parseA1ToGridRange "b2:D10" 7 =
  inr (mkGridRange 7 (Some 1) (Some 10) (Some 1) (Some 4)).
Proof.
  destruct (range_parsers_agree "b2:D10" 7) as (_ & H & _).
  destruct (H (RuleRange.mk 1 10 1 4) eq_refl) as [Hg _]. exact Hg.
Defined.

(** ** The requests of the table-cell editor, as a batch *)

Section TableCellBatch.
Import Docs.
Context {helpers : StyleHelpers}.

Lemma length_nonneg (text : string) : 0 <= JsString.length text.
Proof. unfold JsString.length. lia. Qed.

Lemma length_zero (text : string) :
  JsString.length text = 0 <-> text = EmptyString.
Proof.
  unfold JsString.length. destruct text; simpl; split; try easy; lia.
Qed.

(** X14.  The batch of the editor is ordered and small: the requests
    come as deletion, insertion, character style, paragraph style, at
    most one of each, so at most four.  A character-style request is
    only ever built for a span that is not empty, from the start of
    the cell to the end of the new text; and without a replacement
    text there is neither a deletion nor an insertion. *)
Theorem editTableCell_batch_order (cellRange : CellRange) (args : Args) :
  let b := buildRequests cellRange args in
  let emitted := requests b in
  emitted =
    filter isDelete emitted ++ filter isInsert emitted ++
    filter isTextStyle emitted ++ filter isParagraphStyle emitted /\
  (List.length (filter isDelete emitted) <= 1)%nat /\
  (List.length (filter isInsert emitted) <= 1)%nat /\
  (List.length (filter isTextStyle emitted) <= 1)%nat /\
  (List.length (filter isParagraphStyle emitted) <= 1)%nat /\
  (forall request,
      In (updateTextStyle request) emitted ->
      startIndex cellRange < newTextEnd b /\
      exists style,
        textStyle args = Some style /\
        buildUpdateTextStyleRequest (startIndex cellRange) (newTextEnd b)
          style (tabId args) = Some request) /\
  (textContent args = None ->
   filter isDelete emitted = [] /\ filter isInsert emitted = []).
Proof.
  intros b emitted. subst emitted b. rewrite buildRequests_spec.
  cbn [requests newTextEnd].
  set (newEnd := match textContent args with
                 | Some text => startIndex cellRange + JsString.length text
                 | None => endIndex cellRange
                 end).
  set (b := mkBuilder [] (startIndex cellRange) newEnd).
  assert (Hcontent :
    exists deletes inserts,
      textContentRequests cellRange args = deletes ++ inserts /\
      (deletes = [] \/
       deletes = [deleteContentRange (startIndex cellRange)
                    (endIndex cellRange)]) /\
      (inserts = [] \/ exists text, inserts = [insertText (startIndex cellRange) text]) /\
      (textContent args = None -> deletes = [] /\ inserts = [])).
  { unfold textContentRequests. destruct (textContent args) as [text|].
    - eexists _, _. split; [reflexivity|]. repeat split.
      + destruct (endIndex cellRange >? startIndex cellRange); auto.
      + destruct (JsString.length text >? 0); eauto.
      + discriminate.
      + discriminate.
    - exists [], []. repeat split; auto. }
  assert (Hstyle :
    textStyleRequests args b = [] \/
    exists style request,
      textStyleRequests args b = [updateTextStyle request] /\
      textStyle args = Some style /\
      startIndex cellRange < newEnd /\
      buildUpdateTextStyleRequest (startIndex cellRange) newEnd style
        (tabId args) = Some request).
  { unfold textStyleRequests. cbn [newTextStart newTextEnd b].
    destruct (textStyle args) as [style|]; [|now left].
    destruct (newEnd >? startIndex cellRange) eqn:Hspan; [|now left].
    destruct (buildUpdateTextStyleRequest _ _ style (tabId args))
      as [request|] eqn:Hbuilt; [|now left].
    right. exists style, request. repeat split; trivial. lia. }
  assert (Hparagraph :
    paragraphStyleRequests cellRange args b = [] \/
    exists request,
      paragraphStyleRequests cellRange args b = [updateParagraphStyle request]).
  { unfold paragraphStyleRequests.
    destruct (paragraphStyle args) as [style|]; [|now left].
    destruct (newTextEnd b >=? newTextStart b); [|now left].
    destruct (buildUpdateParagraphStyleRequest _ _ style (tabId args));
      eauto. }
  destruct Hcontent as (deletes & inserts & -> & Hd & Hi & Hnone).
  repeat apply conj.
  - destruct Hd as [-> | ->], Hi as [-> | [text ->]],
      Hstyle as [-> | (style & request & -> & _)],
      Hparagraph as [-> | [request' ->]]; reflexivity.
  - destruct Hd as [-> | ->], Hi as [-> | [text ->]],
      Hstyle as [-> | (style & request & -> & _)],
      Hparagraph as [-> | [request' ->]]; cbn; lia.
  - destruct Hd as [-> | ->], Hi as [-> | [text ->]],
      Hstyle as [-> | (style & request & -> & _)],
      Hparagraph as [-> | [request' ->]]; cbn; lia.
  - destruct Hd as [-> | ->], Hi as [-> | [text ->]],
      Hstyle as [-> | (style & request & -> & _)],
      Hparagraph as [-> | [request' ->]]; cbn; lia.
  - destruct Hd as [-> | ->], Hi as [-> | [text ->]],
      Hstyle as [-> | (style & request & -> & _)],
      Hparagraph as [-> | [request' ->]]; cbn; lia.
  - intros request Hin.
    assert (Hin' : In (updateTextStyle request) (textStyleRequests args b)).
    { rewrite !in_app_iff in Hin. destruct Hin as [[Hin|Hin]|[Hin|Hin]].
      - destruct Hd as [-> | ->]; [easy|].
        destruct Hin as [Hin|[]]; discriminate Hin.
      - destruct Hi as [-> | [text ->]]; [easy|].
        destruct Hin as [Hin|[]]; discriminate Hin.
      - exact Hin.
      - destruct Hparagraph as [E | [request' E]]; rewrite E in Hin;
          [easy|]. destruct Hin as [Hin|[]]; discriminate Hin. }
    destruct Hstyle as [E | (style & built & E & Hs & Hspan & Hbuilt)];
      rewrite E in Hin'; [easy|].
    destruct Hin' as [[= <-]|[]]. split; [exact Hspan|]. now exists style.
  - intros Hnothing. destruct (Hnone Hnothing) as [-> ->].
    destruct Hstyle as [-> | (style & request & -> & _)],
      Hparagraph as [-> | [request' ->]]; split; reflexivity.
Qed.

(** X15.  When the editor reports that no change was specified.  It
    does when no text, character style or paragraph style is given;
    and also, whatever character style is given, when there is no
    paragraph style and the text of the cell is or becomes empty (an
    empty cell left as it is or given the empty text): a character
    style alone cannot be applied to an empty cell.  It never does
    when a non-empty text is given, or any text for a cell that is
    not empty. *)
Theorem editTableCell_no_changes (cellRange : CellRange) (args : Args) :
  (textContent args = None -> textStyle args = None ->
   paragraphStyle args = None ->
   submission cellRange args = None) /\
  (paragraphStyle args = None ->
   endIndex cellRange <= startIndex cellRange ->
   textContent args = None \/ textContent args = Some EmptyString ->
   submission cellRange args = None) /\
  (forall text,
      textContent args = Some text ->
      text <> EmptyString \/ startIndex cellRange < endIndex cellRange ->
      exists first rest, submission cellRange args = Some (first :: rest)).
Proof.
  unfold submission. rewrite buildRequests_spec. cbn [requests].
  repeat apply conj.
  - intros Hc Hs Hp.
    unfold textContentRequests, textStyleRequests, paragraphStyleRequests.
    now rewrite Hc, Hs, Hp.
  - intros Hp Hempty Hc.
    unfold textContentRequests, textStyleRequests, paragraphStyleRequests.
    rewrite Hp. cbn [newTextStart newTextEnd].
    assert (Hcell : (endIndex cellRange >? startIndex cellRange) = false)
      by lia.
    destruct Hc as [-> | ->].
    + destruct (textStyle args); [|reflexivity]. now rewrite Hcell.
    + rewrite Hcell. cbn [JsString.length String.length Z.of_nat].
      replace ((startIndex cellRange + 0) >? startIndex cellRange) with false
        by lia.
      now destruct (textStyle args).
  - intros text Hc Hsome.
    assert (Hfirst : exists first rest,
               textContentRequests cellRange args = first :: rest).
    { unfold textContentRequests. rewrite Hc.
      destruct (endIndex cellRange >? startIndex cellRange) eqn:Hcell;
        [cbn; eauto|].
      destruct (JsString.length text >? 0) eqn:Htext; [cbn; eauto|].
      exfalso. destruct Hsome as [Hsome|Hsome]; [|lia].
      apply Hsome, length_zero. pose proof (length_nonneg text). lia. }
    destruct Hfirst as (first & rest & ->). cbn [app List.length].
    rewrite Nat2Z.inj_succ.
    match goal with |- context [?n =? 0] =>
      destruct (Z.eqb_spec n 0) as [Hzero|_]; [lia|] end.
    eauto.
Qed.

End TableCellBatch.

Lemma editTableCell_batch_order_witness :
  Docs.requests
    (Docs.buildRequests (helpers := Docs.spanHelpers) (Docs.mkCellRange 10 15)
       (Docs.mkArgs (helpers := Docs.spanHelpers)
          (Some "new text") (Some ["bold"]) (Some ["center"]) None)) =
  [Docs.deleteContentRange 10 15; Docs.insertText 10 "new text";
   Docs.updateTextStyle (helpers := Docs.spanHelpers) (10, 18);
   Docs.updateParagraphStyle (helpers := Docs.spanHelpers) (10, 19)].
Proof.
  destruct (editTableCell_batch_order (helpers := Docs.spanHelpers)
              (Docs.mkCellRange 10 15)
              (Docs.mkArgs (helpers := Docs.spanHelpers) (Some "new text") (Some ["bold"]) (Some ["center"])
                 None)) as [H _].
  rewrite H. reflexivity.
Defined.

Lemma editTableCell_no_changes_witness :
  Docs.submission (helpers := Docs.spanHelpers) (Docs.mkCellRange 10 10)
    (Docs.mkArgs (helpers := Docs.spanHelpers) (Some "") (Some ["bold"]) None None) = None.
Proof.
  destruct (editTableCell_no_changes (helpers := Docs.spanHelpers)
              (Docs.mkCellRange 10 10)
              (Docs.mkArgs (helpers := Docs.spanHelpers) (Some "") (Some ["bold"]) None None)) as (_ & H & _).
  apply H; [reflexivity | cbn; lia | now right].
Defined.

(** ** Qualifying a range with a sheet and reading it apart again *)

Section QualifiedRanges.
Import JsString.

Lemma includesChar_app (c : ascii) (a b : string) :
  includesChar c (a ++ b)%string = includesChar c a || includesChar c b.
Proof.
  induction a as [|d a IH]; simpl; [reflexivity|].
  now rewrite IH, orb_assoc.
Qed.

Lemma cut_app (sep : ascii) (a b : string) :
  includesChar sep a = false ->
  Split.cut sep (a ++ String sep b)%string = (a, Some b).
Proof.
  induction a as [|d a IH]; simpl.
  - now rewrite Ascii.eqb_refl.
  - rewrite orb_false_iff. intros [Hd Ha]. now rewrite Hd, (IH Ha).
Qed.

Lemma cut_none (sep : ascii) (s : string) :
  includesChar sep s = false -> Split.cut sep s = (s, None).
Proof.
  induction s as [|d s IH]; simpl; [reflexivity|].
  rewrite orb_false_iff. intros [Hd Hs]. now rewrite Hd, (IH Hs).
Qed.

Lemma stripTrailing_none (q : ascii) (s : string) :
  includesChar q s = false -> Split.stripTrailing q s = s.
Proof.
  induction s as [|d s IH]; [reflexivity|].
  cbn [includesChar]. rewrite orb_false_iff. intros [Hd Hs].
  cbn [Split.stripTrailing]. rewrite Hd, (IH Hs). now destruct s.
Qed.

Lemma stripQuotes_none (s : string) :
  includesChar "'" s = false -> Split.stripQuotes s = s.
Proof.
  intros H. unfold Split.stripQuotes.
  assert (Hlead : Split.stripLeading "'" s = s).
  { destruct s as [|d s]; [reflexivity|]. simpl in H |- *.
    apply orb_false_iff in H as [Hd _]. now rewrite Hd. }
  rewrite Hlead. now apply stripTrailing_none.
Qed.

Lemma normalizeRange_qualified (range : string) (sheetName : option string) :
  includesChar "!" range = false ->
  normalizeRange range sheetName =
  ((match truthyText sheetName with Some name => name | None => "Sheet1" end)
     ++ String "!" range)%string.
Proof.
  intros H. unfold normalizeRange, truthyText. rewrite H.
  destruct sheetName as [name|]; [|reflexivity].
  now destruct (truthy name).
Qed.

(** X16.  What [normalizeRange] returns always holds an exclamation
    mark, so normalising it again, with any sheet name, changes
    nothing.  And [parseRange] reads a range that [normalizeRange]
    qualified apart again: when neither the range nor the sheet name
    holds an exclamation mark, the cell part is the range and the
    sheet is the name given (Sheet1 when none or the empty name was
    given) without a single quote at its start and at its end, so
    the name itself when it holds no single quote. *)
Theorem normalizeRange_parseRange (range : string) (sheetName : option string) :
  let name :=
    match truthyText sheetName with Some name => name | None => "Sheet1" end in
  includesChar "!" (normalizeRange range sheetName) = true /\
  (forall other,
      normalizeRange (normalizeRange range sheetName) other =
      normalizeRange range sheetName) /\
  (includesChar "!" range = false ->
   includesChar "!" name = false ->
   parseRange (normalizeRange range sheetName) =
     (Some (Split.stripQuotes name), range) /\
   (includesChar "'" name = false ->
    parseRange (normalizeRange range sheetName) = (Some name, range))).
Proof.
  intros name.
  assert (Hbang : includesChar "!" (normalizeRange range sheetName) = true).
  { destruct (includesChar "!" range) eqn:E.
    - unfold normalizeRange. now rewrite E.
    - rewrite normalizeRange_qualified by exact E.
      rewrite includesChar_app. cbn. now rewrite orb_true_r. }
  split; [exact Hbang|]. split.
  - intros other. unfold normalizeRange at 1. now rewrite Hbang.
  - intros Hrange Hname.
    assert (Hparse : parseRange (normalizeRange range sheetName) =
                     (Some (Split.stripQuotes name), range)).
    { unfold parseRange. rewrite Hbang.
      rewrite normalizeRange_qualified by exact Hrange. fold name.
      rewrite (cut_app "!" name range Hname).
      now rewrite (cut_none "!" range Hrange). }
    split; [exact Hparse|].
    intros Hquote. rewrite Hparse. now rewrite stripQuotes_none.
Qed.

End QualifiedRanges.

Lemma normalizeRange_parseRange_witness :
  parseRange (normalizeRange "A1:B2" (Some "'My Data'")) =
  (Some "My Data", "A1:B2").
Proof.
  destruct (normalizeRange_parseRange "A1:B2" (Some "'My Data'"))
    as (_ & _ & H).
  destruct (H eq_refl eq_refl) as [Hparse _]. exact Hparse.
Defined.

(** ** The calls of [formatCells] and of [freezeRowsAndColumns] *)

Section SingleRequestCalls.
Context {client : SheetsClient}.

(** X17.  [formatCells] checks the range before it writes.  Once the
    sheet is resolved, a cell part that is no range makes it fail with
    the error of the parser after the one read, with nothing sent;
    otherwise it sends one batch update of one repeat-cell request,
    for the parsed range, with the payload of the format and the
    fixed mask, and answers what the service answers (its failure
    translated). *)
Theorem formatCells_calls (spreadsheetId range : string)
    (format : FormatCells.Format) (w : World) (sheetId : Z) :
  snd (resolveSheetId spreadsheetId (fst (parseRange range)) w) = inr sheetId ->
  match parseA1ToGridRange (snd (parseRange range)) sheetId with
  | inl e =>
      formatCells spreadsheetId range format w =
      (afterGet spreadsheetId None w, inl e)
  | inr gridRange =>
      formatCells spreadsheetId range format w =
      afterUpdate "format cells" spreadsheetId
        [Schema.repeatCell gridRange (formatCellsPayload format)
           formatCellsFields] w
  end.
Proof.
  rewrite resolveSheetId_run. cbn [snd]. intros Hid.
  unfold formatCells. destruct (parseRange range) as [sheetName a1Range].
  cbn [fst snd] in *.
  unfold tryCatch, bind, lift. rewrite resolveSheetId_run, Hid.
  destruct (parseA1ToGridRange a1Range sheetId) as [e|gridRange];
    [reflexivity|].
  unfold spreadsheets_batchUpdate, afterUpdate, afterGet.
  cbn [remote calls].
  destruct (answerBatchUpdate (remote w) spreadsheetId _)
    as [remote' [e|answer]]; cbn; now rewrite <- app_assoc.
Qed.

(** X18.  [freezeRowsAndColumns] sends its request whenever the sheet
    is resolved: one batch update of one sheet-properties request,
    whose mask lists the counts that are set and no other.  Given
    neither count it still sends the request, with no count and the
    empty mask. *)
Theorem freezeRowsAndColumns_calls (spreadsheetId : string)
    (sheetName : option string) (frozenRows frozenColumns : option Z)
    (w : World) (sheetId : Z) :
  snd (resolveSheetId spreadsheetId sheetName w) = inr sheetId ->
  let gridProperties := fst (freezeProperties frozenRows frozenColumns) in
  freezeRowsAndColumns spreadsheetId sheetName frozenRows frozenColumns w =
    afterUpdate "freeze rows/columns" spreadsheetId
      [Schema.updateSheetProperties sheetId gridProperties
         (join (populatedGridPaths gridProperties))] w /\
  Schema.frozenRowCount gridProperties = frozenRows /\
  Schema.frozenColumnCount gridProperties = frozenColumns /\
  (frozenRows = None -> frozenColumns = None ->
   join (populatedGridPaths gridProperties) = EmptyString).
Proof.
  rewrite resolveSheetId_run. cbn [snd]. intros Hid. cbv zeta.
  rewrite <- freezeProperties_agree.
  repeat apply conj.
  - unfold freezeRowsAndColumns.
    unfold tryCatch, bind. rewrite resolveSheetId_run, Hid.
    destruct (freezeProperties frozenRows frozenColumns)
      as [gridProperties fieldParts]. cbn [fst snd].
    unfold spreadsheets_batchUpdate, afterUpdate, afterGet.
    cbn [remote calls].
    destruct (answerBatchUpdate (remote w) spreadsheetId _)
      as [remote' [e|answer]]; cbn; now rewrite <- app_assoc.
  - now destruct frozenRows, frozenColumns.
  - now destruct frozenRows, frozenColumns.
  - now intros -> ->.
Qed.

End SingleRequestCalls.

Lemma formatCells_calls_witness :
  formatCells (client := memoryClient) "doc" "Data!B2:C3" boldOnly
    (mkWorld (client := memoryClient) twoSheets []) =
  (mkWorld (client := memoryClient) twoSheets
     [SpreadsheetsGet "doc" None;
      SpreadsheetsBatchUpdate "doc"
        [Schema.repeatCell
           (mkGridRange 7 (Some 1) (Some 3) (Some 1) (Some 3))
           (formatCellsPayload boldOnly) formatCellsFields]],
   inr 1%nat).
Proof.
  exact (formatCells_calls (client := memoryClient) "doc" "Data!B2:C3"
           boldOnly (mkWorld (client := memoryClient) twoSheets []) 7 eq_refl).
Defined.

Lemma freezeRowsAndColumns_calls_witness :
  calls (fst (freezeRowsAndColumns (client := memoryClient) "doc" (Some "Data")
                None None (mkWorld (client := memoryClient) twoSheets []))) =
  [SpreadsheetsGet "doc" None;
   SpreadsheetsBatchUpdate "doc"
     [Schema.updateSheetProperties 7 Schema.emptyGridProperties ""]].
Proof.
  destruct (freezeRowsAndColumns_calls (client := memoryClient) "doc"
              (Some "Data") None None
              (mkWorld (client := memoryClient) twoSheets []) 7 eq_refl)
    as [H _].
  rewrite H. reflexivity.
Defined.

(** ** The cell references of the readers *)

Section CellReferences.
Import JsString.

Lemma rowValidations_spec (startRow startCol rowIdx : Z)
    (values : list Validation.CellData) (colIdx : Z)
    (validations : list Validation.Entry) :
  0 <= startRow -> 0 <= rowIdx -> 0 <= startCol -> 0 <= colIdx ->
  Validation.rowValidations startRow startCol rowIdx values colIdx validations =
  inr (validations ++
       map (entryAt startRow startCol)
         (rowCells rowIdx (indexedFrom colIdx values))).
Proof.
  intros Hrow Hidx Hstart. revert colIdx validations.
  induction values as [|cellData rest IH]; intros colIdx validations Hcol.
  - cbn. now rewrite app_nil_r.
  - cbn [Validation.rowValidations indexedFrom rowCells flat_map].
    rewrite rowColToA1_letters by (apply double_nonneg; lia).
    rewrite IH by lia. fold (rowCells rowIdx (indexedFrom (colIdx + 1) rest)).
    destruct (Validation.dataValidation cellData) as [dv|]; [|reflexivity].
    cbn [app map entryAt]. now rewrite <- app_assoc.
Qed.

Lemma gridValidations_spec (startRow startCol : Z)
    (rows : list Validation.RowData) (rowIdx : Z)
    (validations : list Validation.Entry) :
  0 <= startRow -> 0 <= rowIdx -> 0 <= startCol ->
  Validation.gridValidations startRow startCol rows rowIdx validations =
  inr (validations ++
       map (entryAt startRow startCol) (gridCells (indexedFrom rowIdx rows))).
Proof.
  intros Hrow Hidx Hcol. revert rowIdx validations Hidx.
  induction rows as [|row rest IH]; intros rowIdx validations Hidx.
  - cbn. now rewrite app_nil_r.
  - cbn [Validation.gridValidations indexedFrom gridCells flat_map].
    fold (gridCells (indexedFrom (rowIdx + 1) rest)).
    destruct (Validation.rowValues row) as [values|].
    + rewrite rowValidations_spec by lia. rewrite IH by lia.
      now rewrite map_app, app_assoc.
    + now rewrite IH by lia.
Qed.

Lemma rowCells_bounds (i : Z) (values : list Validation.CellData) (from : Z) :
  Forall (fun '(i', j, _) => i' = i /\ from <= j)
    (rowCells i (indexedFrom from values)).
Proof.
  revert from. induction values as [|cellData rest IH]; intros from;
    [constructor|].
  cbn [indexedFrom rowCells flat_map]. apply Forall_app. split.
  - destruct (Validation.dataValidation cellData); repeat constructor. lia.
  - eapply Forall_impl; [|apply (IH (from + 1))].
    intros [[i' j] dv] [Hi Hj]. split; [exact Hi | lia].
Qed.

Lemma gridCells_bounds (rows : list Validation.RowData) (from : Z) :
  Forall (fun '(i, j, _) =>
            from <= i < from + Z.of_nat (List.length rows) /\ 0 <= j)
    (gridCells (indexedFrom from rows)).
Proof.
  revert from. induction rows as [|row rest IH]; intros from; [constructor|].
  cbn [indexedFrom gridCells flat_map]. apply Forall_app. split.
  - destruct (Validation.rowValues row) as [values|]; [|constructor].
    eapply Forall_impl; [|apply rowCells_bounds].
    intros [[i j] dv] [-> Hj]. cbn [List.length]. lia.
  - eapply Forall_impl; [|apply (IH (from + 1))].
    intros [[i j] dv] [Hi Hj]. cbn [List.length]. lia.
Qed.

(** X19.  The cells [getDataValidation] answers.  Without a first
    sheet, a first grid in it or rows in that grid, it answers no
    validation.  With rows, and a grid that starts at a row and a
    column that are not negative, it answers one entry for each cell
    that carries a validation, row by row and in each row from left to
    right; the cell of an entry is the address [rowColToA1] writes for
    the position of the cell in the sheet, the sums, as the code
    computes them, of the start of the grid and the offsets of the
    cell.  For a position below 2^53 in row and column these sums are
    exact and the address reads back, by [a1ToRowCol], as the start
    of the grid plus the offsets of the cell. *)
Theorem getDataValidation_cells (range : string)
    (response : Validation.Response) :
  ((forall sheet others grid grids,
       Validation.sheets response = Some (sheet :: others) ->
       Validation.data sheet = Some (grid :: grids) ->
       Validation.rowData grid = None) ->
   Validation.validationsOf range response = inr (range, [])) /\
  (forall sheet others grid grids rows,
      Validation.sheets response = Some (sheet :: others) ->
      Validation.data sheet = Some (grid :: grids) ->
      Validation.rowData grid = Some rows ->
      let startRow := orZero (Validation.startRow grid) in
      let startCol := orZero (Validation.startColumn grid) in
      0 <= startRow -> 0 <= startCol ->
      Validation.validationsOf range response =
        inr (range, map (entryAt startRow startCol) (validatedCells rows)) /\
      Forall (fun '(i, j, dv) =>
                0 <= i < Z.of_nat (List.length rows) /\ 0 <= j /\
                rowColToA1 (JsNumber.add startRow i) (JsNumber.add startCol j) =
                  inr (cellAt startRow startCol i j) /\
                (startRow + i < 2 ^ 53 -> startCol + j < 2 ^ 53 ->
                 a1ToRowCol (cellAt startRow startCol i j) =
                   Some (RowCol.mk (startRow + i) (startCol + j))))
        (validatedCells rows)).
Proof.
  split.
  - intros Hnone. unfold Validation.validationsOf, firstOf.
    destruct (Validation.sheets response) as [[|sheet others]|];
      try reflexivity.
    destruct (Validation.data sheet) as [[|grid grids]|] eqn:Hdata;
      try reflexivity.
    now rewrite (Hnone sheet others grid grids eq_refl Hdata).
  - intros sheet others grid grids rows Hsheets Hdata Hrows startRow startCol
      Hrow Hcol.
    split.
    + unfold Validation.validationsOf, firstOf.
      rewrite Hsheets, Hdata, Hrows. fold startRow startCol.
      now rewrite gridValidations_spec by lia.
    + unfold validatedCells.
      eapply Forall_impl; [|apply gridCells_bounds].
      intros [[i j] dv] [Hi Hj]. unfold cellAt.
      split; [lia|]. split; [lia|]. split.
      * now rewrite rowColToA1_letters by (apply double_nonneg; lia).
      * intros Hbr Hbc.
        rewrite (add_exact startRow i), (add_exact startCol j) by lia.
        now rewrite rowColToA1_read_back by lia.
Qed.

End CellReferences.

Lemma getDataValidation_cells_witness :
  Validation.validationsOf "Data!B3:C3"
    (Validation.mkResponse
       (Some [Validation.mkSheet
                (Some [Validation.mkGridData (Some 2) (Some 1)
                         (Some [Validation.mkRowData
                                  (Some [Validation.mkCellData None;
                                         Validation.mkCellData
                                           (Some (Validation.mkRule None
                                                    (Some "Pick one")
                                                    (Some true) None))])])])])) =
  inr ("Data!B3:C3",
       [Validation.mkEntry "C3" None (Some "Pick one") (Some true) None]).
Proof.
  match goal with
  | |- Validation.validationsOf ?range ?response = _ =>
      destruct (getDataValidation_cells range response) as [_ H]
  end.
  destruct (H _ _ _ _ _ eq_refl eq_refl eq_refl) as [Hcells _];
    [cbn; lia | cbn; lia |].
  rewrite Hcells. reflexivity.
Defined.

(** ** The cell references of the tool [getCellFormatting] *)

Section FormattingReferences.
Import JsString.

Lemma replaceDigits_suffix (letters digits : string) :
  forallb isUpper letters = true ->
  forallb isDigit digits = true ->
  replaceDigits (letters ++ digits)%string = letters.
Proof.
  intros Hl Hd. induction letters as [|c letters IH].
  - destruct digits as [|d digits]; [reflexivity|].
    cbn [append replaceDigits]. cbn [forallb] in Hd.
    apply andb_true_iff in Hd as [Hc Hd]. rewrite Hc.
    now rewrite (span_all isDigit digits Hd).
  - cbn [forallb] in Hl. apply andb_true_iff in Hl as [Hc Hl].
    cbn [append replaceDigits].
    assert (Hletter : isLetter c = true) by (unfold isLetter; now rewrite Hc).
    rewrite (letter_not_digit c Hletter). now rewrite (IH Hl).
Qed.

(** X20.  The tool [getCellFormatting] names a cell as the helpers do.
    It takes the column letters from the address of the first row of
    that column, with the digits removed, and appends the row number;
    for a grid that starts at a row that is not negative, and a cell
    whose row and column in the sheet are not negative and lie below
    2^53, this is the address [rowColToA1] writes for the cell, so it
    reads back, by [a1ToRowCol], as the start of the grid plus the
    offsets of the cell.  When the column is negative the tool fails
    with the error of [rowColToA1]. *)
Theorem getCellFormatting_cell_reference (startRow startColumn : option Z)
    (r c : Z) :
  let row := orZero startRow + r in
  let col := orZero startColumn + c in
  (0 <= orZero startRow -> 0 <= r -> row < 2 ^ 53 -> 0 <= col < 2 ^ 53 ->
   formattingCellRef startRow startColumn r c = rowColToA1 row col /\
   formattingCellRef startRow startColumn r c =
     inr (cellAt (orZero startRow) (orZero startColumn) r c) /\
   a1ToRowCol (cellAt (orZero startRow) (orZero startColumn) r c) =
     Some (RowCol.mk row col)) /\
  (- 2 ^ 53 <= col < 0 ->
   formattingCellRef startRow startColumn r c = inl (NegativeRowCol 0 col)).
Proof.
  intros row col. split.
  - intros Hstart Hr Hrow Hcol.
    assert (Hcell : cellAt (orZero startRow) (orZero startColumn) r c =
                    (indexToColumnLetters col ++
                     JsNumber.toString (JsNumber.add row 1))%string).
    { unfold cellAt. fold col.
      rewrite (add_exact (orZero startColumn) c) by (fold col; lia).
      now rewrite (add_exact (orZero startRow) r) by (fold row; lia). }
    assert (Href : formattingCellRef startRow startColumn r c =
                   inr (cellAt (orZero startRow) (orZero startColumn) r c)).
    { rewrite Hcell. unfold formattingCellRef.
      rewrite (add_exact (orZero startColumn) c) by (fold col; lia).
      fold col. rewrite rowColToA1_letters by lia.
      rewrite replaceDigits_suffix;
        [| now apply indexToColumnLetters_upper | reflexivity].
      rewrite (add_exact (orZero startRow) 1) by lia.
      rewrite (add_exact (orZero startRow + 1) r) by (unfold row in Hrow; lia).
      rewrite (add_exact row 1) by lia.
      now replace (orZero startRow + 1 + r) with (row + 1)
        by (unfold row; lia). }
    repeat split.
    + rewrite Href, Hcell. now rewrite rowColToA1_letters by lia.
    + exact Href.
    + rewrite Hcell. apply rowColToA1_read_back; lia.
  - intros Hcol. unfold formattingCellRef, rowColToA1.
    rewrite (add_exact (orZero startColumn) c) by (fold col; lia).
    fold col. destruct (col <? 0) eqn:E; [reflexivity | lia].
Qed.

End FormattingReferences.

Lemma getCellFormatting_cell_reference_witness :
  formattingCellRef (Some 9) None 2 27 = inr "AB12" /\
  a1ToRowCol "AB12" = Some (RowCol.mk 11 27).
Proof.
  destruct (getCellFormatting_cell_reference (Some 9) None 2 27) as [H _].
  destruct H as (_ & Href & Hback); try (cbn; lia).
  split; [exact Href | exact Hback].
Defined.

(** ** A dropdown written and read *)

Section Dropdowns.
Context {client : SheetsClient}.

Lemma valueText_entered (v : string) :
  Validation.valueText (Validation.mkConditionValue (Some v) None) = v.
Proof. now destruct v. Qed.

Lemma truthyText_idempotent (text : option string) :
  truthyText (truthyText text) = truthyText text.
Proof.
  destruct text as [t|]; [|reflexivity]. cbn.
  destruct (JsString.truthy t) eqn:E; [|reflexivity]. cbn. now rewrite E.
Qed.

(** What [getDataValidation] answers for a cell that carries the rule
    of a source range, and for one that carries the rule of a list. *)
Lemma rangeRule_entry (cellRef : string) (strict : bool)
    (inputMessage srcSheet : option string) (srcA1 : string) :
  Validation.entry cellRef (rangeRule strict inputMessage srcSheet srcA1) =
  Validation.mkEntry cellRef
    (Some (Validation.mkCondition "ONE_OF_RANGE"
             [("=" ++
               match truthyText srcSheet with
               | Some name => "'" ++ name ++ "'!"
               | None => ""
               end ++ srcA1)%string]))
    (truthyText inputMessage) (Some strict) (Some true).
Proof.
  unfold Validation.entry, rangeRule. cbn -[append truthyText].
  rewrite truthyText_idempotent. rewrite valueText_entered. reflexivity.
Qed.

Lemma listRule_entry (cellRef : string) (strict : bool)
    (inputMessage : option string) (values : list string) :
  Validation.entry cellRef (listRule strict inputMessage values) =
  Validation.mkEntry cellRef
    (Some (Validation.mkCondition "ONE_OF_LIST" values))
    (truthyText inputMessage) (Some strict) (Some true).
Proof.
  unfold Validation.entry, listRule.
  cbn [Validation.condition Validation.values Validation.type
       Validation.inputMessage Validation.strict Validation.showCustomUi].
  rewrite truthyText_idempotent. rewrite map_map.
  rewrite (map_ext _ (fun v => v) valueText_entered), map_id.
  reflexivity.
Qed.

(** X21.  The request [setDropdownValidation] is about to send, once
    the sheet of its range is resolved and the cell part of the range
    parsed, and what [getDataValidation] answers for a cell that
    carries its rule.  With a source range the helper reads the
    metadata a second time to resolve the sheet of that range and
    parses its cell part: a cell part that is no range address makes
    it fail with the error of the parser, as every cell part that
    holds a character other than a letter, a digit and the colon does
    (the dollar sign of an absolute reference, say); otherwise the
    rule is of type ONE_OF_RANGE whatever the values given, and its
    one value is the formula of the range, the sheet name between
    single quotes.  Without a source range and with a list of values
    that is not empty, the rule is of type ONE_OF_LIST and is read
    back with the same values in the same order, the empty input
    message as none, the strictness given (strict by default) and the
    dropdown shown; with neither, there is no rule, which clears the
    range. *)
Theorem dropdownRequest_rule (spreadsheetId range : string)
    (values : option (list string)) (strict : option bool)
    (inputMessage sourceRange : option string) (cellRef : string)
    (w : World) (sheetId : Z) (gridRange : GridRange) :
  snd (resolveSheetId spreadsheetId (fst (parseRange range)) w) = inr sheetId ->
  parseA1ToGridRange (snd (parseRange range)) sheetId = inr gridRange ->
  let strictness := match strict with Some b => b | None => true end in
  let request :=
    dropdownRequest spreadsheetId range values strict inputMessage
      sourceRange w in
  let read := afterGet spreadsheetId None w in
  (forall source srcSheetId,
      truthyText sourceRange = Some source ->
      snd (resolveSheetId spreadsheetId (fst (parseRange source)) read) =
        inr srcSheetId ->
      match parseA1ToGridRange (snd (parseRange source)) srcSheetId with
      | inl e => request = (afterGet spreadsheetId None read, inl e)
      | inr _ =>
          exists rule,
            request =
              (afterGet spreadsheetId None read,
               inr (gridRange, Some rule)) /\
            Validation.entry cellRef rule =
              Validation.mkEntry cellRef
                (Some (Validation.mkCondition "ONE_OF_RANGE"
                         [("=" ++
                           match truthyText (fst (parseRange source)) with
                           | Some name => "'" ++ name ++ "'!"
                           | None => ""
                           end ++ snd (parseRange source))%string]))
                (truthyText inputMessage) (Some strictness) (Some true)
      end) /\
  (forall source srcSheetId,
      truthyText sourceRange = Some source ->
      snd (resolveSheetId spreadsheetId (fst (parseRange source)) read) =
        inr srcSheetId ->
      JsString.forallb isAddressChar (snd (parseRange source)) = false ->
      request =
        (afterGet spreadsheetId None read,
         inl (InvalidRangeFormat (snd (parseRange source))))) /\
  (forall first rest,
      truthyText sourceRange = None ->
      values = Some (first :: rest) ->
      exists rule,
        request = (read, inr (gridRange, Some rule)) /\
        Validation.entry cellRef rule =
          Validation.mkEntry cellRef
            (Some (Validation.mkCondition "ONE_OF_LIST" (first :: rest)))
            (truthyText inputMessage) (Some strictness) (Some true)) /\
  (truthyText sourceRange = None ->
   values = None \/ values = Some [] ->
   request = (read, inr (gridRange, None))).
Proof.
  intros Hid Hrange strictness request read.
  rewrite resolveSheetId_run in Hid. cbn [snd] in Hid.
  assert (Hsource : forall source srcSheetId,
    truthyText sourceRange = Some source ->
    snd (resolveSheetId spreadsheetId (fst (parseRange source)) read) =
      inr srcSheetId ->
    request =
      (afterGet spreadsheetId None read,
       match parseA1ToGridRange (snd (parseRange source)) srcSheetId with
       | inl e => inl e
       | inr _ =>
           inr (gridRange,
                Some (rangeRule strictness inputMessage
                        (fst (parseRange source)) (snd (parseRange source))))
       end)).
  { intros source srcSheetId Hsrc. rewrite resolveSheetId_run. cbn [snd].
    intros Hsrcid. unfold request, dropdownRequest. fold strictness.
    destruct (parseRange range) as [sheetName a1Range].
    cbn [fst snd] in *. rewrite Hsrc.
    destruct (parseRange source) as [srcSheet srcA1]. cbn [fst snd] in *.
    unfold tryCatch, bind, lift, ret.
    rewrite resolveSheetId_run, Hid, Hrange.
    fold read. rewrite resolveSheetId_run, Hsrcid.
    now destruct (parseA1ToGridRange srcA1 srcSheetId). }
  assert (Hvalues : truthyText sourceRange = None ->
    request =
      (read,
       inr (gridRange,
            match values with
            | Some (first :: rest) =>
                Some (listRule strictness inputMessage (first :: rest))
            | _ => None
            end))).
  { intros Hnone. unfold request, dropdownRequest. fold strictness.
    destruct (parseRange range) as [sheetName a1Range].
    cbn [fst snd] in *. rewrite Hnone.
    unfold tryCatch, bind, lift, ret.
    rewrite resolveSheetId_run, Hid, Hrange. fold read.
    now destruct values as [[|first rest]|]. }
  repeat apply conj.
  - intros source srcSheetId Hsrc Hsrcid.
    rewrite (Hsource source srcSheetId Hsrc Hsrcid).
    destruct (parseA1ToGridRange (snd (parseRange source)) srcSheetId);
      [reflexivity|].
    eexists. split; [reflexivity | apply rangeRule_entry].
  - intros source srcSheetId Hsrc Hsrcid Hchar.
    rewrite (Hsource source srcSheetId Hsrc Hsrcid).
    destruct (range_text_guard (snd (parseRange source))) as (_ & _ & H).
    destruct (H Hchar) as (Hparse & _). now rewrite Hparse.
  - intros first rest Hnone ->. rewrite (Hvalues Hnone).
    eexists. split; [reflexivity | apply listRule_entry].
  - intros Hnone [-> | ->]; now rewrite (Hvalues Hnone).
Qed.

End Dropdowns.

Lemma dropdownRequest_rule_witness :
  exists rule,
    dropdownRequest (client := memoryClient) "doc" "Data!B2:B9"
      (Some ["Open"; "Done"]) None (Some "") None
      (mkWorld (client := memoryClient) twoSheets []) =
    (afterGet (client := memoryClient) "doc" None
       (mkWorld (client := memoryClient) twoSheets []),
     inr (mkGridRange 7 (Some 1) (Some 9) (Some 1) (Some 2), Some rule)) /\
    Validation.entry "B2" rule =
      Validation.mkEntry "B2"
        (Some (Validation.mkCondition "ONE_OF_LIST" ["Open"; "Done"]))
        None (Some true) (Some true).
Proof.
  destruct (dropdownRequest_rule (client := memoryClient) "doc" "Data!B2:B9"
              (Some ["Open"; "Done"]) None (Some "") None "B2"
              (mkWorld (client := memoryClient) twoSheets []) 7
              (mkGridRange 7 (Some 1) (Some 9) (Some 1) (Some 2))
              eq_refl eq_refl) as (_ & _ & H & _).
  exact (H "Open" ["Done"] eq_refl eq_refl).
Defined.

(** The source range the tool describes, with absolute references, is
    refused after the two reads, and so is every dropdown from it. *)
Example dropdownRequest_absolute_source :
  dropdownRequest (client := memoryClient) "doc" "Data!B2:B9" None None None
    (Some "Sheet1!$W$1:$W$7")
    (mkWorld (client := memoryClient) twoSheets []) =
  (mkWorld (client := memoryClient) twoSheets
     [SpreadsheetsGet "doc" None; SpreadsheetsGet "doc" None],
   inl (InvalidRangeFormat "$W$1:$W$7")).
Proof. reflexivity. Qed.

(** ** The format of a conditional rule *)

Section ConditionalRules.
Import ConditionalFormat.

Lemma ruleOf_spec (args : Args) :
  ruleOf args =
  mkRule (conditionType args)
    (option_map (fun value => [value]) (truthyText (conditionValue args)))
    (rgbOf (backgroundColor args)) (rgbOf (textColor args))
    (bold args) (italic args).
Proof.
  destruct args as [kind value bg tc b i]. unfold ruleOf, rgbOf.
  cbn [conditionType conditionValue backgroundColor textColor bold italic].
  destruct (truthyText value) as [v|];
    (destruct (truthyText bg) as [bgText|];
       [destruct (hexToRgb bgText) as [bgColour|]|]);
    (destruct (truthyText tc) as [tcText|];
       [destruct (hexToRgb tcText) as [tcColour|]|]);
    destruct b as [b|], i as [i|]; reflexivity.
Qed.

(** X22.  The format of the rule the tool [addConditionalFormatRule]
    hands to the helper.  A colour text that [hexToRgb] rejects is
    left out without an error, as an absent or empty one is; a
    colour it accepts is sent opaque.  The format has a text format
    exactly when a text colour was accepted or bold or italic is
    given, and that text format holds these and nothing else; no
    other attribute of the format is set.  The condition has the
    type given, and the value given as its one value unless it is
    absent or empty. *)
Theorem conditionalRule_format (args : Args) :
  let format := formatOf (ruleOf args) in
  Schema.backgroundColor format = colourOf (backgroundColor args) /\
  (Schema.textFormat format = None <->
   colourOf (textColor args) = None /\ bold args = None /\
   italic args = None) /\
  (forall textFormat,
      Schema.textFormat format = Some textFormat ->
      textFormat =
      Schema.mkTextFormat (colourOf (textColor args)) None (bold args)
        (italic args) None) /\
  Schema.horizontalAlignment format = None /\
  Schema.verticalAlignment format = None /\
  Schema.numberFormat format = None /\
  Schema.wrapStrategy format = None /\
  conditionOf (ruleOf args) =
    mkCondition (conditionType args)
      (option_map (fun value => [value]) (truthyText (conditionValue args))).
Proof.
  rewrite ruleOf_spec. unfold colourOf, formatOf, conditionOf.
  cbn [type values ruleBackgroundColor ruleTextColor ruleBold ruleItalic].
  destruct (rgbOf (backgroundColor args)) as [bg|],
    (rgbOf (textColor args)) as [tc|],
    (bold args) as [b|], (italic args) as [i|],
    (truthyText (conditionValue args)) as [v|];
    cbn; repeat split; try reflexivity; try discriminate;
    try (intros (H1 & H2 & H3); discriminate);
    try (now intros textFormat [= <-]).
Qed.

End ConditionalRules.

Lemma conditionalRule_format_witness :
  Schema.backgroundColor
    (ConditionalFormat.formatOf
       (ConditionalFormat.ruleOf
          (ConditionalFormat.mkArgs ConditionalFormat.NUMBER_GREATER
             (Some "0") (Some "not a colour") None (Some true) None))) = None.
Proof.
  destruct (conditionalRule_format
              (ConditionalFormat.mkArgs ConditionalFormat.NUMBER_GREATER
                 (Some "0") (Some "not a colour") None (Some true) None))
    as [H _].
  rewrite H. reflexivity.
Defined.

Lemma updateScriptFile_getScriptFile_witness :
  Script.selectedFile
    (Some (Script.updatedFiles (Other := unit)
             (Some [Script.mkFile (Some "Code") (Some "SERVER_JS")
                      (Some "old") None;
                    Script.mkFile (Some "Page") (Some "HTML") (Some "<p/>")
                      (Some tt)])
             "Code" "new" (Some Script.JSON)))
    "Page" =
  Some (Script.mkSource "Page" "HTML" "<p/>").
Proof.
  match goal with
  | |- Script.selectedFile
         (Some (Script.updatedFiles ?files ?name ?source ?type)) _ = _ =>
      destruct (updateScriptFile_getScriptFile files name source type)
        as (_ & H & _)
  end.
  rewrite H; [reflexivity | discriminate].
Defined.
